(** * fermi: the estimate parser, the unit converter and the scorer

    A shallow embedding of [src/structs.py], [src/utils.py],
    [src/eval/eval.py] and [src/eval/baselines.py].

    - Python values are an inductive type, [py_value]; a raised exception is
      the second case of an explicit [outcome].
    - What the program asks of its surroundings (the completion service,
      [json.loads], [float], [eval], [repr], the iteration order of a set,
      the clock, the data file) is the interface [Runtime]; the program is
      written once, for every runtime.
    - [cpython] is a concrete runtime, with a decoder of JSON texts, a reader
      of float texts and an evaluator of arithmetic expressions; the program
      is run in it on concrete texts.

    The error the specification calls ParseError is the ValueError that
    [parse_estimate] raises; its ConversionResult is what [convert_units]
    returns, a number or a text, as [calculate_score] reads it. *)

From Stdlib Require Import ZArith Bool List Ascii String DecimalString Lia Permutation.
From Stdlib Require Import Floats.SpecFloat.
Import ListNotations.

Local Open Scope string_scope.
Local Open Scope Z_scope.

(** ** Outcomes: a value or a raised exception *)

(** The exception classes the program and its runtime raise.  [SystemExit] and
    [KeyboardInterrupt] derive from [BaseException] only; [JSONDecodeError]
    derives from [ValueError]; the others derive from [Exception]. *)
Inductive exn_class : Type :=
| SystemExit | KeyboardInterrupt
| ValueError | JSONDecodeError | TypeError | NameError | SyntaxError
| ZeroDivisionError | OverflowError | KeyError | IndexError | RuntimeError.

Record py_exn : Type := Exn { exn_type : exn_class; exn_str : string }.

Inductive outcome (A : Type) : Type :=
| Ret (a : A)
| Raise (e : py_exn).
Arguments Ret {A} a.
Arguments Raise {A} e.

Definition bind {A B : Type} (m : outcome A) (k : A -> outcome B) : outcome B :=
  match m with
  | Ret a => k a
  | Raise e => Raise e
  end.

Notation "x <- m ;; k" := (bind m (fun x => k))
  (at level 61, m at next level, right associativity).

(** [except Exception] *)
Definition is_Exception (c : exn_class) : bool :=
  match c with
  | SystemExit | KeyboardInterrupt => false
  | _ => true
  end.

(** [except ValueError] *)
Definition is_ValueError (c : exn_class) : bool :=
  match c with
  | ValueError | JSONDecodeError => true
  | _ => false
  end.

(** [except json.JSONDecodeError] *)
Definition is_JSONDecodeError (c : exn_class) : bool :=
  match c with
  | JSONDecodeError => true
  | _ => false
  end.

(** ** Text

    A [string] is a sequence of characters with code points below 256. *)

Definition dquote : ascii := ascii_of_nat 34.

(** Writes a text that holds double quotes: every backquote stands for one. *)
Fixpoint dq (s : string) : string :=
  match s with
  | EmptyString => EmptyString
  | String c s' => String (if Ascii.eqb c "`" then dquote else c) (dq s')
  end.

(** First and last position of a character, as [str.find] and [str.rfind]
    return them for a needle of one character: -1 when it does not occur. *)
Fixpoint index_of (c : ascii) (s : string) : option nat :=
  match s with
  | EmptyString => None
  | String a s' =>
      if Ascii.eqb a c then Some O
      else match index_of c s' with
           | Some i => Some (S i)
           | None => None
           end
  end.

Fixpoint rindex_of (c : ascii) (s : string) : option nat :=
  match s with
  | EmptyString => None
  | String a s' =>
      match rindex_of c s' with
      | Some i => Some (S i)
      | None => if Ascii.eqb a c then Some O else None
      end
  end.

Definition find (s : string) (c : ascii) : Z :=
  match index_of c s with
  | Some i => Z.of_nat i
  | None => -1
  end.

Definition rfind (s : string) (c : ascii) : Z :=
  match rindex_of c s with
  | Some i => Z.of_nat i
  | None => -1
  end.

(** A slice bound as Python reads it: a negative bound counts from the end,
    and every bound is clamped to the text. *)
Definition slice_bound (len i : Z) : Z :=
  if i <? 0 then Z.max (i + len) 0 else Z.min i len.

(** [s[start:stop]] *)
Definition slice (s : string) (start stop : Z) : string :=
  let len := Z.of_nat (String.length s) in
  let a := slice_bound len start in
  let b := slice_bound len stop in
  substring (Z.to_nat a) (Z.to_nat (b - a)) s.

(** [s[start:]] *)
Definition slice_from (s : string) (start : Z) : string :=
  slice s start (Z.of_nat (String.length s)).

(** [s.startswith(p)] *)
Definition startswith (s p : string) : bool := prefix p s.

(** [s.endswith(p)]: [p] is [s] or the end of a tail of [s]. *)
Fixpoint endswith (s p : string) : bool :=
  String.eqb s p ||
  match s with
  | EmptyString => false
  | String _ s' => endswith s' p
  end.

(** [str.isspace] on one character: tab to carriage return, the four
    separators 28 to 31, the space, NEL and the no-break space. *)
Definition isspace (c : ascii) : bool :=
  let n := nat_of_ascii c in
  ((9 <=? n) && (n <=? 13) || (28 <=? n) && (n <=? 32)
   || (n =? 133) || (n =? 160))%nat.

Fixpoint lstrip (s : string) : string :=
  match s with
  | EmptyString => EmptyString
  | String c s' => if isspace c then lstrip s' else s
  end.

Fixpoint rstrip (s : string) : string :=
  match s with
  | EmptyString => EmptyString
  | String c s' =>
      match rstrip s' with
      | EmptyString => if isspace c then EmptyString else String c EmptyString
      | r => String c r
      end
  end.

(** [s.strip()] *)
Definition strip (s : string) : string := lstrip (rstrip s).

(** [str.lower] on one character: the Latin capitals, plain and accented. *)
Definition lower_char (c : ascii) : ascii :=
  let n := nat_of_ascii c in
  if ((65 <=? n) && (n <=? 90)
      || (192 <=? n) && (n <=? 222) && negb (n =? 215))%nat
  then ascii_of_nat (n + 32) else c.

(** [s.lower()] *)
Fixpoint lower_str (s : string) : string :=
  match s with
  | EmptyString => EmptyString
  | String c s' => String (lower_char c) (lower_str s')
  end.

(** [sep.join(parts)] *)
Definition join (sep : string) (parts : list string) : string :=
  String.concat sep parts.

Definition mem (k : string) (l : list string) : bool :=
  existsb (String.eqb k) l.

(** ** Numbers

    An [int] is a [Z]; a [float] is an IEEE 754 binary64 value, as
    [spec_float] with precision 53 and maximal exponent 1024; [bool] is the
    subclass of [int] that it is in Python. *)

Definition prec : Z := 53.
Definition emax : Z := 1024.

Inductive py_num : Type :=
| NBool (b : bool)
| NInt (z : Z)
| NFloat (f : spec_float).

Definition TypeError_ (msg : string) : py_exn := Exn TypeError msg.
Definition ValueError_ (msg : string) : py_exn := Exn ValueError msg.

(** [float(z)] for an int: rounded to nearest, ties to even; an int beyond
    the range of a float raises. *)
Definition float_of_int (z : Z) : outcome spec_float :=
  match binary_normalize prec emax z 0 false with
  | S754_infinity _ => Raise (Exn OverflowError "int too large to convert to float")
  | f => Ret f
  end.

Definition int_of_bool (b : bool) : Z := if b then 1 else 0.

(** The exact order between an int and a float. *)
Definition compare_int_float (z : Z) (f : spec_float) : option comparison :=
  match f with
  | S754_nan => None
  | S754_infinity s => Some (if s then Gt else Lt)
  | S754_zero _ => Some (z ?= 0)
  | S754_finite s m e =>
      let v := if s then Z.neg m else Z.pos m in
      Some (if 0 <=? e then z ?= v * 2 ^ e else z * 2 ^ (- e) ?= v)
  end.

(** A number is an int (a bool counts as 0 or 1) or a float. *)
Definition num_view (n : py_num) : Z + spec_float :=
  match n with
  | NBool b => inl (int_of_bool b)
  | NInt z => inl z
  | NFloat f => inr f
  end.

(** The order between two numbers, [None] when one of them is a NaN. *)
Definition num_compare (a b : py_num) : option comparison :=
  match num_view a, num_view b with
  | inl x, inl y => Some (x ?= y)
  | inl x, inr g => compare_int_float x g
  | inr f, inl y => option_map CompOpp (compare_int_float y f)
  | inr f, inr g => SFcompare f g
  end.

(** [a < b] and [a == b] on numbers *)
Definition num_ltb (a b : py_num) : bool :=
  match num_compare a b with
  | Some Lt => true
  | _ => false
  end.

Definition num_eqb (a b : py_num) : bool :=
  match num_compare a b with
  | Some Eq => true
  | _ => false
  end.

(** [a * b] on numbers: exact on ints, and a float product once one side is a
    float, the int side converted first. *)
Definition num_mul (a b : py_num) : outcome py_num :=
  match num_view a, num_view b with
  | inl x, inl y => Ret (NInt (x * y))
  | inl x, inr g => f <- float_of_int x ;; Ret (NFloat (SFmul prec emax f g))
  | inr f, inl y => g <- float_of_int y ;; Ret (NFloat (SFmul prec emax f g))
  | inr f, inr g => Ret (NFloat (SFmul prec emax f g))
  end.

(** The quotient of two positive ints as a float, rounded to nearest, ties to
    even: the quotient is taken with two bits more than a float holds, and a
    last bit records whether anything is left over. *)
Definition float_of_ratio (neg : bool) (p q : Z) : spec_float :=
  let k := Z.max 0 (prec + 3 + Z.log2 q - Z.log2 p) in
  let n := p * 2 ^ k in
  let m := 2 * (n / q) + (if n mod q =? 0 then 0 else 1) in
  binary_normalize prec emax (if neg then - m else m) (- k - 1) false.

(** [a / b] on ints *)
Definition int_truediv (a b : Z) : outcome spec_float :=
  if b =? 0 then Raise (Exn ZeroDivisionError "division by zero")
  else
    let neg := xorb (a <? 0) (b <? 0) in
    if a =? 0 then Ret (S754_zero neg)
    else
      match float_of_ratio neg (Z.abs a) (Z.abs b) with
      | S754_infinity _ =>
          Raise (Exn OverflowError "integer division result too large for a float")
      | f => Ret f
      end.

(** ** Values

    The values a JSON text decodes to.  A dict keeps its entries in insertion
    order.  Values carry no identity. *)

#[warning="-register-all"]
Inductive py_value : Type :=
| PyNone
| PyNum (n : py_num)
| PyStr (s : string)
| PyList (l : list py_value)
| PyDict (d : list (string * py_value)).

Definition dict : Type := list (string * py_value).

Definition type_name (v : py_value) : string :=
  match v with
  | PyNone => "NoneType"
  | PyNum (NBool _) => "bool"
  | PyNum (NInt _) => "int"
  | PyNum (NFloat _) => "float"
  | PyStr _ => "str"
  | PyList _ => "list"
  | PyDict _ => "dict"
  end.

Definition dict_keys (d : dict) : list string := map fst d.

(** [k in d] *)
Definition dict_has (d : dict) (k : string) : bool := mem k (dict_keys d).

(** [d[k]], [None] standing for the KeyError *)
Fixpoint dict_get (d : dict) (k : string) : option py_value :=
  match d with
  | [] => None
  | (k', v) :: d' => if String.eqb k' k then Some v else dict_get d' k
  end.

(** [d[k] = v] *)
Fixpoint dict_set (d : dict) (k : string) (v : py_value) : dict :=
  match d with
  | [] => [(k, v)]
  | (k', v') :: d' =>
      if String.eqb k' k then (k, v) :: d' else (k', v') :: dict_set d' k v
  end.

(** [isinstance(v, (int, float))] *)
Definition is_int_or_float (v : py_value) : bool :=
  match v with
  | PyNum _ => true
  | _ => false
  end.

(** [a == b] *)
Fixpoint py_eq (a b : py_value) {struct a} : bool :=
  match a, b with
  | PyNone, PyNone => true
  | PyNum x, PyNum y => num_eqb x y
  | PyStr x, PyStr y => String.eqb x y
  | PyList x, PyList y =>
      (fix eq_items (x y : list py_value) {struct x} : bool :=
         match x, y with
         | [], [] => true
         | u :: x', v :: y' => py_eq u v && eq_items x' y'
         | _, _ => false
         end) x y
  | PyDict x, PyDict y =>
      (List.length x =? List.length y)%nat &&
      (fix eq_entries (x : list (string * py_value)) {struct x} : bool :=
         match x with
         | [] => true
         | (k, u) :: x' =>
             match dict_get y k with
             | Some v => py_eq u v && eq_entries x'
             | None => false
             end
         end) x
  | _, _ => false
  end.

Definition is_sequence (v : py_value) : bool :=
  match v with
  | PyStr _ | PyList _ => true
  | _ => false
  end.

(** A sequence [n] times over; nothing when [n] is not positive. *)
Definition repeat_sequence (v : py_value) (n : Z) : py_value :=
  match v with
  | PyStr s => PyStr (String.concat "" (repeat s (Z.to_nat n)))
  | PyList l => PyList (List.concat (repeat l (Z.to_nat n)))
  | _ => v
  end.

(** The count a sequence accepts: an int or a bool. *)
Definition as_index (v : py_value) : option Z :=
  match v with
  | PyNum n => match num_view n with inl z => Some z | inr _ => None end
  | _ => None
  end.

(** [a * b]: the product of two numbers, a sequence repeated by an int, and a
    TypeError otherwise.  The repetition is the one of a machine with room
    for its result: the MemoryError and OverflowError of a count too large
    are not among its outcomes. *)
Definition py_mul (a b : py_value) : outcome py_value :=
  match a, b with
  | PyNum x, PyNum y => n <- num_mul x y ;; Ret (PyNum n)
  | _, _ =>
      if is_sequence a then
        match as_index b with
        | Some n => Ret (repeat_sequence a n)
        | None =>
            Raise (TypeError_ ("can't multiply sequence by non-int of type '"
                               ++ type_name b ++ "'"))
        end
      else if is_sequence b then
        match as_index a with
        | Some n => Ret (repeat_sequence b n)
        | None =>
            Raise (TypeError_ ("can't multiply sequence by non-int of type '"
                               ++ type_name a ++ "'"))
        end
      else
        Raise (TypeError_ ("unsupported operand type(s) for *: '"
                           ++ type_name a ++ "' and '" ++ type_name b ++ "'"))
  end.

(** [a < b]: numbers by value, texts and lists in lexicographic order, and a
    TypeError between any other two values. *)
Fixpoint py_lt (a b : py_value) {struct a} : outcome bool :=
  match a, b with
  | PyNum x, PyNum y => Ret (num_ltb x y)
  | PyStr x, PyStr y => Ret (String.ltb x y)
  | PyList x, PyList y =>
      (fix lt_items (x y : list py_value) {struct x} : outcome bool :=
         match x, y with
         | [], [] => Ret false
         | [], _ :: _ => Ret true
         | _ :: _, [] => Ret false
         | u :: x', v :: y' => if py_eq u v then lt_items x' y' else py_lt u v
         end) x y
  | _, _ =>
      Raise (TypeError_ ("'<' not supported between instances of '"
                         ++ type_name a ++ "' and '" ++ type_name b ++ "'"))
  end.

(** ** Records of the program ([structs.py], [eval/eval.py])

    A dataclass checks no type: a field holds whatever value it is given. *)

Record Estimate : Type := mkEstimate {
  lower : py_value;
  value : py_value;
  upper : py_value;
  unit : py_value;
  name : py_value;
  reasoning_trace : py_value
}.

(** The field [name] of [Estimator] is [estimator_name_of] here, and the
    field [estimator_name] of [EvalResult] is [result_name]: [name] and
    [estimator_name] are taken by [Estimate] and [QueryEvalResult]. *)
Record Estimator : Type := mkEstimator {
  fn : string -> outcome Estimate;
  estimator_name_of : string
}.

Record QueryEvalResult : Type := mkQueryEvalResult {
  question : string;
  estimate : Estimate + string;
  estimator_name : string;
  correct_estimate : Estimate;
  log : list string
}.

Record EvalResult : Type := mkEvalResult {
  result_name : string;
  score : py_num;
  queries_incorrect : list QueryEvalResult;
  queries_correct : list QueryEvalResult
}.

(** A chat message, and a row of [data/eval.csv]: the four columns the
    program reads, each a text.  The data file is taken to open and to have
    these four columns in every row; a file without one of them, on which
    the look-up of the column raises a KeyError, is not among these. *)
Record message : Type := mkMessage { content : string; role : string }.

Record csv_row : Type := mkRow {
  row_question : string;
  row_lower : string;
  row_upper : string;
  row_unit : string
}.

(** ** What the program asks of its surroundings *)

Class Runtime : Type := {
  (** litellm's [completion]: the content of the first choice of the reply to
      these messages, for this model and these keyword arguments *)
  completion : string -> list message -> list (string * py_value) -> outcome string;
  (** [json.loads] on a text that starts with a brace: such a text decodes to
      a dict, or the decoder raises *)
  json_loads : string -> outcome dict;
  (** [float(s)] on a text, [None] standing for its ValueError *)
  float_of_str : string -> option spec_float;
  (** [eval(source)] where these local variables are in scope, when its
      value is one of [py_value] *)
  py_eval : list (string * py_value) -> string -> outcome py_value;
  (** [repr(v)] *)
  py_repr : py_value -> string;
  (** the order in which a set of these distinct texts is iterated *)
  set_iter : list string -> list string;
  set_iter_perm : forall l, NoDup l -> Permutation (set_iter l) l;
  (** [traceback.format_exception] joined, and [traceback.format_exc] *)
  format_exception : py_exn -> string;
  format_exc : py_exn -> string;
  (** [datetime.now().strftime('%Y-%m-%d_%H-%M-%S')] *)
  now_stamp : string;
  (** the rows of [data/eval.csv] *)
  eval_csv : list csv_row
}.

Section Program.

Context {R : Runtime}.

(** [str(v)], which an f-string applies: a text is itself, and for the other
    values of [py_value] it is their [repr]. *)
Definition py_str (v : py_value) : string :=
  match v with
  | PyStr s => s
  | _ => py_repr v
  end.

(** [float(v)] *)
Definition py_float (v : py_value) : outcome spec_float :=
  match v with
  | PyNum n =>
      match num_view n with
      | inl z => float_of_int z
      | inr f => Ret f
      end
  | PyStr s =>
      match float_of_str s with
      | Some f => Ret f
      | None =>
          Raise (ValueError_ ("could not convert string to float: " ++ py_repr v))
      end
  | _ =>
      Raise (TypeError_ ("float() argument must be a string or a real number, not '"
                         ++ type_name v ++ "'"))
  end.

(** *** [utils.py] *)

Definition completion_text (model : string) (messages : list message)
    (kwargs : list (string * py_value)) : outcome string :=
  completion model messages kwargs.

(** The keys the parser requires, and the fields it coerces. *)
Definition required_fields : list string := ["lower"; "value"; "upper"; "unit"].
Definition numerical_fields : list string := ["lower"; "value"; "upper"].

(** [set(keys) - {'lower', 'value', 'upper', 'unit'}], in the order the keys
    were given *)
Definition extra_keys (keys : list string) : list string :=
  filter (fun k => negb (mem k required_fields)) (nodup string_dec keys).

(** One turn of the loop over [numerical_fields]. *)
Definition coerce_field (data : dict) (field : string) : outcome dict :=
  match dict_get data field with
  | None => Raise (Exn KeyError (py_repr (PyStr field)))
  | Some v =>
      if is_int_or_float v then Ret data
      else
        match py_float v with
        | Ret f => Ret (dict_set data field (PyNum (NFloat f)))
        | Raise e =>
            if is_ValueError (exn_type e)
            then Raise (ValueError_ ("Field '" ++ field ++ "' is not a valid number"))
            else Raise e
        end
  end.

Fixpoint coerce_fields (fields : list string) (data : dict) : outcome dict :=
  match fields with
  | [] => Ret data
  | field :: rest => data' <- coerce_field data field ;; coerce_fields rest data'
  end.

(** The names of the fields of [Estimate], those without a default first. *)
Definition Estimate_fields : list string :=
  (required_fields ++ ["name"; "reasoning_trace"])%list.

Definition quoted (k : string) : string := "'" ++ k ++ "'".

(** How a call names the arguments it misses. *)
Fixpoint enumerate_names (names : list string) : string :=
  match names with
  | [] => ""
  | [a] => quoted a
  | [a; b] => quoted a ++ " and " ++ quoted b
  | [a; b; c] => quoted a ++ ", " ++ quoted b ++ ", and " ++ quoted c
  | a :: rest => quoted a ++ ", " ++ enumerate_names rest
  end.

Definition missing_arguments (missing : list string) : py_exn :=
  TypeError_
    ("Estimate.__init__() missing "
     ++ (match missing with
         | [_] => "1 required positional argument: "
         | [_; _] => "2 required positional arguments: "
         | [_; _; _] => "3 required positional arguments: "
         | _ => "4 required positional arguments: "
         end)
     ++ enumerate_names missing).

(** What the call says of a keyword that is no field: [self] is a parameter
    of [__init__] that the call has filled already, and any other name is
    unexpected. *)
Definition keyword_error (k : string) : py_exn :=
  if String.eqb k "self" then
    TypeError_ "Estimate.__init__() got multiple values for argument 'self'"
  else
    TypeError_ ("Estimate.__init__() got an unexpected keyword argument " ++ quoted k).

(** The [__init__] the dataclass generates for [Estimate], called with the
    entries of a dict as keyword arguments: the keywords are bound in the
    order of the dict, and the first that is no field stops the call. *)
Definition Estimate_init (kwargs : dict) : outcome Estimate :=
  match List.find (fun k => negb (mem k Estimate_fields)) (dict_keys kwargs) with
  | Some k => Raise (keyword_error k)
  | None =>
      match dict_get kwargs "lower", dict_get kwargs "value",
            dict_get kwargs "upper", dict_get kwargs "unit" with
      | Some lo, Some v, Some hi, Some u =>
          Ret {| lower := lo; value := v; upper := hi; unit := u;
                 name := match dict_get kwargs "name" with
                         | Some n => n
                         | None => PyNone
                         end;
                 reasoning_trace := match dict_get kwargs "reasoning_trace" with
                                    | Some t => t
                                    | None => PyNone
                                    end |}
      | _, _, _, _ =>
          Raise (missing_arguments
                   (filter (fun k => negb (dict_has kwargs k)) required_fields))
      end
  end.

Definition parse_estimate (text : string) : outcome Estimate :=
  let json_start := find text "{" in
  let json_end := rfind text "}" + 1 in
  let json_text := slice text json_start json_end in
  if negb (startswith json_text "{") || negb (endswith json_text "}") then
    Raise (ValueError_ "Text is not a valid JSON object")
  else
    match json_loads json_text with
    | Raise e =>
        if is_JSONDecodeError (exn_type e)
        then Raise (ValueError_ "Text is not a valid JSON object")
        else Raise e
    | Ret data =>
        if negb (dict_has data "lower") || negb (dict_has data "value")
           || negb (dict_has data "upper") || negb (dict_has data "unit")
        then
          Raise (ValueError_
                   ("Text is missing the fields: "
                    ++ join ", " (set_iter (extra_keys (dict_keys data)))))
        else
          data' <- coerce_fields (set_iter numerical_fields) data ;;
          Estimate_init data'
    end.

(** The prompt of [convert_units], an f-string around the two units. *)
Definition convert_units_prompt_head : string := "Here are two units:
x = ".

Definition convert_units_prompt_tail : string := dq "

Your job is determine a factor converting x -> y. See below for details.

If unit x and y mean the same thing, your response should just be the single word `same`. For example, if x = `kg` and y = `kg`, then you should return `same`. If x = `people` and y = `humans`, you should also return `same`.

If there is no possible conversion between them, your response should just be the single word `invalid`. For example if x = `MWh` and y = `kg`, then you should return `invalid`. However, any measure of energy is convertible, any measure of volume is convertible, etc.

If they are convertible, then return a mathematical expression for the conversion factor. For example, if x = `h` and y = `s`, then you should return the string `3600` because [number in hours] x 3600 = [number in seconds]. If x = `s` and y = `days`, you should return `1 / (24 * 60 * 60)` - note that this number is smaller than 1, because days are longer than seconds. If x = `MWh` and y = `joules`, we want to multiply a factor to do the conversion Mwh -> joules, so you should return `3600 * 1e6` - note that this is greater than 1, because joules are smaller than MWh. If instead x = `joules` and y = `MWh`, we are going joules -> Mwh and you should instead return `1 / (3600 * 1e6)`. If x = `J` and y = `btus`, you should return `1 / 1055.056`. If x = `gallons` and y = `km3`, you should return `3.78541 * 1e-9`. Remember which way around x and y are: you're being asked how many x are in a y. If y is a bigger unit, your answer should be < 1. If y is a smaller unit, your answer should be > 1. Pay attention to which unit is the larger unit and make sure your answer makes sense in light of that. Feel free to break down the conversion into multiple multiplication / division operations; you do not need to do it all in one go.

Your response should be a string that can be directly evaluated in a Python script to get the correct conversion factor.".

Definition convert_units_prompt (unit1 unit2 : py_value) : string :=
  convert_units_prompt_head ++ py_str unit1 ++ "
y = " ++ py_str unit2 ++ convert_units_prompt_tail.

(** [convert_units]: 1 for the reply "same", the text "invalid" for the reply
    "invalid", and otherwise what [eval] makes of the reply, an exception of
    [eval] turned into a text. *)
Definition convert_units (unit1 unit2 : py_value) : outcome py_value :=
  let prompt := convert_units_prompt unit1 unit2 in
  response <- completion_text "claude-3-5-sonnet-20240620"
                [{| content := prompt; role := "user" |}]
                [("temperature", PyNum (NFloat (S754_zero false)))] ;;
  if String.eqb response "same" then Ret (PyNum (NInt 1))
  else if String.eqb response "invalid" then Ret (PyStr "invalid")
  else
    match py_eval [("unit1", unit1); ("unit2", unit2);
                   ("prompt", PyStr prompt); ("response", PyStr response)]
                  response with
    | Ret v => Ret v
    | Raise e =>
        if is_Exception (exn_type e)
        then Ret (PyStr ("invalid: " ++ exn_str e))
        else Raise e
    end.

(** *** [eval/eval.py] *)

(** [math.sqrt] *)
Definition math_sqrt (x : spec_float) : outcome spec_float :=
  match x with
  | S754_finite true _ _ | S754_infinity true =>
      Raise (ValueError_ "math domain error")
  | _ => Ret (SFsqrt prec emax x)
  end.

Definition float_of_text (s : string) : outcome spec_float := py_float (PyStr s).

Fixpoint load_rows (rows : list csv_row) : outcome (list string * list Estimate) :=
  match rows with
  | [] => Ret ([], [])
  | row :: rest =>
      if negb (String.eqb (row_lower row) "") && negb (String.eqb (row_upper row) "")
      then
        lo <- float_of_text (row_lower row) ;;
        hi <- float_of_text (row_upper row) ;;
        v <- math_sqrt (SFmul prec emax lo hi) ;;
        qe <- load_rows rest ;;
        Ret (row_question row :: fst qe,
             {| lower := PyNum (NFloat lo); value := PyNum (NFloat v);
                upper := PyNum (NFloat hi); unit := PyStr (row_unit row);
                name := PyNone; reasoning_trace := PyNone |} :: snd qe)
      else load_rows rest
  end.

Definition load_eval : outcome (list string * list Estimate) := load_rows eval_csv.

Definition calculate_score (estimated : Estimate + string) (correct : Estimate)
    : outcome (Z * string) :=
  match estimated with
  | inr trace => Ret (0, trace)
  | inl est =>
      conversion_factor <- convert_units (unit est) (unit correct) ;;
      match conversion_factor with
      | PyStr cf =>
          if String.eqb (strip (lower_str cf)) "same" then Ret (1, "")
          else if startswith (strip (lower_str cf)) "invalid" then
            Ret (0, "Invalid units: " ++ py_str (unit est) ++ " and "
                    ++ py_str (unit correct) ++ ". Conversion model returned: "
                    ++ slice_from cf 7)
          else
            Raise (ValueError_ ("Unexpected response from conversion model: " ++ cf))
      | _ =>
          estimated_value <- py_mul (value est) conversion_factor ;;
          above_lower <- py_lt (lower correct) estimated_value ;;
          in_range <- (if above_lower then py_lt estimated_value (upper correct)
                       else Ret false) ;;
          if in_range then Ret (1, "") else Ret (0, "")
      end
  end.

(** [process_estimate], the function [generate_eval_result] maps over the
    numbered reference estimates. *)
Definition process_estimate (estimator : Estimator) (questions : list string)
    (args : nat * Estimate) : outcome (QueryEvalResult * Z) :=
  let (i, correct) := args in
  match nth_error questions i with
  | None => Raise (Exn IndexError "list index out of range")
  | Some q =>
      estimated_log <-
        match fn estimator q with
        | Ret e => Ret (inl e, [])
        | Raise e =>
            if is_Exception (exn_type e)
            then Ret (inr (format_exception e), [format_exc e])
            else Raise e
        end ;;
      let estimated : Estimate + string := fst estimated_log in
      let log0 : list string := snd estimated_log in
      score_log <- calculate_score estimated correct ;;
      let error_log := snd score_log in
      let log1 := if String.eqb error_log "" then log0 else (log0 ++ [error_log])%list in
      Ret ({| question := q; estimate := estimated;
              estimator_name := estimator_name_of estimator;
              correct_estimate := correct; log := log1 |}, fst score_log)
  end.

(** [list(map(f, items))]: the results in order, or the first exception. *)
Fixpoint map_outcome {A B : Type} (f : A -> outcome B) (items : list A)
    : outcome (list B) :=
  match items with
  | [] => Ret []
  | x :: rest => y <- f x ;; ys <- map_outcome f rest ;; Ret (y :: ys)
  end.

(** [enumerate(items)] *)
Fixpoint enumerate_from {A : Type} (i : nat) (items : list A) : list (nat * A) :=
  match items with
  | [] => []
  | x :: rest => (i, x) :: enumerate_from (S i) rest
  end.

(** [sum(scores)] *)
Definition sum (scores : list Z) : Z := fold_left Z.add scores 0.

Definition generate_eval_result (estimator : Estimator) : outcome EvalResult :=
  loaded <- load_eval ;;
  let questions := fst loaded in
  let estimates := snd loaded in
  results <- map_outcome (process_estimate estimator questions)
               (enumerate_from 0 estimates) ;;
  match results with
  | [] => Raise (ValueError_ "not enough values to unpack (expected 2, got 0)")
  | _ :: _ =>
      let queries := map fst results in
      let scores := map snd results in
      let total_score := sum scores in
      let correct := map fst (filter (fun qs => snd qs =? 1) (combine queries scores)) in
      let incorrect := map fst (filter (fun qs => snd qs =? 0) (combine queries scores)) in
      avg_score <-
        match estimates with
        | [] => Ret (NInt 0)
        | _ :: _ =>
            f <- int_truediv total_score (Z.of_nat (List.length estimates)) ;;
            Ret (NFloat f)
        end ;;
      Ret {| result_name := estimator_name_of estimator ++ "_" ++ now_stamp;
             score := avg_score;
             queries_incorrect := incorrect;
             queries_correct := correct |}
  end.

End Program.

(** ** Statement vocabulary *)

(** The product of a number and the int 1, which converts to the float 1.0
    beside a float. *)
Definition times_one (v : py_num) : py_num :=
  match num_view v with
  | inl z => NInt (z * 1)
  | inr f => NFloat (SFmul prec emax f (S754_finite false 4503599627370496 (-52)))
  end.

Section Vocabulary.

Context {R : Runtime}.

(** The span the parser cuts out of a text: from its first opening brace to
    its last closing brace. *)
Definition json_span (text : string) : string :=
  slice text (find text "{") (rfind text "}" + 1).

(** The text holds a JSON object that the parser extracts and decodes to
    [data]. *)
Definition extracts (text : string) (data : dict) : Prop :=
  startswith (json_span text) "{" = true /\
  endswith (json_span text) "}" = true /\
  json_loads (json_span text) = Ret data.

(** The key test of the parser: some required key is missing. *)
Definition misses_required (data : dict) : bool :=
  negb (dict_has data "lower") || negb (dict_has data "value")
  || negb (dict_has data "upper") || negb (dict_has data "unit").

(** The reply of the completion service to the prompt of [convert_units] for
    two units. *)
Definition conversion_reply (unit1 unit2 : py_value) : outcome string :=
  completion_text "claude-3-5-sonnet-20240620"
    [{| content := convert_units_prompt unit1 unit2; role := "user" |}]
    [("temperature", PyNum (NFloat (S754_zero false)))].

(** The local variables of [convert_units] when it calls [eval]. *)
Definition convert_units_locals (unit1 unit2 : py_value) (response : string)
    : list (string * py_value) :=
  [("unit1", unit1); ("unit2", unit2);
   ("prompt", PyStr (convert_units_prompt unit1 unit2)); ("response", PyStr response)].

(** The number a value is, or is coerced to by [float]; [None] when it is
    neither a number nor a text that [float] reads. *)
Definition numeric_value (v : py_value) : option py_value :=
  match v with
  | PyNum n => Some (PyNum n)
  | PyStr s =>
      match float_of_str s with
      | Some f => Some (PyNum (NFloat f))
      | None => None
      end
  | _ => None
  end.

(** The number the entry of a field holds or is coerced to. *)
Definition numeric_entry (data : dict) (field : string) : option py_value :=
  match dict_get data field with
  | Some v => numeric_value v
  | None => None
  end.

(** An entry of a dict, [None] (the default of the optional fields of
    [Estimate]) when the dict has none. *)
Definition entry_or_None (data : dict) (k : string) : py_value :=
  match dict_get data k with
  | Some v => v
  | None => PyNone
  end.

End Vocabulary.

(** ** A concrete runtime

    JSON texts, float texts and arithmetic expressions are read as CPython
    3.12 reads them, over the alphabet of [string]. *)

(** *** Decimal numerals *)

Definition is_digit (c : ascii) : bool :=
  let n := nat_of_ascii c in ((48 <=? n) && (n <=? 57))%nat.

Definition digit_value (c : ascii) : Z := Z.of_nat (nat_of_ascii c) - 48.

(** The leading digits of a text: their value from [acc] on, how many they
    are, and the rest of the text. *)
Fixpoint read_digits (s : string) (acc : Z) (count : nat) : Z * nat * string :=
  match s with
  | String c s' =>
      if is_digit c then read_digits s' (10 * acc + digit_value c) (S count)
      else (acc, count, s)
  | EmptyString => (acc, count, s)
  end.

(** The float nearest to [digits * 10 ^ exp10], ties to even. *)
Definition float_of_decimal (neg : bool) (digits exp10 : Z) : spec_float :=
  if digits =? 0 then S754_zero neg
  else if 0 <=? exp10 then
    binary_normalize prec emax ((if neg then -1 else 1) * digits * 10 ^ exp10) 0 false
  else float_of_ratio neg digits (10 ^ (- exp10)).

(** An exponent part, [e] or [E], a sign and digits: its value and the rest,
    or no exponent read when the digits are missing. *)
Definition read_exponent (s : string) : Z * string :=
  match s with
  | String c s' =>
      if Ascii.eqb c "e" || Ascii.eqb c "E" then
        let '(neg, s'') :=
          match s' with
          | String "-" t => (true, t)
          | String "+" t => (false, t)
          | _ => (false, s')
          end in
        match read_digits s'' 0 O with
        | (_, O, _) => (0, s)
        | (e, _, rest) => ((if neg then - e else e), rest)
        end
      else (0, s)
  | EmptyString => (0, s)
  end.

(** *** [json.loads] *)

Definition json_ws (c : ascii) : bool :=
  Ascii.eqb c " " || Ascii.eqb c "009" || Ascii.eqb c "010" || Ascii.eqb c "013".

Fixpoint skip_json_ws (s : string) : string :=
  match s with
  | String c s' => if json_ws c then skip_json_ws s' else s
  | EmptyString => s
  end.

Definition hex_value (c : ascii) : option Z :=
  let n := Z.of_nat (nat_of_ascii c) in
  if (48 <=? n) && (n <=? 57) then Some (n - 48)
  else if (65 <=? n) && (n <=? 70) then Some (n - 55)
  else if (97 <=? n) && (n <=? 102) then Some (n - 87)
  else None.

(** The character an escape names. *)
Definition json_escape (c : ascii) : option ascii :=
  if Ascii.eqb c dquote then Some dquote
  else if Ascii.eqb c "\" then Some "\"%char
  else if Ascii.eqb c "/" then Some "/"%char
  else if Ascii.eqb c "b" then Some "008"%char
  else if Ascii.eqb c "f" then Some "012"%char
  else if Ascii.eqb c "n" then Some "010"%char
  else if Ascii.eqb c "r" then Some "013"%char
  else if Ascii.eqb c "t" then Some "009"%char
  else None.

(** The text of a string literal, read from just after its opening quote,
    and what follows its closing quote.  A control character ends the
    decoding, and so does an escape of a character beyond the alphabet. *)
Fixpoint scanstring (s : string) : option (string * string) :=
  match s with
  | EmptyString => None
  | String c s' =>
      if Ascii.eqb c dquote then Some (EmptyString, s')
      else if (nat_of_ascii c <? 32)%nat then None
      else if Ascii.eqb c "\" then
        match s' with
        | String "u" (String h1 (String h2 (String h3 (String h4 s'')))) =>
            match hex_value h1, hex_value h2, hex_value h3, hex_value h4 with
            | Some a, Some b, Some c3, Some d =>
                let code := ((a * 16 + b) * 16 + c3) * 16 + d in
                if code <? 256 then
                  match scanstring s'' with
                  | Some (t, rest) => Some (String (ascii_of_nat (Z.to_nat code)) t, rest)
                  | None => None
                  end
                else None
            | _, _, _, _ => None
            end
        | String e s'' =>
            match json_escape e with
            | Some c' =>
                match scanstring s'' with
                | Some (t, rest) => Some (String c' t, rest)
                | None => None
                end
            | None => None
            end
        | EmptyString => None
        end
      else
        match scanstring s' with
        | Some (t, rest) => Some (String c t, rest)
        | None => None
        end
  end.

(** A number: an integer part, then a fraction and an exponent, each kept
    only when complete.  It is an int without them and a float with one. *)
Definition scan_number (s : string) : option (py_value * string) :=
  let '(neg, s1) :=
    match s with
    | String "-" t => (true, t)
    | _ => (false, s)
    end in
  match s1 with
  | String c _ =>
      if is_digit c then
        let '(int_part, _, s2) :=
          if Ascii.eqb c "0" then
            (0, 1%nat, match s1 with String _ t => t | EmptyString => s1 end)
          else read_digits s1 0 O in
        let '(digits, frac_len, s3) :=
          match s2 with
          | String "." t =>
              match read_digits t int_part O with
              | (_, O, _) => (int_part, O, s2)
              | (d, n, rest) => (d, n, rest)
              end
          | _ => (int_part, O, s2)
          end in
        let '(e, s4) := read_exponent s3 in
        if (frac_len =? 0)%nat && (String.length s3 =? String.length s4)%nat then
          Some (PyNum (NInt (if neg then - int_part else int_part)), s4)
        else
          Some (PyNum (NFloat (float_of_decimal neg digits (e - Z.of_nat frac_len))), s4)
      else None
  | EmptyString => None
  end.

(** [dict(pairs)] *)
Definition dict_of_pairs (pairs : list (string * py_value)) : dict :=
  fold_left (fun d kv => dict_set d (fst kv) (snd kv)) pairs [].

Section Scanner.

(** The scanner of values, for what an array or an object holds. *)
Variable scan_value : string -> option (py_value * string).

(** The items of an array after its first; [s] follows an item. *)
Fixpoint scan_items (fuel : nat) (s : string) (acc : list py_value)
    : option (py_value * string) :=
  match fuel with
  | O => None
  | S fuel' =>
      match skip_json_ws s with
      | String "]" rest => Some (PyList (rev acc), rest)
      | String "," rest =>
          match scan_value (skip_json_ws rest) with
          | Some (v, rest') => scan_items fuel' rest' (v :: acc)
          | None => None
          end
      | _ => None
      end
  end.

Definition scan_array (fuel : nat) (s : string) : option (py_value * string) :=
  match skip_json_ws s with
  | String "]" rest => Some (PyList [], rest)
  | s' =>
      match scan_value s' with
      | Some (v, rest) => scan_items fuel rest [v]
      | None => None
      end
  end.

(** One member of an object, read from just after the quote that opens its
    key. *)
Definition scan_member (s : string) : option (string * py_value * string) :=
  match scanstring s with
  | Some (key, rest) =>
      match skip_json_ws rest with
      | String ":" rest' =>
          match scan_value (skip_json_ws rest') with
          | Some (v, rest'') => Some (key, v, rest'')
          | None => None
          end
      | _ => None
      end
  | None => None
  end.

(** The members of an object after its first; [s] follows a member. *)
Fixpoint scan_members (fuel : nat) (s : string) (acc : list (string * py_value))
    : option (py_value * string) :=
  match fuel with
  | O => None
  | S fuel' =>
      match skip_json_ws s with
      | String "}" rest => Some (PyDict (dict_of_pairs (rev acc)), rest)
      | String "," rest =>
          match skip_json_ws rest with
          | String q rest' =>
              if Ascii.eqb q dquote then
                match scan_member rest' with
                | Some (k, v, rest'') => scan_members fuel' rest'' ((k, v) :: acc)
                | None => None
                end
              else None
          | EmptyString => None
          end
      | _ => None
      end
  end.

Definition scan_object (fuel : nat) (s : string) : option (py_value * string) :=
  match skip_json_ws s with
  | String "}" rest => Some (PyDict [], rest)
  | String q rest =>
      if Ascii.eqb q dquote then
        match scan_member rest with
        | Some (k, v, rest') => scan_members fuel rest' [(k, v)]
        | None => None
        end
      else None
  | EmptyString => None
  end.

End Scanner.

(** [scan_once]: the value a text starts with, and the rest of the text. *)
Fixpoint scan_once (fuel : nat) (s : string) : option (py_value * string) :=
  match fuel with
  | O => None
  | S fuel' =>
      match s with
      | EmptyString => None
      | String c rest =>
          if Ascii.eqb c dquote then
            match scanstring rest with
            | Some (t, rest') => Some (PyStr t, rest')
            | None => None
            end
          else if Ascii.eqb c "{" then scan_object (scan_once fuel') fuel' rest
          else if Ascii.eqb c "[" then scan_array (scan_once fuel') fuel' rest
          else if prefix "null" s then Some (PyNone, substring 4 (String.length s) s)
          else if prefix "true" s then
            Some (PyNum (NBool true), substring 4 (String.length s) s)
          else if prefix "false" s then
            Some (PyNum (NBool false), substring 5 (String.length s) s)
          else
            match scan_number s with
            | Some r => Some r
            | None =>
                if prefix "NaN" s then
                  Some (PyNum (NFloat S754_nan), substring 3 (String.length s) s)
                else if prefix "Infinity" s then
                  Some (PyNum (NFloat (S754_infinity false)),
                        substring 8 (String.length s) s)
                else if prefix "-Infinity" s then
                  Some (PyNum (NFloat (S754_infinity true)),
                        substring 9 (String.length s) s)
                else None
            end
      end
  end.

Definition JSONDecodeError_ : py_exn := Exn JSONDecodeError "".

(** [json.loads]: one value between optional white space, and nothing more.
    The message of the decoder's error is left out. *)
Definition json_decode (s : string) : outcome py_value :=
  match scan_once (S (String.length s)) (skip_json_ws s) with
  | Some (v, rest) =>
      match skip_json_ws rest with
      | EmptyString => Ret v
      | _ => Raise JSONDecodeError_
      end
  | None => Raise JSONDecodeError_
  end.

Definition json_decode_object (s : string) : outcome dict :=
  match json_decode s with
  | Ret (PyDict d) => Ret d
  | Ret _ => Raise JSONDecodeError_
  | Raise e => Raise e
  end.

(** *** [float] on a text *)

(** The text without its underscores, when each stands between two digits. *)
Fixpoint drop_underscores (prev : ascii) (s : string) : option string :=
  match s with
  | EmptyString => if Ascii.eqb prev "_" then None else Some EmptyString
  | String c s' =>
      if Ascii.eqb c "_" then
        if is_digit prev then drop_underscores c s' else None
      else if Ascii.eqb prev "_" && negb (is_digit c) then None
      else
        match drop_underscores c s' with
        | Some t => Some (String c t)
        | None => None
        end
  end.

(** An unsigned decimal numeral: digits with at most one point and at least
    one digit, then an optional exponent, and nothing more. *)
Definition read_decimal (neg : bool) (s : string) : option spec_float :=
  let '(int_part, n1, s1) := read_digits s 0 O in
  let '(digits, n2, s2) :=
    match s1 with
    | String "." t => read_digits t int_part O
    | _ => (int_part, O, s1)
    end in
  if (n1 + n2 =? 0)%nat then None
  else
    match read_exponent s2 with
    | (e, EmptyString) => Some (float_of_decimal neg digits (e - Z.of_nat n2))
    | _ => None
    end.

Definition float_of_str_model (s : string) : option spec_float :=
  match drop_underscores "000" (strip s) with
  | None => None
  | Some t =>
      let '(neg, u) :=
        match t with
        | String "-" r => (true, r)
        | String "+" r => (false, r)
        | _ => (false, t)
        end in
      let l := lower_str u in
      if String.eqb l "inf" || String.eqb l "infinity" then Some (S754_infinity neg)
      else if String.eqb l "nan" then Some S754_nan
      else read_decimal neg u
  end.

(** *** [eval] on an arithmetic expression

    The expressions the prompt of [convert_units] asks for: numerals, the
    four operations, parentheses; and besides them names and plain string
    literals. *)

Inductive token : Type :=
| TNum (n : py_num)
| TStr (s : string)
| TName (x : string)
| TOp (c : ascii).

Definition is_name_start (c : ascii) : bool :=
  let n := nat_of_ascii c in
  ((65 <=? n) && (n <=? 90) || (97 <=? n) && (n <=? 122) || (n =? 95))%nat.

Definition is_name_char (c : ascii) : bool := is_name_start c || is_digit c.

Fixpoint read_name (s : string) : string * string :=
  match s with
  | String c s' =>
      if is_name_char c then let '(x, rest) := read_name s' in (String c x, rest)
      else (EmptyString, s)
  | EmptyString => (EmptyString, s)
  end.

(** The text of a string literal up to its closing quote [q]; a backslash or
    a line break is not read. *)
Fixpoint read_quoted (q : ascii) (s : string) : option (string * string) :=
  match s with
  | EmptyString => None
  | String c s' =>
      if Ascii.eqb c q then Some (EmptyString, s')
      else if Ascii.eqb c "\" || Ascii.eqb c "010" || Ascii.eqb c "013" then None
      else
        match read_quoted q s' with
        | Some (t, rest) => Some (String c t, rest)
        | None => None
        end
  end.

(** A numeric literal: a decimal integer without needless leading zeros, or a
    float with a point or an exponent.  A literal that runs into a letter, a
    digit, an underscore or a point is not read. *)
Definition read_literal (s : string) : option (py_num * string) :=
  let '(int_part, n1, s1) := read_digits s 0 O in
  let '(digits, n2, pointed, s2) :=
    match s1 with
    | String "." t => let '(d, n, r) := read_digits t int_part O in (d, n, true, r)
    | _ => (int_part, O, false, s1)
    end in
  if (n1 + n2 =? 0)%nat then None
  else
    let '(e, s3) := read_exponent s2 in
    let is_float := pointed || negb (String.length s2 =? String.length s3)%nat in
    let clean :=
      match s3 with
      | String c _ => negb (is_name_char c || Ascii.eqb c ".")
      | EmptyString => true
      end in
    if negb clean then None
    else if is_float then
      Some (NFloat (float_of_decimal false digits (e - Z.of_nat n2)), s3)
    else if prefix "0" s && negb (int_part =? 0) then None
    else Some (NInt int_part, s3).

Definition is_operator (c : ascii) : bool :=
  Ascii.eqb c "+" || Ascii.eqb c "-" || Ascii.eqb c "*" || Ascii.eqb c "/"
  || Ascii.eqb c "(" || Ascii.eqb c ")".

Fixpoint tokenize (fuel : nat) (s : string) : option (list token) :=
  match fuel with
  | O => None
  | S fuel' =>
      match s with
      | EmptyString => Some []
      | String c s' =>
          if Ascii.eqb c " " || Ascii.eqb c "009" then tokenize fuel' s'
          else if is_operator c then
            option_map (cons (TOp c)) (tokenize fuel' s')
          else if is_digit c || Ascii.eqb c "." then
            match read_literal s with
            | Some (n, rest) => option_map (cons (TNum n)) (tokenize fuel' rest)
            | None => None
            end
          else if is_name_start c then
            let '(x, rest) := read_name s in
            option_map (cons (TName x)) (tokenize fuel' rest)
          else if Ascii.eqb c "'" || Ascii.eqb c dquote then
            match read_quoted c s' with
            | Some (t, rest) => option_map (cons (TStr t)) (tokenize fuel' rest)
            | None => None
            end
          else None
      end
  end.

Inductive expr : Type :=
| ENum (n : py_num)
| EStr (s : string)
| EName (x : string)
| ENeg (e : expr)
| EPos (e : expr)
| EBin (op : ascii) (a b : expr).

(** Sums of products of signed atoms, each level associating to the left. *)
Fixpoint parse_sum (fuel : nat) (ts : list token) : option (expr * list token) :=
  match fuel with
  | O => None
  | S fuel' =>
      let parse_factor :=
        fix parse_factor (n : nat) (ts : list token) : option (expr * list token) :=
          match n with
          | O => None
          | S n' =>
              match ts with
              | TOp "-" :: ts' =>
                  option_map (fun r => (ENeg (fst r), snd r)) (parse_factor n' ts')
              | TOp "+" :: ts' =>
                  option_map (fun r => (EPos (fst r), snd r)) (parse_factor n' ts')
              | TNum x :: ts' => Some (ENum x, ts')
              | TStr x :: ts' => Some (EStr x, ts')
              | TName x :: ts' => Some (EName x, ts')
              | TOp "(" :: ts' =>
                  match parse_sum fuel' ts' with
                  | Some (e, TOp ")" :: ts'') => Some (e, ts'')
                  | _ => None
                  end
              | _ => None
              end
          end in
      let parse_product_rest :=
        fix parse_product_rest (n : nat) (a : expr) (ts : list token)
            : option (expr * list token) :=
          match n with
          | O => None
          | S n' =>
              match ts with
              | TOp "*" :: ts' =>
                  match parse_factor fuel' ts' with
                  | Some (b, ts'') => parse_product_rest n' (EBin "*" a b) ts''
                  | None => None
                  end
              | TOp "/" :: ts' =>
                  match parse_factor fuel' ts' with
                  | Some (b, ts'') => parse_product_rest n' (EBin "/" a b) ts''
                  | None => None
                  end
              | _ => Some (a, ts)
              end
          end in
      let parse_product := fun ts =>
        match parse_factor fuel' ts with
        | Some (a, ts') => parse_product_rest fuel' a ts'
        | None => None
        end in
      let parse_sum_rest :=
        fix parse_sum_rest (n : nat) (a : expr) (ts : list token)
            : option (expr * list token) :=
          match n with
          | O => None
          | S n' =>
              match ts with
              | TOp "+" :: ts' =>
                  match parse_product ts' with
                  | Some (b, ts'') => parse_sum_rest n' (EBin "+" a b) ts''
                  | None => None
                  end
              | TOp "-" :: ts' =>
                  match parse_product ts' with
                  | Some (b, ts'') => parse_sum_rest n' (EBin "-" a b) ts''
                  | None => None
                  end
              | _ => Some (a, ts)
              end
          end in
      match parse_product ts with
      | Some (a, ts') => parse_sum_rest fuel' a ts'
      | None => None
      end
  end.

(** The words the grammar keeps for itself: none of them is a name. *)
Definition keywords : list string :=
  ["False"; "None"; "True"; "and"; "as"; "assert"; "async"; "await"; "break";
   "class"; "continue"; "def"; "del"; "elif"; "else"; "except"; "finally";
   "for"; "from"; "global"; "if"; "import"; "in"; "is"; "lambda"; "nonlocal";
   "not"; "or"; "pass"; "raise"; "return"; "try"; "while"; "with"; "yield"].

(** The names [utils.py] binds at module level. *)
Definition module_names : list string :=
  ["asdict"; "is_dataclass"; "concurrent"; "json"; "completion"; "Estimate";
   "completion_text"; "parse_estimate"; "convert_units"; "test_convert_units";
   "ScientificNotationEncoder"; "__name__"; "__doc__"; "__package__";
   "__loader__"; "__spec__"; "__file__"; "__cached__"; "__builtins__"].

(** The names of the [builtins] module. *)
Definition builtin_names : list string :=
  ["ArithmeticError"; "AssertionError"; "AttributeError"; "BaseException";
   "BaseExceptionGroup"; "BlockingIOError"; "BrokenPipeError"; "BufferError";
   "BytesWarning"; "ChildProcessError"; "ConnectionAbortedError";
   "ConnectionError"; "ConnectionRefusedError"; "ConnectionResetError";
   "DeprecationWarning"; "EOFError"; "Ellipsis"; "EncodingWarning";
   "EnvironmentError"; "Exception"; "ExceptionGroup"; "FileExistsError";
   "FileNotFoundError"; "FloatingPointError"; "FutureWarning"; "GeneratorExit";
   "IOError"; "ImportError"; "ImportWarning"; "IndentationError"; "IndexError";
   "InterruptedError"; "IsADirectoryError"; "KeyError"; "KeyboardInterrupt";
   "LookupError"; "MemoryError"; "ModuleNotFoundError"; "NameError";
   "NotADirectoryError"; "NotImplemented"; "NotImplementedError"; "OSError";
   "OverflowError"; "PendingDeprecationWarning"; "PermissionError";
   "ProcessLookupError"; "RecursionError"; "ReferenceError"; "ResourceWarning";
   "RuntimeError"; "RuntimeWarning"; "StopAsyncIteration"; "StopIteration";
   "SyntaxError"; "SyntaxWarning"; "SystemError"; "SystemExit"; "TabError";
   "TimeoutError"; "TypeError"; "UnboundLocalError"; "UnicodeDecodeError";
   "UnicodeEncodeError"; "UnicodeError"; "UnicodeTranslateError";
   "UnicodeWarning"; "UserWarning"; "ValueError"; "Warning"; "WindowsError";
   "ZeroDivisionError"; "__build_class__"; "__debug__"; "__import__";
   "abs"; "aiter"; "all"; "anext"; "any"; "ascii"; "bin"; "bool"; "breakpoint";
   "bytearray"; "bytes"; "callable"; "chr"; "classmethod"; "compile"; "complex";
   "copyright"; "credits"; "delattr"; "dict"; "dir"; "divmod"; "enumerate";
   "eval"; "exec"; "exit"; "filter"; "float"; "format"; "frozenset"; "getattr";
   "globals"; "hasattr"; "hash"; "help"; "hex"; "id"; "input"; "int";
   "isinstance"; "issubclass"; "iter"; "len"; "license"; "list"; "locals";
   "map"; "max"; "memoryview"; "min"; "next"; "object"; "oct"; "open"; "ord";
   "pow"; "print"; "property"; "quit"; "range"; "repr"; "reversed"; "round";
   "set"; "setattr"; "slice"; "sorted"; "staticmethod"; "str"; "sum"; "super";
   "tuple"; "type"; "vars"; "zip"].

Fixpoint token_names (ts : list token) : list string :=
  match ts with
  | [] => []
  | TName x :: ts' => x :: token_names ts'
  | _ :: ts' => token_names ts'
  end.

Fixpoint lookup (scope : list (string * py_value)) (x : string) : option py_value :=
  match scope with
  | [] => None
  | (y, v) :: scope' => if String.eqb y x then Some v else lookup scope' x
  end.

(** [-x] and [+x] on a number *)
Definition num_neg (n : py_num) : py_num :=
  match num_view n with
  | inl z => NInt (- z)
  | inr f => NFloat (SFopp f)
  end.

Definition num_pos (n : py_num) : py_num :=
  match num_view n with
  | inl z => NInt z
  | inr f => NFloat f
  end.

Definition float_of_num (n : py_num) : outcome spec_float :=
  match num_view n with
  | inl z => float_of_int z
  | inr f => Ret f
  end.

Definition is_float_zero (f : spec_float) : bool :=
  match f with
  | S754_zero _ => true
  | _ => false
  end.

(** [a + b], [a - b] and [a / b] on numbers *)
Definition num_arith (op : ascii) (a b : py_num) : outcome py_num :=
  match num_view a, num_view b with
  | inl x, inl y =>
      if Ascii.eqb op "+" then Ret (NInt (x + y))
      else if Ascii.eqb op "-" then Ret (NInt (x - y))
      else f <- int_truediv x y ;; Ret (NFloat f)
  | _, _ =>
      f <- float_of_num a ;;
      g <- float_of_num b ;;
      if Ascii.eqb op "+" then Ret (NFloat (SFadd prec emax f g))
      else if Ascii.eqb op "-" then Ret (NFloat (SFsub prec emax f g))
      else if is_float_zero g then Raise (Exn ZeroDivisionError "float division by zero")
      else Ret (NFloat (SFdiv prec emax f g))
  end.

(** The value of an expression, [None] when the expression leaves the
    arithmetic of numbers: a name bound to a function or a module, an
    operation other than a product on a value that is not a number. *)
Fixpoint eval_expr (scope : list (string * py_value)) (e : expr)
    : option (outcome py_value) :=
  match e with
  | ENum n => Some (Ret (PyNum n))
  | EStr s => Some (Ret (PyStr s))
  | EName x =>
      match lookup scope x with
      | Some v => Some (Ret v)
      | None =>
          if mem x module_names || mem x builtin_names then None
          else Some (Raise (Exn NameError ("name '" ++ x ++ "' is not defined")))
      end
  | ENeg a =>
      match eval_expr scope a with
      | Some (Ret (PyNum n)) => Some (Ret (PyNum (num_neg n)))
      | Some (Ret v) =>
          Some (Raise (TypeError_ ("bad operand type for unary -: '"
                                   ++ type_name v ++ "'")))
      | r => r
      end
  | EPos a =>
      match eval_expr scope a with
      | Some (Ret (PyNum n)) => Some (Ret (PyNum (num_pos n)))
      | Some (Ret v) =>
          Some (Raise (TypeError_ ("bad operand type for unary +: '"
                                   ++ type_name v ++ "'")))
      | r => r
      end
  | EBin op a b =>
      match eval_expr scope a with
      | Some (Ret va) =>
          match eval_expr scope b with
          | Some (Ret vb) =>
              if Ascii.eqb op "*" then Some (py_mul va vb)
              else
                match va, vb with
                | PyNum x, PyNum y =>
                    Some (n <- num_arith op x y ;; Ret (PyNum n))
                | _, _ => None
                end
          | r => r
          end
      | r => r
      end
  end.

(** [eval] on the expressions it is modelled for, [None] on any other text. *)
Definition eval_arithmetic (scope : list (string * py_value)) (source : string)
    : option (outcome py_value) :=
  match tokenize (S (String.length source)) source with
  | Some ts =>
      if existsb (fun x => mem x keywords) (token_names ts) then None
      else
        match parse_sum (S (List.length ts)) ts with
        | Some (e, []) => eval_expr scope e
        | _ => None
        end
  | None => None
  end.

(** *** [repr] *)

Definition string_of_Z (z : Z) : string := NilZero.string_of_int (Z.to_int z).

(** [10 ^ k <= p / q], for positive [p] and [q] *)
Definition pow10_le (k p q : Z) : bool :=
  if 0 <=? k then 10 ^ k * q <=? p else q <=? p * 10 ^ (- k).

(** The decimal exponent of [p / q]: the [k] with
    [10 ^ k <= p / q < 10 ^ (k + 1)], found from an estimate. *)
Fixpoint decimal_exponent (fuel : nat) (k p q : Z) : Z :=
  match fuel with
  | O => k
  | S fuel' =>
      if negb (pow10_le k p q) then decimal_exponent fuel' (k - 1) p q
      else if pow10_le (k + 1) p q then decimal_exponent fuel' (k + 1) p q
      else k
  end.

(** The shortest decimal [d * 10 ^ t] that [float] reads back as
    [m * 2 ^ e], the nearer one when two are as short: tried with [n] digits
    and then with more. *)
Fixpoint shortest_decimal (fuel : nat) (n : Z) (m : positive) (e k : Z) : Z * Z :=
  let p := if 0 <=? e then Z.pos m * 2 ^ e else Z.pos m in
  let q := if 0 <=? e then 1 else 2 ^ (- e) in
  let t := k - n + 1 in
  let lo := if 0 <=? t then p / (q * 10 ^ t) else (p * 10 ^ (- t)) / q in
  let hi := lo + 1 in
  let back d :=
    match float_of_decimal false d t with
    | S754_finite false m' e' => Pos.eqb m' m && (e' =? e)
    | _ => false
    end in
  let lo_nearer :=
    if 0 <=? t then 2 * p <=? (lo + hi) * 10 ^ t * q
    else 2 * p * 10 ^ (- t) <=? (lo + hi) * q in
  match fuel with
  | O => (if lo_nearer then lo else hi, t)
  | S fuel' =>
      if back lo && (lo_nearer || negb (back hi)) then (lo, t)
      else if back hi then (hi, t)
      else shortest_decimal fuel' (n + 1) m e k
  end.

Fixpoint drop_zeros (fuel : nat) (d t : Z) : Z * Z :=
  match fuel with
  | O => (d, t)
  | S fuel' => if d mod 10 =? 0 then drop_zeros fuel' (d / 10) (t + 1) else (d, t)
  end.

Definition zeros (n : Z) : string := String.concat "" (repeat "0" (Z.to_nat n)).

(** The digits [ds], with the decimal point after the first [decpt] of
    them: plain when the point falls near the digits, with an exponent
    otherwise. *)
Definition format_digits (ds : string) (decpt : Z) : string :=
  let len := Z.of_nat (String.length ds) in
  if (decpt <=? -4) || (16 <? decpt) then
    let x := decpt - 1 in
    let xs := string_of_Z (Z.abs x) in
    substring 0 1 ds
    ++ (if len =? 1 then "" else "." ++ substring 1 (String.length ds) ds)
    ++ "e" ++ (if x <? 0 then "-" else "+")
    ++ (if Z.abs x <? 10 then "0" else "") ++ xs
  else if decpt <=? 0 then "0." ++ zeros (- decpt) ++ ds
  else if len <=? decpt then ds ++ zeros (decpt - len) ++ ".0"
  else substring 0 (Z.to_nat decpt) ds ++ "."
       ++ substring (Z.to_nat decpt) (String.length ds) ds.

Definition repr_float (f : spec_float) : string :=
  match f with
  | S754_nan => "nan"
  | S754_infinity s => if s then "-inf" else "inf"
  | S754_zero s => if s then "-0.0" else "0.0"
  | S754_finite s m e =>
      let p := if 0 <=? e then Z.pos m * 2 ^ e else Z.pos m in
      let q := if 0 <=? e then 1 else 2 ^ (- e) in
      let k := decimal_exponent 4 (((Z.log2 p - Z.log2 q) * 1233) / 4096) p q in
      let '(d0, t0) := shortest_decimal 16 1 m e k in
      let '(d, t) := drop_zeros 20 d0 t0 in
      let ds := string_of_Z d in
      (if s then "-" else "") ++ format_digits ds (Z.of_nat (String.length ds) + t)
  end.

Definition hex_digit (n : nat) : ascii :=
  ascii_of_nat (if (n <? 10)%nat then 48 + n else 87 + n).

(** A character as [repr] writes it between quotes [q]. *)
Definition repr_char (q c : ascii) : string :=
  let n := nat_of_ascii c in
  if Ascii.eqb c "\" then "\\"
  else if Ascii.eqb c q then String "\" (String c "")
  else if Ascii.eqb c "009" then "\t"
  else if Ascii.eqb c "010" then "\n"
  else if Ascii.eqb c "013" then "\r"
  else if ((n <? 32) || (127 <=? n) && (n <=? 160) || (n =? 173))%nat then
    String "\" (String "x" (String (hex_digit (n / 16)) (String (hex_digit (n mod 16)) "")))
  else String c "".

Definition repr_str (s : string) : string :=
  let q := if match index_of "'" s, index_of dquote s with
              | Some _, None => true
              | _, _ => false
              end
           then dquote else "'"%char in
  String q (String.concat "" (map (repr_char q) (list_ascii_of_string s)))
  ++ String q "".

Definition repr_num (n : py_num) : string :=
  match n with
  | NBool b => if b then "True" else "False"
  | NInt z => string_of_Z z
  | NFloat f => repr_float f
  end.

Fixpoint repr_model (v : py_value) : string :=
  match v with
  | PyNone => "None"
  | PyNum n => repr_num n
  | PyStr s => repr_str s
  | PyList l => "[" ++ join ", " (map repr_model l) ++ "]"
  | PyDict d =>
      "{" ++ join ", " (map (fun kv => repr_str (fst kv) ++ ": " ++ repr_model (snd kv)) d)
      ++ "}"
  end.

(** *** The runtime *)

(** What lies outside the interpreter: the replies of the completion
    service, what [eval] does with a text that is no arithmetic expression,
    how a traceback prints, the time, and the rows of the data file. *)
Record world : Type := mkWorld {
  reply : string -> list message -> list (string * py_value) -> outcome string;
  eval_beyond : list (string * py_value) -> string -> outcome py_value;
  traceback_text : py_exn -> string;
  clock : string;
  csv : list csv_row
}.

Definition cpython (w : world) : Runtime := {|
  completion := reply w;
  json_loads := json_decode_object;
  float_of_str := float_of_str_model;
  py_eval := fun scope source =>
    match eval_arithmetic scope source with
    | Some r => r
    | None => eval_beyond w scope source
    end;
  py_repr := repr_model;
  set_iter := fun l => l;
  set_iter_perm := fun l _ => Permutation_refl l;
  format_exception := traceback_text w;
  format_exc := traceback_text w;
  now_stamp := clock w;
  eval_csv := csv w
|}.

(** A world whose completion service gives one reply to every prompt, and
    whose data file holds the given rows.  Its [eval_beyond] is a SyntaxError
    throughout; the runs of this file stay within [eval_arithmetic] and do
    not reach it. *)
Definition replying (r : string) (rows : list csv_row) : world := {|
  reply := fun _ _ _ => Ret r;
  eval_beyond := fun _ _ => Raise (Exn SyntaxError "invalid syntax (<string>, line 1)");
  traceback_text := fun e => "Traceback (most recent call last): " ++ exn_str e;
  clock := "2024-08-01_12-00-00";
  csv := rows
|}.

(** ** More of the program *)

Section ProgramMore.

Context {R : Runtime}.

(** *** [eval/baselines.py] *)

(** The prompt of [run_simple_llm_estimator], an f-string around the
    question, and its request for a JSON object. *)
Definition estimator_prompt_head : string := "
    You are an expert at estimating quantities.
    You will be given a question that asks you to estimate a quantity.
    It is important that you actually try to provide an estimate, rather than giving up, even if estimating is hard or uncertain.
    You should reason step-by-step to estimate what that quantity could be.
    You should also reason about the uncertainty of your estimate, and track a lower and an upper bound estimate.
    
    The question is:
    ".

Definition estimator_prompt_tail : string := "
    
    Your reasoning:
    ".

Definition estimator_prompt (question : string) : string :=
  estimator_prompt_head ++ question ++ estimator_prompt_tail.

Definition format_request : string := "Now please given an output containing nothing but a JSON object with the following structure: {'lower': <float>, 'value': <float>, 'upper': <float>, 'unit': <str>}. 'value' is whatever central estimate you reasoned above, 'lower' is your lower bound estimate, 'upper' is your upper bound estimate, and 'unit' is the unit of the estimates you provided (you can use scientific 'e' notation), which might be 'kg' or 'm' or 'people' or 'spiders/m^2' or '$/h' or 'kg CO2' or whatever it needs to be.".

(** A message as the dict it is in the program. *)
Definition message_value (m : message) : py_value :=
  PyDict [("content", PyStr (content m)); ("role", PyStr (role m))].

Definition max_tokens_1000 : list (string * py_value) :=
  [("max_tokens", PyNum (NInt 1000))].

Definition run_simple_llm_estimator (model question : string) : outcome Estimate :=
  let prompt := estimator_prompt question in
  let messages := [{| content := prompt; role := "user" |}] in
  response_text <- completion_text model messages max_tokens_1000 ;;
  let messages :=
    (messages ++ [{| content := response_text; role := "assistant" |};
                  {| content := format_request; role := "user" |}])%list in
  response2_text <- completion_text model messages max_tokens_1000 ;;
  estimate <- parse_estimate response2_text ;;
  Ret {| lower := lower estimate; value := value estimate; upper := upper estimate;
         unit := unit estimate; name := name estimate;
         reasoning_trace := PyList (map message_value messages) |}.

Definition create_estimator (name : string)
    (estimator_fn : string -> string -> outcome Estimate) (model : string) : Estimator :=
  {| fn := fun question => estimator_fn model question; estimator_name_of := name |}.

Definition simple_llm_estimator (model : string) : Estimator :=
  create_estimator ("simple_llm_estimator:" ++ model) run_simple_llm_estimator model.

(** *** [is_within_tolerance], of [test_convert_units] *)

(** [a <= b]: as [a < b], with equal values in order. *)
Fixpoint py_le (a b : py_value) {struct a} : outcome bool :=
  match a, b with
  | PyNum x, PyNum y => Ret (num_ltb x y || num_eqb x y)
  | PyStr x, PyStr y => Ret (String.leb x y)
  | PyList x, PyList y =>
      (fix le_items (x y : list py_value) {struct x} : outcome bool :=
         match x, y with
         | [], _ => Ret true
         | _ :: _, [] => Ret false
         | u :: x', v :: y' => if py_eq u v then le_items x' y' else py_le u v
         end) x y
  | _, _ =>
      Raise (TypeError_ ("'<=' not supported between instances of '"
                         ++ type_name a ++ "' and '" ++ type_name b ++ "'"))
  end.

Definition is_str (v : py_value) : bool :=
  match v with
  | PyStr _ => true
  | _ => false
  end.

(** The float 0.01, the tolerance when none is given. *)
Definition default_tolerance : py_num :=
  NFloat (S754_finite false 5764607523034235 (-59)).

Definition is_within_tolerance (expected actual : py_value) (tolerance : py_num)
    : outcome bool :=
  let actual :=
    match py_float actual with
    | Ret f => PyNum (NFloat f)
    | Raise _ => actual
    end in
  if is_str expected || is_str actual then Ret (py_eq expected actual)
  else
    low_factor <- num_arith "-" (NInt 1) tolerance ;;
    low <- py_mul (PyNum low_factor) expected ;;
    above <- py_le low actual ;;
    if above then
      high_factor <- num_arith "+" (NInt 1) tolerance ;;
      high <- py_mul (PyNum high_factor) expected ;;
      py_le actual high
    else Ret false.

(** *** [ScientificNotationEncoder.default] *)

(** [format(f, '.3e')]: a digit, a point, three more digits and an exponent
    of two digits at least; the four digits are the value rounded to
    nearest, ties to even. *)
Definition format_3e (f : spec_float) : string :=
  match f with
  | S754_nan => "nan"
  | S754_infinity s => if s then "-inf" else "inf"
  | S754_zero s => if s then "-0.000e+00" else "0.000e+00"
  | S754_finite s m e =>
      let p := if 0 <=? e then Z.pos m * 2 ^ e else Z.pos m in
      let q := if 0 <=? e then 1 else 2 ^ (- e) in
      let k := decimal_exponent 4 (((Z.log2 p - Z.log2 q) * 1233) / 4096) p q in
      let t := k - 3 in
      let num := if 0 <=? t then p else p * 10 ^ (- t) in
      let den := if 0 <=? t then q * 10 ^ t else q in
      let lo := num / den in
      let r := num mod den in
      let d := if 2 * r <? den then lo
               else if den <? 2 * r then lo + 1
               else if Z.even lo then lo else lo + 1 in
      let d' := if d =? 10000 then 1000 else d in
      let x := if d =? 10000 then k + 1 else k in
      let ds := string_of_Z d' in
      (if s then "-" else "")
      ++ substring 0 1 ds ++ "." ++ substring 1 3 ds
      ++ "e" ++ (if x <? 0 then "-" else "+")
      ++ (if Z.abs x <? 10 then "0" else "") ++ string_of_Z (Z.abs x)
  end.

(** [format(n, '.3e')] on a number: an int, and a bool with it, is
    converted to a float first. *)
Definition format_num_3e (n : py_num) : outcome string :=
  match num_view n with
  | inl z => f <- float_of_int z ;; Ret (format_3e f)
  | inr f => Ret (format_3e f)
  end.

(** [default] on a value that is no dataclass: every number becomes the text
    of its format, inside lists and dicts as well. *)
Fixpoint default (obj : py_value) : outcome py_value :=
  match obj with
  | PyNone => Ret PyNone
  | PyNum n => s <- format_num_3e n ;; Ret (PyStr s)
  | PyDict d =>
      entries <-
        (fix default_entries (d : list (string * py_value))
             : outcome (list (string * py_value)) :=
           match d with
           | [] => Ret []
           | (k, v) :: d' =>
               v' <- default v ;; rest <- default_entries d' ;; Ret ((k, v') :: rest)
           end) d ;;
      Ret (PyDict entries)
  | PyList l =>
      items <-
        (fix default_items (l : list py_value) : outcome (list py_value) :=
           match l with
           | [] => Ret []
           | v :: l' => v' <- default v ;; rest <- default_items l' ;; Ret (v' :: rest)
           end) l ;;
      Ret (PyList items)
  | PyStr _ => Ret obj
  end.

(** [dataclasses.asdict] on the records of the program. *)
Definition asdict_Estimate (e : Estimate) : py_value :=
  PyDict [("lower", lower e); ("value", value e); ("upper", upper e);
          ("unit", unit e); ("name", name e);
          ("reasoning_trace", reasoning_trace e)].

Definition asdict_QueryEvalResult (q : QueryEvalResult) : py_value :=
  PyDict [("question", PyStr (question q));
          ("estimate", match estimate q with
                       | inl e => asdict_Estimate e
                       | inr trace => PyStr trace
                       end);
          ("estimator_name", PyStr (estimator_name q));
          ("correct_estimate", asdict_Estimate (correct_estimate q));
          ("log", PyList (map PyStr (log q)))].

Definition asdict_EvalResult (r : EvalResult) : py_value :=
  PyDict [("estimator_name", PyStr (result_name r));
          ("score", PyNum (score r));
          ("queries_incorrect", PyList (map asdict_QueryEvalResult (queries_incorrect r)));
          ("queries_correct", PyList (map asdict_QueryEvalResult (queries_correct r)))].

(** [default] on an [EvalResult], the object [save_eval_result] hands to
    [json.dump]: the entries of [asdict], each through [default]. *)
Definition default_EvalResult (r : EvalResult) : outcome py_value :=
  default (asdict_EvalResult r).

(** The estimate [load_eval] makes of a row that has both bounds: the bounds
    as floats, and their geometric mean as the value. *)
Definition row_estimate (row : csv_row) : outcome Estimate :=
  lo <- float_of_text (row_lower row) ;;
  hi <- float_of_text (row_upper row) ;;
  v <- math_sqrt (SFmul prec emax lo hi) ;;
  Ret {| lower := PyNum (NFloat lo); value := PyNum (NFloat v);
         upper := PyNum (NFloat hi); unit := PyStr (row_unit row);
         name := PyNone; reasoning_trace := PyNone |}.

End ProgramMore.

(** A number is somewhere in a value. *)
Fixpoint holds_number (v : py_value) : bool :=
  match v with
  | PyNum _ => true
  | PyList l => existsb holds_number l
  | PyDict d => existsb (fun kv => holds_number (snd kv)) d
  | _ => false
  end.

(** The conversation of [run_simple_llm_estimator] on a question, with the
    first reply of the model. *)
Definition first_turn (question : string) : list message :=
  [{| content := estimator_prompt question; role := "user" |}].

Definition second_turn (question response_text : string) : list message :=
  [{| content := estimator_prompt question; role := "user" |};
   {| content := response_text; role := "assistant" |};
   {| content := format_request; role := "user" |}].

(** The test of [load_eval] on a row: both bounds are there. *)
Definition has_bounds (row : csv_row) : bool :=
  negb (String.eqb (row_lower row) "") && negb (String.eqb (row_upper row) "").

(** A world whose completion service fails. *)
Definition unreachable_service (rows : list csv_row) : world := {|
  reply := fun _ _ _ => Raise (Exn RuntimeError "service unavailable");
  eval_beyond := fun _ _ => Raise (Exn SyntaxError "invalid syntax (<string>, line 1)");
  traceback_text := fun e => "Traceback (most recent call last): " ++ exn_str e;
  clock := "2024-08-01_12-00-00";
  csv := rows
|}.

(** *** Inputs for the runs *)

(** The float of an int that a float holds exactly. *)
Definition flt (z : Z) : spec_float := binary_normalize prec emax z 0 false.

Definition quantity (lo v hi : py_num) (u : string) : Estimate :=
  {| lower := PyNum lo; value := PyNum v; upper := PyNum hi; unit := PyStr u;
     name := PyNone; reasoning_trace := PyNone |}.

(** A candidate of 100 kg, and references between 150 and 250, and between
    150 and 200. *)
Definition candidate_100 : Estimate := quantity (NInt 50) (NInt 100) (NInt 200) "kg".
Definition reference_150_250 (u : string) : Estimate :=
  quantity (NFloat (flt 150)) (NFloat (flt 200)) (NFloat (flt 250)) u.
Definition reference_150_200 (u : string) : Estimate :=
  quantity (NFloat (flt 150)) (NFloat (flt 175)) (NFloat (flt 200)) u.
Definition reference_50_150 (u : string) : Estimate :=
  quantity (NFloat (flt 50)) (NFloat (flt 100)) (NFloat (flt 150)) u.

(** A runtime whose completion service replies [r] to every prompt. *)
Definition answering (r : string) : Runtime := cpython (replying r []).

Definition spiders_head : string := "Sure, here it is:
".
Definition spiders_object : string :=
  dq "{`lower`: 5.0e13, `value`: 1.52691e14, `upper`: 3.0e14, `unit`: `spiders`}".
Definition spiders_tail : string := "
Hope that helps!".

Definition spiders_data : dict :=
  [("lower", PyNum (NFloat (S754_finite false 6400000000000000 (-7))));
   ("value", PyNum (NFloat (S754_finite false 4886112000000000 (-5))));
   ("upper", PyNum (NFloat (S754_finite false 4800000000000000 (-4))));
   ("unit", PyStr "spiders")].

Definition no_unit_text : string :=
  dq "{`lower`: 1, `value`: 2, `upper`: 3, `confidence`: 0.9}".
Definition no_unit_data : dict :=
  [("lower", PyNum (NInt 1)); ("value", PyNum (NInt 2)); ("upper", PyNum (NInt 3));
   ("confidence", PyNum (NFloat (S754_finite false 8106479329266893 (-53))))].

Definition disordered_text : string :=
  dq "Answer: {`lower`: `3e2`, `value`: 20, `upper`: 1.5, `unit`: `m`, `name`: `depth`}".
Definition disordered_data : dict :=
  [("lower", PyStr "3e2"); ("value", PyNum (NInt 20));
   ("upper", PyNum (NFloat (S754_finite false 6755399441055744 (-52))));
   ("unit", PyStr "m"); ("name", PyStr "depth")].

Definition confident_text : string :=
  dq "{`lower`: 3, `value`: 2, `upper`: 1, `unit`: `m`, `confidence`: 0.9}".
Definition confident_data : dict :=
  [("lower", PyNum (NInt 3)); ("value", PyNum (NInt 2)); ("upper", PyNum (NInt 1));
   ("unit", PyStr "m");
   ("confidence", PyNum (NFloat (S754_finite false 8106479329266893 (-53))))].

Definition confident_abc_text : string :=
  dq "{`lower`: `abc`, `value`: 1, `upper`: 2, `unit`: `m`, `confidence`: 1}".

Definition confident_abc_data : dict :=
  [("lower", PyStr "abc"); ("value", PyNum (NInt 1)); ("upper", PyNum (NInt 2));
   ("unit", PyStr "m"); ("confidence", PyNum (NInt 1))].

Definition self_key_text : string :=
  dq "{`lower`: 1, `value`: 2, `upper`: 3, `unit`: `m`, `self`: 0}".
Definition self_key_data : dict :=
  [("lower", PyNum (NInt 1)); ("value", PyNum (NInt 2)); ("upper", PyNum (NInt 3));
   ("unit", PyStr "m"); ("self", PyNum (NInt 0))].

Definition null_lower_text : string :=
  dq "{`lower`: null, `value`: 1, `upper`: 2, `unit`: `m`}".
Definition null_lower_data : dict :=
  [("lower", PyNone); ("value", PyNum (NInt 1)); ("upper", PyNum (NInt 2));
   ("unit", PyStr "m")].

(** A data file whose only row has no upper bound. *)
Definition open_ended_rows : list csv_row :=
  [{| row_question := "How many spiders live in a square meter of forest?";
      row_lower := "50"; row_upper := ""; row_unit := "spiders" |}].

Definition some_estimator : Estimator :=
  {| fn := fun _ => Ret candidate_100; estimator_name_of := "constant" |}.

(** A data file of two rows, the second without an upper bound; the
    reference estimate of the first, and the result of the constant
    estimator on this file when the conversion model replies same. *)
Definition two_rows : list csv_row :=
  [{| row_question := "How many kg does a person weigh?";
      row_lower := "50"; row_upper := "200"; row_unit := "kg" |};
   {| row_question := "How many spiders live in a square meter of forest?";
      row_lower := "50"; row_upper := ""; row_unit := "spiders" |}].

(** A data file whose second row has a lower bound that is no number. *)
Definition unreadable_rows : list csv_row :=
  [{| row_question := "How many kg does a person weigh?";
      row_lower := "50"; row_upper := "200"; row_unit := "kg" |};
   {| row_question := "How long is a piece of string?";
      row_lower := "abc"; row_upper := "5"; row_unit := "m" |}].

Definition reference_50_200 : Estimate :=
  quantity (NFloat (flt 50)) (NFloat (flt 100)) (NFloat (flt 200)) "kg".

Definition person_query : QueryEvalResult :=
  {| question := "How many kg does a person weigh?";
     estimate := inl candidate_100;
     estimator_name := "constant";
     correct_estimate := reference_50_200;
     log := [] |}.

Definition person_result : EvalResult :=
  {| result_name := "constant_2024-08-01_12-00-00";
     score := NFloat (flt 1);
     queries_incorrect := [];
     queries_correct := [person_query] |}.

Definition abc_text : string :=
  dq "{`lower`: `abc`, `value`: 1, `upper`: 2, `unit`: `m`}".
Definition abc_data : dict :=
  [("lower", PyStr "abc"); ("value", PyNum (NInt 1)); ("upper", PyNum (NInt 2));
   ("unit", PyStr "m")].

(** * Properties *)

(** ** Text *)

Lemma index_of_none_rindex_of (c : ascii) (s : string) :
  index_of c s = None -> rindex_of c s = None.
Proof.
  induction s as [|a s IH]; simpl; [reflexivity|].
  destruct (Ascii.eqb a c); [discriminate|].
  destruct (index_of c s); [discriminate|].
  intros _. now rewrite IH.
Qed.

Lemma index_of_app_skip (c : ascii) (pre s : string) :
  index_of c pre = None ->
  index_of c (pre ++ s) = option_map (Nat.add (String.length pre)) (index_of c s).
Proof.
  induction pre as [|a pre IH]; simpl.
  - intros _. now destruct (index_of c s).
  - destruct (Ascii.eqb a c); [discriminate|].
    destruct (index_of c pre); [discriminate|].
    intros _. rewrite IH by reflexivity. now destruct (index_of c s).
Qed.

Lemma rindex_of_app_shift (c : ascii) (pre s : string) (i : nat) :
  rindex_of c s = Some i ->
  rindex_of c (pre ++ s) = Some (String.length pre + i)%nat.
Proof.
  intros H. induction pre as [|a pre IH]; simpl; [exact H|].
  now rewrite IH.
Qed.

Lemma rindex_of_app_drop (c : ascii) (s post : string) :
  rindex_of c post = None -> rindex_of c (s ++ post) = rindex_of c s.
Proof.
  intros H. induction s as [|a s IH]; simpl; [exact H|].
  now rewrite IH.
Qed.

Lemma startswith_char (c : ascii) (s : string) :
  startswith s (String c "") = true -> exists s', s = String c s'.
Proof.
  unfold startswith. destruct s as [|a s]; simpl; [discriminate|].
  destruct (ascii_dec c a) as [->|]; [|discriminate].
  intros _. now exists s.
Qed.

Lemma endswith_char (c : ascii) (s : string) :
  endswith s (String c "") = true -> exists s', s = s' ++ String c "".
Proof.
  induction s as [|a s IH]; simpl.
  - discriminate.
  - intros H. apply orb_true_iff in H. destruct H as [H|H].
    + destruct (Ascii.eqb_spec a c) as [->|]; [|discriminate].
      destruct s; [|discriminate]. now exists "".
    + destruct (IH H) as [s' ->]. now exists (String a s').
Qed.

Lemma rindex_of_last (c : ascii) (s : string) :
  rindex_of c (s ++ String c "") = Some (String.length s).
Proof.
  induction s as [|a s IH]; simpl.
  - now rewrite Ascii.eqb_refl.
  - now rewrite IH.
Qed.

Lemma length_app (s t : string) :
  String.length (s ++ t) = (String.length s + String.length t)%nat.
Proof. induction s as [|a s IH]; simpl; [reflexivity|now rewrite IH]. Qed.

Lemma substring_all (s t : string) :
  substring 0 (String.length s) (s ++ t) = s.
Proof. induction s as [|a s IH]; simpl; [now destruct t|now rewrite IH]. Qed.

Lemma substring_skip (pre s : string) (n : nat) :
  substring (String.length pre) n (pre ++ s) = substring 0 n s.
Proof. induction pre as [|a pre IH]; simpl; [reflexivity|exact IH]. Qed.

Lemma substring_none (n : nat) (s : string) : substring n 0 s = "".
Proof.
  revert n. induction s as [|a s IH]; intros [|n]; simpl; auto.
Qed.

Lemma index_of_substring_none (c : ascii) (s : string) :
  index_of c s = None -> forall n m, index_of c (substring n m s) = None.
Proof.
  induction s as [|a s IH]; intros H n m.
  - destruct n, m; reflexivity.
  - simpl in H. destruct (Ascii.eqb a c) eqn:Ha; [discriminate|].
    destruct (index_of c s) eqn:Hs; [discriminate|].
    destruct n as [|n]; simpl.
    + destruct m as [|m]; simpl; [reflexivity|].
      rewrite Ha. now rewrite (IH eq_refl 0%nat m).
    + apply IH. reflexivity.
Qed.

(** The span the parser cuts out is the object itself, when no opening brace
    comes before the object and no closing brace after it. *)
Lemma json_span_sandwich (pre body post : string) :
  index_of "{" pre = None ->
  index_of "}" post = None ->
  startswith body "{" = true ->
  endswith body "}" = true ->
  json_span (pre ++ body ++ post) = body.
Proof.
  intros Hpre Hpost Hs He.
  destruct (startswith_char _ _ Hs) as [b1 Hb1].
  destruct (endswith_char _ _ He) as [b2 Hb2].
  unfold json_span, find, rfind, slice.
  rewrite (index_of_app_skip _ _ _ Hpre).
  assert (Hi : index_of "{" (body ++ post) = Some O) by (rewrite Hb1; reflexivity).
  rewrite Hi. simpl option_map.
  assert (Hr : rindex_of "}" (pre ++ body ++ post)
               = Some (String.length pre + String.length b2)%nat).
  { apply rindex_of_app_shift.
    rewrite (rindex_of_app_drop _ _ _ (index_of_none_rindex_of _ _ Hpost)).
    rewrite Hb2. apply rindex_of_last. }
  rewrite Hr.
  assert (Hlen : String.length body = S (String.length b2)).
  { rewrite Hb2, length_app. simpl. lia. }
  rewrite !length_app.
  unfold slice_bound.
  repeat match goal with
         | |- context [if ?b <? ?c then _ else _] =>
             destruct (Z.ltb_spec b c); [lia|]
         end.
  rewrite !Z.min_l by lia.
  replace (Z.to_nat (Z.of_nat (String.length pre + 0)))
    with (String.length pre) by lia.
  replace (Z.to_nat (Z.of_nat (String.length pre + String.length b2) + 1
                     - Z.of_nat (String.length pre + 0)))
    with (String.length body) by lia.
  rewrite substring_skip. apply substring_all.
Qed.

(** ** Dicts *)

Lemma mem_In (k : string) (l : list string) : mem k l = true <-> In k l.
Proof.
  unfold mem. rewrite existsb_exists. split.
  - intros [x [Hx He]]. apply String.eqb_eq in He. now subst.
  - intros H. exists k. split; [exact H|apply String.eqb_refl].
Qed.

Lemma dict_has_get (d : dict) (k : string) :
  dict_has d k = true <-> exists v, dict_get d k = Some v.
Proof.
  unfold dict_has, dict_keys. rewrite mem_In.
  induction d as [|[k' v'] d IH]; simpl.
  - split; [tauto|intros [v H]; discriminate].
  - destruct (String.eqb_spec k' k) as [->|Hne].
    + split; [intros _; now exists v'|auto].
    + rewrite <- IH. split; [intros [H|H]; [contradiction|exact H]|auto].
Qed.

Lemma dict_get_set_same (d : dict) (k : string) (v : py_value) :
  dict_get (dict_set d k v) k = Some v.
Proof.
  induction d as [|[k' v'] d IH]; simpl.
  - now rewrite String.eqb_refl.
  - destruct (String.eqb_spec k' k) as [->|Hne]; simpl.
    + now rewrite String.eqb_refl.
    + destruct (String.eqb_spec k' k); [contradiction|exact IH].
Qed.

Lemma dict_get_set_other (d : dict) (k k' : string) (v : py_value) :
  k <> k' -> dict_get (dict_set d k v) k' = dict_get d k'.
Proof.
  intros Hne. induction d as [|[k0 v0] d IH]; simpl.
  - destruct (String.eqb_spec k k'); [contradiction|reflexivity].
  - destruct (String.eqb_spec k0 k) as [->|Hn0]; simpl.
    + destruct (String.eqb_spec k k'); [contradiction|reflexivity].
    + now rewrite IH.
Qed.

Lemma dict_keys_set (d : dict) (k : string) (v w : py_value) :
  dict_get d k = Some w -> dict_keys (dict_set d k v) = dict_keys d.
Proof.
  induction d as [|[k0 v0] d IH]; simpl; [discriminate|].
  destruct (String.eqb_spec k0 k) as [->|Hn0]; simpl; [reflexivity|].
  intros H. now rewrite IH.
Qed.

Lemma dict_set_same (d : dict) (k : string) (v : py_value) :
  dict_get d k = Some v -> dict_set d k v = d.
Proof.
  induction d as [|[k0 v0] d IH]; simpl; [discriminate|].
  destruct (String.eqb_spec k0 k) as [->|Hn0].
  - now intros [= ->].
  - intros H. now rewrite IH.
Qed.

(** ** The parser *)

Section Parser.

Context {R : Runtime}.

Lemma numerical_fields_order :
  NoDup (set_iter numerical_fields) /\
  forall f, In f (set_iter numerical_fields) <-> In f numerical_fields.
Proof.
  assert (Hnd : NoDup numerical_fields).
  { unfold numerical_fields. repeat constructor; simpl; intuition discriminate. }
  pose proof (set_iter_perm _ Hnd) as Hp. split.
  - eapply Permutation_NoDup; [apply Permutation_sym; exact Hp|exact Hnd].
  - intros f. split; intros H.
    + eapply Permutation_in; [exact Hp|exact H].
    + eapply Permutation_in; [apply Permutation_sym; exact Hp|exact H].
Qed.

(** One turn of the loop, on an entry that is a number or coerces to one. *)
Lemma coerce_field_numeric (data : dict) (field : string) (n : py_value) :
  numeric_entry data field = Some n ->
  coerce_field data field = Ret (dict_set data field n).
Proof.
  unfold numeric_entry, coerce_field.
  destruct (dict_get data field) as [v|] eqn:Hget; [|discriminate].
  destruct v as [|x|s|l|d]; simpl; try discriminate.
  - intros [= <-]. now rewrite (dict_set_same _ _ _ Hget).
  - destruct (float_of_str s); [|discriminate]. now intros [= <-].
Qed.

Lemma numeric_entry_set_other (data : dict) (k f : string) (v : py_value) :
  k <> f -> numeric_entry (dict_set data k v) f = numeric_entry data f.
Proof. intros H. unfold numeric_entry. now rewrite dict_get_set_other. Qed.

(** The loop over fields that all hold numbers or coerce to numbers: it
    returns the dict with each of these entries replaced by its number, the
    keys and the other entries as they were. *)
Lemma coerce_fields_numeric (fields : list string) :
  forall data : dict,
  NoDup fields ->
  (forall f, In f fields -> exists n, numeric_entry data f = Some n) ->
  exists data',
    coerce_fields fields data = Ret data' /\
    dict_keys data' = dict_keys data /\
    (forall f, In f fields -> dict_get data' f = numeric_entry data f) /\
    (forall k, ~ In k fields -> dict_get data' k = dict_get data k).
Proof.
  induction fields as [|f fields IH]; intros data Hnd Hnum.
  - exists data. simpl. repeat split; intros; tauto.
  - inversion Hnd as [|? ? Hnotin Hnd']; subst.
    destruct (Hnum f (or_introl eq_refl)) as [n Hn].
    assert (Hget : exists w, dict_get data f = Some w).
    { unfold numeric_entry in Hn. destruct (dict_get data f) as [w|]; [now exists w|discriminate]. }
    destruct Hget as [w Hw].
    destruct (IH (dict_set data f n) Hnd') as [data' [Hrun [Hkeys [Hin Hout]]]].
    { intros g Hg. destruct (Hnum g (or_intror Hg)) as [m Hm].
      exists m. rewrite numeric_entry_set_other; [exact Hm|].
      intros ->. contradiction. }
    exists data'. simpl. rewrite (coerce_field_numeric _ _ _ Hn). simpl.
    split; [exact Hrun|]. split; [|split].
    + rewrite Hkeys. eapply dict_keys_set; exact Hw.
    + intros g [<-|Hg].
      * rewrite (Hout f Hnotin), dict_get_set_same. now rewrite Hn.
      * rewrite (Hin g Hg). apply numeric_entry_set_other.
        intros ->. contradiction.
    + intros k Hk. rewrite Hout by (intros Hc; apply Hk; now right).
      apply dict_get_set_other. intros ->. apply Hk. now left.
Qed.

End Parser.

Section ParserResults.

Context {R : Runtime}.

(** What the parser does once it has extracted and decoded an object. *)
Lemma parse_estimate_extracted (text : string) (data : dict) :
  extracts text data ->
  parse_estimate text =
  if misses_required data then
    Raise (ValueError_ ("Text is missing the fields: "
                        ++ join ", " (set_iter (extra_keys (dict_keys data)))))
  else data' <- coerce_fields (set_iter numerical_fields) data ;; Estimate_init data'.
Proof.
  intros [Hs [He Hj]]. unfold parse_estimate. fold (json_span text).
  rewrite Hs, He, Hj. reflexivity.
Qed.

Lemma misses_required_false (data : dict) :
  misses_required data = false <->
  forall k, In k required_fields -> exists v, dict_get data k = Some v.
Proof.
  unfold misses_required. rewrite !orb_false_iff, !negb_false_iff, !dict_has_get.
  unfold required_fields. simpl. split.
  - intros [[[H1 H2] H3] H4] k [<-|[<-|[<-|[<-|[]]]]]; assumption.
  - intros H. repeat split; apply H; auto.
Qed.

(** The record [Estimate_init] builds from a dict that has the four required
    entries and no key besides the fields of [Estimate]. *)
Lemma Estimate_init_fields (kwargs : dict) (lo v hi u : py_value) :
  (forall k, In k (dict_keys kwargs) -> In k Estimate_fields) ->
  dict_get kwargs "lower" = Some lo ->
  dict_get kwargs "value" = Some v ->
  dict_get kwargs "upper" = Some hi ->
  dict_get kwargs "unit" = Some u ->
  Estimate_init kwargs =
  Ret {| lower := lo; value := v; upper := hi; unit := u;
         name := entry_or_None kwargs "name";
         reasoning_trace := entry_or_None kwargs "reasoning_trace" |}.
Proof.
  intros Hk Hlo Hv Hhi Hu. unfold Estimate_init.
  destruct (List.find _ (dict_keys kwargs)) as [k|] eqn:Hf.
  - apply find_some in Hf. destruct Hf as [Hin Hout].
    apply Hk, mem_In in Hin. rewrite Hin in Hout. discriminate.
  - rewrite Hlo, Hv, Hhi, Hu. reflexivity.
Qed.

(** The parser on an extracted object with the four required keys, numbers
    or texts of numbers under the three numeric ones, and no key besides the
    fields of [Estimate]: it returns the record of these entries. *)
Lemma parse_estimate_returns (text : string) (data : dict) (lo v hi u : py_value) :
  extracts text data ->
  (forall k, In k (dict_keys data) -> In k Estimate_fields) ->
  numeric_entry data "lower" = Some lo ->
  numeric_entry data "value" = Some v ->
  numeric_entry data "upper" = Some hi ->
  dict_get data "unit" = Some u ->
  parse_estimate text =
  Ret {| lower := lo; value := v; upper := hi; unit := u;
         name := entry_or_None data "name";
         reasoning_trace := entry_or_None data "reasoning_trace" |}.
Proof.
  intros Hex Hkeys Hlo Hv Hhi Hu.
  rewrite (parse_estimate_extracted _ _ Hex).
  assert (Hreq : misses_required data = false).
  { apply misses_required_false. intros k [<-|[<-|[<-|[<-|[]]]]].
    - unfold numeric_entry in Hlo. destruct (dict_get data "lower"); [eauto|discriminate].
    - unfold numeric_entry in Hv. destruct (dict_get data "value"); [eauto|discriminate].
    - unfold numeric_entry in Hhi. destruct (dict_get data "upper"); [eauto|discriminate].
    - eauto. }
  rewrite Hreq.
  destruct numerical_fields_order as [Hnd Hin].
  destruct (coerce_fields_numeric (set_iter numerical_fields) data Hnd)
    as [data' [Hrun [Hk' [Hnum Hrest]]]].
  { intros f Hf. apply Hin in Hf. destruct Hf as [<-|[<-|[<-|[]]]]; eauto. }
  rewrite Hrun. simpl.
  assert (Hout : forall k, ~ In k numerical_fields -> dict_get data' k = dict_get data k).
  { intros k Hk. apply Hrest. rewrite Hin. exact Hk. }
  assert (Hnot : forall k, In k ["unit"; "name"; "reasoning_trace"] -> ~ In k numerical_fields).
  { intros k [<-|[<-|[<-|[]]]]; simpl; intuition discriminate. }
  rewrite (Estimate_init_fields data' lo v hi u).
  - unfold entry_or_None. rewrite !Hout by (apply Hnot; simpl; auto). reflexivity.
  - rewrite Hk'. exact Hkeys.
  - rewrite Hnum by (apply Hin; simpl; auto). exact Hlo.
  - rewrite Hnum by (apply Hin; simpl; auto). exact Hv.
  - rewrite Hnum by (apply Hin; simpl; auto). exact Hhi.
  - rewrite Hout by (apply Hnot; simpl; auto). exact Hu.
Qed.

(** The same object with a key that is no field of [Estimate]: the call of
    [Estimate_init] raises for the first such key. *)
Lemma parse_estimate_unexpected (text : string) (data : dict) (k : string)
    (lo v hi u : py_value) :
  extracts text data ->
  List.find (fun k => negb (mem k Estimate_fields)) (dict_keys data) = Some k ->
  numeric_entry data "lower" = Some lo ->
  numeric_entry data "value" = Some v ->
  numeric_entry data "upper" = Some hi ->
  dict_get data "unit" = Some u ->
  parse_estimate text = Raise (keyword_error k).
Proof.
  intros Hex Hfind Hlo Hv Hhi Hu.
  rewrite (parse_estimate_extracted _ _ Hex).
  assert (Hreq : misses_required data = false).
  { apply misses_required_false. intros f [<-|[<-|[<-|[<-|[]]]]].
    - unfold numeric_entry in Hlo. destruct (dict_get data "lower"); [eauto|discriminate].
    - unfold numeric_entry in Hv. destruct (dict_get data "value"); [eauto|discriminate].
    - unfold numeric_entry in Hhi. destruct (dict_get data "upper"); [eauto|discriminate].
    - eauto. }
  rewrite Hreq.
  destruct numerical_fields_order as [Hnd Hin].
  destruct (coerce_fields_numeric (set_iter numerical_fields) data Hnd)
    as [data' [Hrun [Hk' _]]].
  { intros f Hf. apply Hin in Hf. destruct Hf as [<-|[<-|[<-|[]]]]; eauto. }
  rewrite Hrun. simpl. unfold Estimate_init. rewrite Hk', Hfind. reflexivity.
Qed.

End ParserResults.

Section ParserClaims.

Context {R : Runtime}.

Lemma extra_keys_spec (keys : list string) (k : string) :
  In k (extra_keys keys) <-> In k keys /\ ~ In k required_fields.
Proof.
  unfold extra_keys. rewrite filter_In, nodup_In, negb_true_iff.
  rewrite <- mem_In with (l := required_fields).
  destruct (mem k required_fields); intuition congruence.
Qed.

(** C6.  When the extracted object decodes but lacks one of the four required
    keys, the parser raises a ValueError whose message lists, after "Text is
    missing the fields: ", the keys of the object that are not among the four
    required ones, each once, joined by ", ", in the iteration order of a
    set; no required key, and so not the missing one, is listed. *)
Theorem parse_estimate_missing_key_lists_extra_keys (text : string) (data : dict) :
  extracts text data ->
  (exists k, In k required_fields /\ dict_get data k = None) ->
  exists listed : list string,
    parse_estimate text =
      Raise (ValueError_ ("Text is missing the fields: " ++ join ", " listed)) /\
    NoDup listed /\
    (forall k, In k listed <-> In k (dict_keys data) /\ ~ In k required_fields) /\
    (forall k, In k required_fields -> ~ In k listed).
Proof.
  intros Hex [k0 [Hk0 Hnone]].
  assert (Hmiss : misses_required data = true).
  { destruct (misses_required data) eqn:Hm; [reflexivity|].
    destruct (proj1 (misses_required_false data) Hm k0 Hk0) as [v Hv]. congruence. }
  assert (Hnd : NoDup (extra_keys (dict_keys data))).
  { unfold extra_keys. apply NoDup_filter, NoDup_nodup. }
  pose proof (set_iter_perm _ Hnd) as Hperm.
  assert (Hin : forall k, In k (set_iter (extra_keys (dict_keys data)))
                          <-> In k (dict_keys data) /\ ~ In k required_fields).
  { intros k. rewrite <- extra_keys_spec. split; intros H.
    - eapply Permutation_in; [exact Hperm|exact H].
    - eapply Permutation_in; [apply Permutation_sym; exact Hperm|exact H]. }
  exists (set_iter (extra_keys (dict_keys data))).
  split; [|split; [|split]].
  - rewrite (parse_estimate_extracted _ _ Hex), Hmiss. reflexivity.
  - eapply Permutation_NoDup; [apply Permutation_sym; exact Hperm|exact Hnd].
  - exact Hin.
  - intros k Hreq Hk. apply Hin in Hk. tauto.
Qed.

Lemma absent_key (data : dict) (k : string) :
  ~ In k (dict_keys data) -> dict_get data k = None.
Proof.
  intros H. destruct (dict_get data k) as [v|] eqn:Hg; [|reflexivity].
  exfalso. apply H. apply mem_In. apply dict_has_get. now exists v.
Qed.

(** C7.  A text that holds one JSON object (no opening brace before it, no
    closing brace after it) whose keys are exactly lower, value, upper and
    unit, with a number or a text that [float] reads under each of the first
    three: the parser returns the Estimate of these numbers and of the unit
    as it stands, with name and reasoning_trace None. *)
Theorem parse_estimate_one_object (pre body post : string) (data : dict)
    (lo v hi u : py_value) :
  index_of "{" pre = None ->
  index_of "}" post = None ->
  startswith body "{" = true ->
  endswith body "}" = true ->
  json_loads body = Ret data ->
  Permutation (dict_keys data) required_fields ->
  numeric_entry data "lower" = Some lo ->
  numeric_entry data "value" = Some v ->
  numeric_entry data "upper" = Some hi ->
  dict_get data "unit" = Some u ->
  parse_estimate (pre ++ body ++ post) =
  Ret {| lower := lo; value := v; upper := hi; unit := u;
         name := PyNone; reasoning_trace := PyNone |}.
Proof.
  intros Hpre Hpost Hs He Hj Hkeys Hlo Hv Hhi Hu.
  assert (Hspan := json_span_sandwich pre body post Hpre Hpost Hs He).
  assert (Hex : extracts (pre ++ body ++ post) data).
  { unfold extracts. rewrite Hspan. auto. }
  assert (Hfields : forall k, In k (dict_keys data) -> In k Estimate_fields).
  { intros k Hk. unfold Estimate_fields. apply in_or_app. left.
    eapply Permutation_in; [exact Hkeys|exact Hk]. }
  assert (Habsent : forall k, ~ In k required_fields -> entry_or_None data k = PyNone).
  { intros k Hk. unfold entry_or_None. rewrite absent_key; [reflexivity|].
    intros Hin. apply Hk. eapply Permutation_in; [exact Hkeys|exact Hin]. }
  rewrite (parse_estimate_returns _ _ lo v hi u Hex Hfields Hlo Hv Hhi Hu).
  rewrite !Habsent by (unfold required_fields; simpl; intuition discriminate).
  reflexivity.
Qed.

(** C9, amended.  The parser never compares lower, value and upper: on an
    extracted object with the four required keys, no key besides the fields
    of Estimate, and a number or a text that [float] reads under each of
    lower, value and upper, it returns these numbers as they stand, in
    whatever order they are. *)
Theorem parse_estimate_ignores_order (text : string) (data : dict)
    (lo v hi u : py_value) :
  extracts text data ->
  (forall k, In k (dict_keys data) -> In k Estimate_fields) ->
  numeric_entry data "lower" = Some lo ->
  numeric_entry data "value" = Some v ->
  numeric_entry data "upper" = Some hi ->
  dict_get data "unit" = Some u ->
  exists e : Estimate,
    parse_estimate text = Ret e /\
    lower e = lo /\ value e = v /\ upper e = hi /\ unit e = u.
Proof.
  intros Hex Hfields Hlo Hv Hhi Hu.
  eexists. split.
  - apply (parse_estimate_returns _ _ lo v hi u Hex Hfields Hlo Hv Hhi Hu).
  - simpl. auto.
Qed.

(** C10, amended.  On an extracted object with the four required keys, a
    number or a text that [float] reads under each of lower, value and upper,
    and some key that is no field of Estimate, the parser returns no Estimate
    and raises no ValueError: the key test and the coercions pass, and the
    construction of the record raises a TypeError for the first key of the
    object that is no field.  For the key self it says that the argument got
    multiple values; for every other key, that the keyword argument is
    unexpected. *)
Theorem parse_estimate_unexpected_keyword (text : string) (data : dict)
    (lo v hi u : py_value) :
  extracts text data ->
  (exists k, In k (dict_keys data) /\ ~ In k Estimate_fields) ->
  numeric_entry data "lower" = Some lo ->
  numeric_entry data "value" = Some v ->
  numeric_entry data "upper" = Some hi ->
  dict_get data "unit" = Some u ->
  exists k,
    List.find (fun k => negb (mem k Estimate_fields)) (dict_keys data) = Some k /\
    In k (dict_keys data) /\ ~ In k Estimate_fields /\
    parse_estimate text =
      Raise (Exn TypeError
               (if String.eqb k "self"
                then "Estimate.__init__() got multiple values for argument 'self'"
                else "Estimate.__init__() got an unexpected keyword argument '"
                     ++ k ++ "'")).
Proof.
  intros Hex [k0 [Hin0 Hout0]] Hlo Hv Hhi Hu.
  destruct (List.find (fun k => negb (mem k Estimate_fields)) (dict_keys data))
    as [k|] eqn:Hfind.
  - exists k. destruct (find_some _ _ Hfind) as [Hin Hneg].
    split; [reflexivity|]. split; [exact Hin|]. split.
    + intros Hc. apply mem_In in Hc. rewrite Hc in Hneg. discriminate.
    + rewrite (parse_estimate_unexpected _ _ _ lo v hi u Hex Hfind Hlo Hv Hhi Hu).
      unfold keyword_error. destruct (String.eqb k "self"); reflexivity.
  - exfalso. pose proof (find_none _ _ Hfind k0 Hin0) as Hn.
    apply negb_false_iff, mem_In in Hn. contradiction.
Qed.

End ParserClaims.

(** ** The scorer *)

Lemma rstrip_cons_nonspace (c : ascii) (s : string) :
  isspace c = false -> rstrip (String c s) = String c (rstrip s).
Proof. intros H. simpl. rewrite H. now destruct (rstrip s). Qed.

Lemma substring_full (s : string) : substring 0 (String.length s) s = s.
Proof. induction s as [|a s IH]; simpl; [reflexivity|now rewrite IH]. Qed.

(** The text [convert_units] makes of an exception of [eval], as the scorer
    reads it: it starts with "invalid" once stripped and lower-cased, it is
    not "same", and from its eighth character on it is a colon, a space and
    the message. *)
Lemma invalid_text_normalized (m : string) :
  String.eqb (strip (lower_str ("invalid: " ++ m))) "same" = false /\
  startswith (strip (lower_str ("invalid: " ++ m))) "invalid" = true.
Proof.
  cbn [append lower_str]. unfold strip.
  repeat (rewrite rstrip_cons_nonspace by reflexivity).
  split; reflexivity.
Qed.

Lemma invalid_text_reason (m : string) :
  slice_from ("invalid: " ++ m) 7 = ": " ++ m.
Proof.
  unfold slice_from, slice, slice_bound.
  set (len := Z.of_nat (String.length ("invalid: " ++ m))).
  assert (Hlen : len = 9 + Z.of_nat (String.length m)).
  { unfold len. rewrite length_app. simpl String.length. lia. }
  destruct (Z.ltb_spec 7 0); [lia|].
  destruct (Z.ltb_spec len 0); [lia|].
  rewrite Z.min_l by lia. rewrite Z.min_id.
  replace (Z.to_nat 7) with 7%nat by reflexivity.
  replace (Z.to_nat (len - 7)) with (String.length (": " ++ m))
    by (rewrite length_app; simpl String.length; lia).
  cbn [append substring]. apply (substring_full (String ":" (String " " m))).
Qed.

Lemma SFcompare_eq_sym (f g : spec_float) :
  SFcompare f g = Some Eq -> SFcompare g f = Some Eq.
Proof.
  destruct f as [s1|s1| |s1 m1 e1], g as [s2|s2| |s2 m2 e2]; simpl;
    try discriminate; try reflexivity;
    try (destruct s1, s2; simpl; congruence);
    try (destruct s1; discriminate); try (destruct s2; discriminate).
  destruct s1, s2; try discriminate;
    destruct (Z.compare_spec e1 e2) as [->| |]; try discriminate;
    rewrite Z.compare_refl; intros H.
  - assert (Hm : (m1 ?= m2)%positive = Eq).
    { unfold Pos.compare. destruct (Pos.compare_cont Eq m1 m2); simpl in H; congruence. }
    apply Pos.compare_eq in Hm. subst. now rewrite Pos.compare_cont_refl.
  - assert (Hm : (m1 ?= m2)%positive = Eq) by (injection H; auto).
    apply Pos.compare_eq in Hm. subst. now rewrite Pos.compare_cont_refl.
Qed.

(** [==] on numbers is symmetric. *)
Lemma num_eqb_sym (a b : py_num) : num_eqb a b = true -> num_eqb b a = true.
Proof.
  unfold num_eqb, num_compare.
  destruct (num_view a) as [x|f], (num_view b) as [y|g].
  - rewrite (Z.compare_antisym x y). now destruct (x ?= y).
  - destruct (compare_int_float x g) as [[]|]; simpl; congruence.
  - destruct (compare_int_float y f) as [[]|]; simpl; congruence.
  - destruct (SFcompare f g) as [[]|] eqn:H; try discriminate.
    now rewrite (SFcompare_eq_sym _ _ H).
Qed.

Lemma num_eqb_not_ltb (a b : py_num) : num_eqb a b = true -> num_ltb a b = false.
Proof. unfold num_eqb, num_ltb. now destruct (num_compare a b) as [[]|]. Qed.

Section ScorerClaims.

Context {R : Runtime}.

Lemma convert_units_reply (unit1 unit2 : py_value) :
  convert_units unit1 unit2 =
  response <- conversion_reply unit1 unit2 ;;
  if String.eqb response "same" then Ret (PyNum (NInt 1))
  else if String.eqb response "invalid" then Ret (PyStr "invalid")
  else
    match py_eval (convert_units_locals unit1 unit2 response) response with
    | Ret v => Ret v
    | Raise e =>
        if is_Exception (exn_type e)
        then Ret (PyStr ("invalid: " ++ exn_str e))
        else Raise e
    end.
Proof. reflexivity. Qed.

(** The scorer once [convert_units] has returned a number. *)
Lemma calculate_score_factor (est correct : Estimate) (f v lo hi : py_num) :
  value est = PyNum v ->
  lower correct = PyNum lo ->
  upper correct = PyNum hi ->
  convert_units (unit est) (unit correct) = Ret (PyNum f) ->
  calculate_score (inl est) correct =
  adjusted <- num_mul v f ;;
  Ret (if num_ltb lo adjusted && num_ltb adjusted hi then (1, "") else (0, "")).
Proof.
  intros Hv Hlo Hhi Hc. unfold calculate_score. rewrite Hc, Hv, Hlo, Hhi.
  simpl. destruct (num_mul v f) as [adj|e]; simpl; [|reflexivity].
  destruct (num_ltb lo adj); simpl; [|reflexivity].
  now destruct (num_ltb adj hi).
Qed.

(** C8.  When [convert_units] returns a number f, the scorer returns (1, "")
    exactly when the product of the candidate's value and f lies strictly
    between the reference's lower and upper bounds; a product equal to either
    bound gives (0, ""). *)
Theorem calculate_score_strict_range (est correct : Estimate) (f v lo hi : py_num) :
  value est = PyNum v ->
  lower correct = PyNum lo ->
  upper correct = PyNum hi ->
  convert_units (unit est) (unit correct) = Ret (PyNum f) ->
  (calculate_score (inl est) correct = Ret (1, "") <->
   exists adjusted,
     num_mul v f = Ret adjusted /\
     num_ltb lo adjusted = true /\ num_ltb adjusted hi = true) /\
  (forall adjusted,
     num_mul v f = Ret adjusted ->
     num_eqb adjusted lo = true \/ num_eqb adjusted hi = true ->
     calculate_score (inl est) correct = Ret (0, "")).
Proof.
  intros Hv Hlo Hhi Hc.
  rewrite (calculate_score_factor _ _ f v lo hi Hv Hlo Hhi Hc).
  split.
  - split.
    + destruct (num_mul v f) as [adj|e]; simpl; [|discriminate].
      destruct (num_ltb lo adj) eqn:H1, (num_ltb adj hi) eqn:H2; simpl;
        try discriminate.
      intros _. exists adj. auto.
    + intros [adj [Hm [H1 H2]]]. rewrite Hm. simpl. now rewrite H1, H2.
  - intros adj Hm Heq. rewrite Hm. simpl.
    destruct Heq as [Heq|Heq].
    + apply num_eqb_sym in Heq. now rewrite (num_eqb_not_ltb _ _ Heq).
    + rewrite (num_eqb_not_ltb _ _ Heq). now rewrite andb_false_r.
Qed.

Lemma num_mul_one (v : py_num) : num_mul v (NInt 1) = Ret (times_one v).
Proof. unfold num_mul, times_one. destruct (num_view v); reflexivity. Qed.

(** C1, amended.  When the completion service replies "same",
    [convert_units] returns the int 1 and the scorer applies the strict range
    test to the candidate's value times 1: it returns (1, "") when that
    product lies strictly between the reference's bounds, and (0, "")
    otherwise. *)
Theorem calculate_score_same_checks_range (est correct : Estimate) (v lo hi : py_num) :
  value est = PyNum v ->
  lower correct = PyNum lo ->
  upper correct = PyNum hi ->
  conversion_reply (unit est) (unit correct) = Ret "same" ->
  convert_units (unit est) (unit correct) = Ret (PyNum (NInt 1)) /\
  calculate_score (inl est) correct =
  Ret (if num_ltb lo (times_one v) && num_ltb (times_one v) hi
       then (1, "") else (0, "")).
Proof.
  intros Hv Hlo Hhi Hr.
  assert (Hc : convert_units (unit est) (unit correct) = Ret (PyNum (NInt 1))).
  { rewrite convert_units_reply, Hr. reflexivity. }
  split; [exact Hc|].
  rewrite (calculate_score_factor _ _ (NInt 1) v lo hi Hv Hlo Hhi Hc).
  rewrite num_mul_one. reflexivity.
Qed.

(** The scorer once [convert_units] has returned a text. *)
Lemma calculate_score_text (est correct : Estimate) (cf : string) :
  convert_units (unit est) (unit correct) = Ret (PyStr cf) ->
  calculate_score (inl est) correct =
  if String.eqb (strip (lower_str cf)) "same" then Ret (1, "")
  else if startswith (strip (lower_str cf)) "invalid" then
    Ret (0, "Invalid units: " ++ py_str (unit est) ++ " and "
            ++ py_str (unit correct) ++ ". Conversion model returned: "
            ++ slice_from cf 7)
  else Raise (ValueError_ ("Unexpected response from conversion model: " ++ cf)).
Proof. intros Hc. unfold calculate_score. rewrite Hc. reflexivity. Qed.

(** C2, amended.  [convert_units] compares the reply as it stands: the reply
    "same" gives the int 1, the reply "invalid" gives the text "invalid", and
    every other reply, one that differs from these by case or by spaces
    included, is handed to [eval] unchanged.  It is the scorer that strips
    and lower-cases, and it does so to the text [convert_units] returns: a
    text that is then "same" gives (1, ""), and one that then starts with
    "invalid" gives 0 with a diagnostic whose reason is the returned text
    from its eighth character on. *)
Theorem conversion_text_normalized_by_scorer (est correct : Estimate) :
  (conversion_reply (unit est) (unit correct) = Ret "same" ->
   convert_units (unit est) (unit correct) = Ret (PyNum (NInt 1))) /\
  (conversion_reply (unit est) (unit correct) = Ret "invalid" ->
   convert_units (unit est) (unit correct) = Ret (PyStr "invalid")) /\
  (forall response,
     conversion_reply (unit est) (unit correct) = Ret response ->
     response <> "same" ->
     response <> "invalid" ->
     convert_units (unit est) (unit correct) =
     match py_eval (convert_units_locals (unit est) (unit correct) response) response with
     | Ret v => Ret v
     | Raise e =>
         if is_Exception (exn_type e)
         then Ret (PyStr ("invalid: " ++ exn_str e))
         else Raise e
     end) /\
  (forall cf,
     convert_units (unit est) (unit correct) = Ret (PyStr cf) ->
     strip (lower_str cf) = "same" ->
     calculate_score (inl est) correct = Ret (1, "")) /\
  (forall cf,
     convert_units (unit est) (unit correct) = Ret (PyStr cf) ->
     strip (lower_str cf) <> "same" ->
     startswith (strip (lower_str cf)) "invalid" = true ->
     calculate_score (inl est) correct =
     Ret (0, "Invalid units: " ++ py_str (unit est) ++ " and "
             ++ py_str (unit correct) ++ ". Conversion model returned: "
             ++ slice_from cf 7)).
Proof.
  repeat split.
  - intros Hr. rewrite convert_units_reply, Hr. reflexivity.
  - intros Hr. rewrite convert_units_reply, Hr. reflexivity.
  - intros response Hr Hs Hi. rewrite convert_units_reply, Hr. cbn [bind].
    destruct (String.eqb_spec response "same"); [contradiction|].
    destruct (String.eqb_spec response "invalid"); [contradiction|].
    reflexivity.
  - intros cf Hc Hn. rewrite (calculate_score_text _ _ _ Hc), Hn. reflexivity.
  - intros cf Hc Hn Hi. rewrite (calculate_score_text _ _ _ Hc), Hi.
    destruct (String.eqb_spec (strip (lower_str cf)) "same"); [contradiction|reflexivity].
Qed.

(** C4, amended.  For a reply other than "same" and "invalid" on which
    [eval] raises an exception derived from [Exception], with message m:
    [convert_units] raises nothing and returns the text "invalid: " followed
    by m, and the scorer returns 0 with the diagnostic of invalid units, its
    reason ": " followed by m.  For such a reply that [eval] evaluates to a
    text which, stripped and lower-cased, neither is "same" nor starts with
    "invalid": [convert_units] returns that text as it is, and the scorer
    raises a ValueError, as it does on every such text that [convert_units]
    returns. *)
Theorem eval_failure_scores_zero (est correct : Estimate) :
  (forall response e,
     conversion_reply (unit est) (unit correct) = Ret response ->
     response <> "same" ->
     response <> "invalid" ->
     py_eval (convert_units_locals (unit est) (unit correct) response) response
       = Raise e ->
     is_Exception (exn_type e) = true ->
     convert_units (unit est) (unit correct) = Ret (PyStr ("invalid: " ++ exn_str e)) /\
     calculate_score (inl est) correct =
     Ret (0, "Invalid units: " ++ py_str (unit est) ++ " and "
             ++ py_str (unit correct) ++ ". Conversion model returned: : "
             ++ exn_str e)) /\
  (forall response cf,
     conversion_reply (unit est) (unit correct) = Ret response ->
     response <> "same" ->
     response <> "invalid" ->
     py_eval (convert_units_locals (unit est) (unit correct) response) response
       = Ret (PyStr cf) ->
     strip (lower_str cf) <> "same" ->
     startswith (strip (lower_str cf)) "invalid" = false ->
     convert_units (unit est) (unit correct) = Ret (PyStr cf) /\
     calculate_score (inl est) correct =
     Raise (Exn ValueError ("Unexpected response from conversion model: " ++ cf))) /\
  (forall cf,
     convert_units (unit est) (unit correct) = Ret (PyStr cf) ->
     strip (lower_str cf) <> "same" ->
     startswith (strip (lower_str cf)) "invalid" = false ->
     calculate_score (inl est) correct =
     Raise (Exn ValueError ("Unexpected response from conversion model: " ++ cf))).
Proof.
  split; [|split].
  - intros response e Hr Hs Hi He Hx.
    assert (Hc : convert_units (unit est) (unit correct)
                 = Ret (PyStr ("invalid: " ++ exn_str e))).
    { rewrite convert_units_reply, Hr. simpl.
      destruct (String.eqb_spec response "same"); [contradiction|].
      destruct (String.eqb_spec response "invalid"); [contradiction|].
      rewrite He, Hx. reflexivity. }
    split; [exact Hc|].
    rewrite (calculate_score_text _ _ _ Hc).
    destruct (invalid_text_normalized (exn_str e)) as [H1 H2].
    rewrite H1, H2, invalid_text_reason. reflexivity.
  - intros response cf Hr Hs Hi He Hn Hp.
    assert (Hc : convert_units (unit est) (unit correct) = Ret (PyStr cf)).
    { rewrite convert_units_reply, Hr. simpl.
      destruct (String.eqb_spec response "same"); [contradiction|].
      destruct (String.eqb_spec response "invalid"); [contradiction|].
      rewrite He. reflexivity. }
    split; [exact Hc|].
    rewrite (calculate_score_text _ _ _ Hc), Hp.
    destruct (String.eqb_spec (strip (lower_str cf)) "same"); [contradiction|reflexivity].
  - intros cf Hc Hn Hi. rewrite (calculate_score_text _ _ _ Hc), Hi.
    destruct (String.eqb_spec (strip (lower_str cf)) "same"); [contradiction|reflexivity].
Qed.

End ScorerClaims.

(** ** Failures *)

Section Failures.

Context {R : Runtime}.

Lemma coerce_field_raise_set_other (data : dict) (k f : string) (v : py_value)
    (e : py_exn) :
  k <> f ->
  coerce_field data f = Raise e ->
  coerce_field (dict_set data k v) f = Raise e.
Proof.
  intros Hne. unfold coerce_field. rewrite (dict_get_set_other _ _ _ _ Hne).
  destruct (dict_get data f) as [w|]; [|auto].
  destruct (is_int_or_float w); [discriminate|].
  destruct (py_float w); [discriminate|auto].
Qed.

(** The loop stops at the one field whose turn raises, whatever the order of
    the fields, when the other fields hold numbers or coerce to numbers. *)
Lemma coerce_fields_raises (fields : list string) (f0 : string) (e : py_exn) :
  forall data : dict,
  NoDup fields ->
  In f0 fields ->
  coerce_field data f0 = Raise e ->
  (forall f, In f fields -> f <> f0 -> exists n, numeric_entry data f = Some n) ->
  coerce_fields fields data = Raise e.
Proof.
  induction fields as [|f fields IH]; intros data Hnd Hin Hraise Hnum; [contradiction|].
  inversion Hnd as [|? ? Hnotin Hnd']; subst. simpl.
  destruct (String.eqb_spec f f0) as [->|Hne].
  - now rewrite Hraise.
  - destruct Hin as [Heq|Hin]; [contradiction|].
    destruct (Hnum f (or_introl eq_refl) Hne) as [n Hn].
    rewrite (coerce_field_numeric _ _ _ Hn). simpl.
    apply IH; auto.
    + now apply coerce_field_raise_set_other.
    + intros g Hg Hg0. destruct (Hnum g (or_intror Hg) Hg0) as [m Hm].
      exists m. rewrite numeric_entry_set_other; [exact Hm|].
      intros ->. contradiction.
Qed.

(** The turn of a field that holds neither a number nor a text: the
    TypeError of [float] passes the [except ValueError] of the loop. *)
Lemma coerce_field_not_text (data : dict) (field : string) (v : py_value) :
  dict_get data field = Some v ->
  is_int_or_float v = false ->
  (forall s, v <> PyStr s) ->
  coerce_field data field =
  Raise (Exn TypeError ("float() argument must be a string or a real number, not '"
                        ++ type_name v ++ "'")).
Proof.
  intros Hget Hnum Htext. unfold coerce_field. rewrite Hget, Hnum.
  destruct v as [|n|s|l|d]; try reflexivity; try discriminate.
  now destruct (Htext s).
Qed.

(** The turn of a field that holds a text [float] cannot read: the ValueError
    of the loop, which names the field. *)
Lemma coerce_field_bad_text (data : dict) (field s : string) :
  dict_get data field = Some (PyStr s) ->
  float_of_str s = None ->
  coerce_field data field =
  Raise (Exn ValueError ("Field '" ++ field ++ "' is not a valid number")).
Proof.
  intros Hget Hbad. unfold coerce_field. rewrite Hget. simpl. now rewrite Hbad.
Qed.

(** The parser on an extracted object with the four required keys where one
    numeric field holds what [float] rejects and the two others hold numbers
    or coerce to numbers: it raises what the turn of that field raises. *)
Lemma parse_estimate_field_raises (text : string) (data : dict) (f0 : string)
    (e : py_exn) :
  extracts text data ->
  misses_required data = false ->
  In f0 numerical_fields ->
  coerce_field data f0 = Raise e ->
  (forall f, In f numerical_fields -> f <> f0 -> exists n, numeric_entry data f = Some n) ->
  parse_estimate text = Raise e.
Proof.
  intros Hex Hreq Hf0 Hraise Hnum.
  rewrite (parse_estimate_extracted _ _ Hex), Hreq.
  destruct numerical_fields_order as [Hnd Hin].
  rewrite (coerce_fields_raises (set_iter numerical_fields) f0 e data Hnd); auto.
  - now apply Hin.
  - intros f Hf. apply Hnum. now apply Hin.
Qed.

(** A text without an opening brace, or without a closing one: the parser
    raises its ValueError before it decodes anything. *)
Lemma parse_estimate_no_brace (text : string) :
  index_of "{" text = None \/ index_of "}" text = None ->
  parse_estimate text = Raise (Exn ValueError "Text is not a valid JSON object").
Proof.
  intros H. unfold parse_estimate.
  assert (Hs : startswith (slice text (find text "{") (rfind text "}" + 1)) "{" = false).
  { destruct H as [H|H].
    - destruct (startswith _ "{") eqn:Hp; [|reflexivity].
      destruct (startswith_char _ _ Hp) as [t Ht].
      pose proof (index_of_substring_none "{" text H
                    (Z.to_nat (slice_bound (Z.of_nat (String.length text)) (find text "{")))
                    (Z.to_nat (slice_bound (Z.of_nat (String.length text)) (rfind text "}" + 1)
                               - slice_bound (Z.of_nat (String.length text)) (find text "{"))))
        as Hnone.
      unfold slice in Ht. rewrite Ht in Hnone. simpl in Hnone. discriminate.
    - unfold rfind. rewrite (index_of_none_rindex_of _ _ H).
      unfold slice. change (-1 + 1) with 0.
      replace (slice_bound (Z.of_nat (String.length text)) 0) with 0
        by (unfold slice_bound; simpl; lia).
      replace (Z.to_nat (0 - slice_bound (Z.of_nat (String.length text)) (find text "{")))
        with O.
      + now rewrite substring_none.
      + unfold slice_bound. destruct (Z.ltb_spec (find text "{") 0); lia. }
  rewrite Hs. reflexivity.
Qed.

(** C3.  Without a reference estimate, the run raises a ValueError instead of
    returning the score 0. *)
Theorem generate_eval_result_no_estimates (estimator : Estimator)
    (questions : list string) :
  load_eval = Ret (questions, []) ->
  generate_eval_result estimator =
  Raise (Exn ValueError "not enough values to unpack (expected 2, got 0)").
Proof.
  intros Hload. unfold generate_eval_result.
  rewrite Hload. simpl.
  (* no result to unzip into queries and scores *)
  reflexivity.
Qed.

End Failures.

(** ** The aggregate score *)

Section Aggregate.

Context {R : Runtime}.

(** A score is 0 or 1. *)
Lemma calculate_score_binary (estimated : Estimate + string) (correct : Estimate)
    (s : Z) (diagnostic : string) :
  calculate_score estimated correct = Ret (s, diagnostic) -> s = 0 \/ s = 1.
Proof.
  unfold calculate_score. destruct estimated as [est|trace].
  - destruct (convert_units (unit est) (unit correct)) as [cf|e]; simpl; [|discriminate].
    destruct cf as [|n|t|l|d]; simpl;
      try (destruct (py_mul (value est) _) as [adj|e]; simpl; [|discriminate];
           destruct (py_lt (lower correct) adj) as [[]|e]; simpl; try discriminate;
           try (destruct (py_lt adj (upper correct)) as [[]|e]; simpl; try discriminate);
           intros [= <- _]; auto).
    destruct (String.eqb _ "same"); [intros [= <- _]; auto|].
    destruct (startswith _ "invalid"); [intros [= <- _]; auto|discriminate].
  - intros [= <- _]. auto.
Qed.

Lemma process_estimate_binary (estimator : Estimator) (questions : list string)
    (args : nat * Estimate) (q : QueryEvalResult) (s : Z) :
  process_estimate estimator questions args = Ret (q, s) -> s = 0 \/ s = 1.
Proof.
  unfold process_estimate. destruct args as [i correct].
  destruct (nth_error questions i) as [qn|]; [|discriminate].
  destruct (match fn estimator qn with Ret e => _ | Raise e => _ end) as [[est lg]|e];
    simpl; [|discriminate].
  destruct (calculate_score est correct) as [[s' d]|e] eqn:Hs; simpl; [|discriminate].
  intros [= _ <-]. eapply calculate_score_binary; exact Hs.
Qed.

Lemma map_outcome_Forall {A B : Type} (f : A -> outcome B) (P : B -> Prop)
    (items : list A) :
  (forall x y, f x = Ret y -> P y) ->
  forall ys, map_outcome f items = Ret ys ->
  Forall P ys /\ List.length ys = List.length items.
Proof.
  intros Hf. induction items as [|x items IH]; simpl; intros ys.
  - intros [= <-]. split; [constructor|reflexivity].
  - destruct (f x) as [y|e] eqn:Hy; simpl; [|discriminate].
    destruct (map_outcome f items) as [ys'|e]; simpl; [|discriminate].
    intros [= <-]. destruct (IH ys' eq_refl) as [HP Hlen].
    split; [constructor; eauto|simpl; now rewrite Hlen].
Qed.

Lemma enumerate_from_length {A : Type} (items : list A) :
  forall i, List.length (enumerate_from i items) = List.length items.
Proof. induction items as [|x items IH]; simpl; intros i; [reflexivity|now rewrite IH]. Qed.

Lemma fold_left_add (scores : list Z) :
  forall acc, fold_left Z.add scores acc = acc + fold_left Z.add scores 0.
Proof.
  induction scores as [|s scores IH]; simpl; intros acc; [lia|].
  rewrite (IH (acc + s)), (IH s). lia.
Qed.

(** The sum of scores that are 0 or 1 counts the scores equal to 1. *)
Lemma sum_counts_ones (scores : list Z) :
  Forall (fun s => s = 0 \/ s = 1) scores ->
  sum scores = Z.of_nat (count_occ Z.eq_dec scores 1).
Proof.
  unfold sum. induction 1 as [|s scores [->| ->] _ IH]; simpl; [reflexivity| |].
  - exact IH.
  - rewrite fold_left_add, IH. lia.
Qed.

(** With at least one reference estimate, and every question scored, the
    aggregate score of the run is the number of scores equal to 1 divided,
    as a float, by the number of questions. *)
Lemma generate_eval_result_average (estimator : Estimator)
    (questions : list string) (estimates : list Estimate)
    (results : list (QueryEvalResult * Z)) :
  load_eval = Ret (questions, estimates) ->
  estimates <> [] ->
  map_outcome (process_estimate estimator questions) (enumerate_from 0 estimates)
    = Ret results ->
  List.length results = List.length estimates /\
  exists r,
    generate_eval_result estimator =
      (f <- int_truediv (Z.of_nat (count_occ Z.eq_dec (map snd results) 1))
                        (Z.of_nat (List.length estimates)) ;;
       Ret (r f)) /\
    forall f, score (r f) = NFloat f.
Proof.
  intros Hload Hne Hmap.
  destruct (map_outcome_Forall _ (fun qs => snd qs = 0 \/ snd qs = 1) _
              (fun x y => match y with (q, s) => process_estimate_binary _ _ x q s end)
              _ Hmap) as [Hbin Hlen].
  rewrite enumerate_from_length in Hlen. split; [exact Hlen|].
  assert (Hsum : sum (map snd results)
                 = Z.of_nat (count_occ Z.eq_dec (map snd results) 1)).
  { apply sum_counts_ones. apply Forall_map. exact Hbin. }
  unfold generate_eval_result. rewrite Hload. simpl. rewrite Hmap. simpl.
  destruct results as [|r0 results]; [destruct estimates; [contradiction|discriminate]|].
  destruct estimates as [|e0 estimates]; [contradiction|].
  rewrite Hsum.
  eexists (fun f => {| result_name := _; score := NFloat f;
                       queries_incorrect := _; queries_correct := _ |}).
  split; [|reflexivity].
  destruct (int_truediv _ _); reflexivity.
Qed.

End Aggregate.

(** ** The decoder of the concrete runtime *)

Lemma scan_members_dict (scan : string -> option (py_value * string)) (fuel : nat) :
  forall s acc v rest,
  scan_members scan fuel s acc = Some (v, rest) -> exists d, v = PyDict d.
Proof.
  induction fuel as [|fuel IH]; simpl; intros s acc v rest; [discriminate|].
  destruct (skip_json_ws s) as [|c s']; [discriminate|].
  destruct (ascii_dec c "}") as [->|Hc].
  - intros [= <- _]. eauto.
  - destruct (ascii_dec c ",") as [->|Hc'].
    + destruct (skip_json_ws s') as [|q s'']; [discriminate|].
      destruct (Ascii.eqb q dquote); [|discriminate].
      destruct (scan_member scan s'') as [[[k w] r]|]; [|discriminate].
      apply IH.
    + destruct c as [[] [] [] [] [] [] [] []]; try discriminate;
        exfalso; auto.
Qed.

Lemma scan_object_dict (scan : string -> option (py_value * string)) (fuel : nat)
    (s : string) (v : py_value) (rest : string) :
  scan_object scan fuel s = Some (v, rest) -> exists d, v = PyDict d.
Proof.
  unfold scan_object.
  destruct (skip_json_ws s) as [|c s']; [discriminate|].
  destruct (ascii_dec c "}") as [->|Hc].
  - intros [= <- _]. eauto.
  - destruct c as [[] [] [] [] [] [] [] []]; cbn;
      try discriminate; try (exfalso; apply Hc; reflexivity).
    destruct (scan_member scan s') as [[[k w] r]|]; [|discriminate].
    apply scan_members_dict.
Qed.

(** A text that starts with a brace decodes to a dict, when it decodes. *)
Lemma json_decode_brace (s : string) (v : py_value) :
  startswith s "{" = true -> json_decode s = Ret v -> exists d, v = PyDict d.
Proof.
  intros Hs. destruct (startswith_char _ _ Hs) as [s' ->].
  unfold json_decode.
  change (skip_json_ws (String "{" s')) with (String "{"%char s').
  change (scan_once (S (String.length (String "{" s'))) (String "{" s'))
    with (scan_object (scan_once (String.length (String "{" s')))
            (String.length (String "{" s')) s').
  destruct (scan_object _ _ s') as [[w rest]|] eqn:Hscan; [|discriminate].
  destruct (scan_object_dict _ _ _ _ _ Hscan) as [d ->].
  destruct (skip_json_ws rest); [|discriminate].
  intros [= <-]. eauto.
Qed.

(** On such a text [json_decode_object] returns what [json_decode] returns. *)
Lemma json_decode_object_brace (s : string) (v : py_value) :
  startswith s "{" = true ->
  json_decode s = Ret v ->
  exists d, v = PyDict d /\ json_decode_object s = Ret d.
Proof.
  intros Hs Hv. destruct (json_decode_brace s v Hs Hv) as [d ->].
  exists d. split; [reflexivity|]. unfold json_decode_object. now rewrite Hv.
Qed.

(** ** Runs of the program *)

Lemma extracts_whole (text : string) (data : dict) :
  json_span text = text ->
  startswith text "{" = true ->
  endswith text "}" = true ->
  json_decode_object text = Ret data ->
  extracts (R := answering "") text data.
Proof. intros Hspan Hs He Hj. unfold extracts. rewrite Hspan. auto. Qed.

Lemma parse_estimate_missing_key_lists_extra_keys_witness :
  exists listed : list string,
    parse_estimate (R := answering "") no_unit_text =
      Raise (ValueError_ ("Text is missing the fields: " ++ join ", " listed)) /\
    NoDup listed /\
    (forall k, In k listed <-> In k (dict_keys no_unit_data) /\ ~ In k required_fields) /\
    (forall k, In k required_fields -> ~ In k listed).
Proof.
  apply (parse_estimate_missing_key_lists_extra_keys (R := answering "")).
  - apply extracts_whole; vm_compute; reflexivity.
  - exists "unit". split; [simpl; auto|reflexivity].
Defined.

(** The diagnostic of the object without a unit names confidence. *)
Example parse_estimate_no_unit :
  parse_estimate (R := answering "") no_unit_text =
  Raise (ValueError_ "Text is missing the fields: confidence").
Proof. vm_compute. reflexivity. Qed.

Lemma parse_estimate_one_object_witness :
  parse_estimate (R := answering "") (spiders_head ++ spiders_object ++ spiders_tail) =
  Ret {| lower := PyNum (NFloat (S754_finite false 6400000000000000 (-7)));
         value := PyNum (NFloat (S754_finite false 4886112000000000 (-5)));
         upper := PyNum (NFloat (S754_finite false 4800000000000000 (-4)));
         unit := PyStr "spiders"; name := PyNone; reasoning_trace := PyNone |}.
Proof.
  apply (parse_estimate_one_object (R := answering "") _ _ _ spiders_data);
    solve [apply Permutation_refl | vm_compute; reflexivity].
Defined.

Lemma parse_estimate_ignores_order_witness :
  exists e : Estimate,
    parse_estimate (R := answering "") disordered_text = Ret e /\
    lower e = PyNum (NFloat (flt 300)) /\ value e = PyNum (NInt 20) /\
    upper e = PyNum (NFloat (S754_finite false 6755399441055744 (-52))) /\
    unit e = PyStr "m".
Proof.
  apply (parse_estimate_ignores_order (R := answering "") _ disordered_data).
  - vm_compute. auto.
  - simpl. intros k H. unfold Estimate_fields. simpl. intuition.
  - vm_compute. reflexivity.
  - reflexivity.
  - reflexivity.
  - reflexivity.
Defined.

(** Counterexample to C9 as stated: an object with the four required keys,
    a number under each of lower, value and upper, and a fifth key; the
    parser does not return. *)
Lemma parse_estimate_extra_key_fails :
  extracts (R := answering "") confident_text confident_data /\
  misses_required confident_data = false /\
  numeric_entry (R := answering "") confident_data "lower" = Some (PyNum (NInt 3)) /\
  numeric_entry (R := answering "") confident_data "value" = Some (PyNum (NInt 2)) /\
  numeric_entry (R := answering "") confident_data "upper" = Some (PyNum (NInt 1)) /\
  parse_estimate (R := answering "") confident_text =
  Raise (Exn TypeError
           "Estimate.__init__() got an unexpected keyword argument 'confidence'").
Proof. vm_compute. repeat split; reflexivity. Qed.

Lemma parse_estimate_unexpected_keyword_witness :
  (exists k,
     List.find (fun k => negb (mem k Estimate_fields)) (dict_keys confident_data)
       = Some k /\
     In k (dict_keys confident_data) /\ ~ In k Estimate_fields /\
     parse_estimate (R := answering "") confident_text =
       Raise (Exn TypeError
                (if String.eqb k "self"
                 then "Estimate.__init__() got multiple values for argument 'self'"
                 else "Estimate.__init__() got an unexpected keyword argument '"
                      ++ k ++ "'"))) /\
  (exists k,
     List.find (fun k => negb (mem k Estimate_fields)) (dict_keys self_key_data)
       = Some k /\
     In k (dict_keys self_key_data) /\ ~ In k Estimate_fields /\
     parse_estimate (R := answering "") self_key_text =
       Raise (Exn TypeError
                (if String.eqb k "self"
                 then "Estimate.__init__() got multiple values for argument 'self'"
                 else "Estimate.__init__() got an unexpected keyword argument '"
                      ++ k ++ "'"))).
Proof.
  split.
  - apply (parse_estimate_unexpected_keyword (R := answering "") _ confident_data
             (PyNum (NInt 3)) (PyNum (NInt 2)) (PyNum (NInt 1)) (PyStr "m")).
    + vm_compute. auto.
    + exists "confidence". split; [simpl; auto 10|].
      unfold Estimate_fields. simpl. intuition discriminate.
    + reflexivity.
    + reflexivity.
    + reflexivity.
    + reflexivity.
  - apply (parse_estimate_unexpected_keyword (R := answering "") _ self_key_data
             (PyNum (NInt 1)) (PyNum (NInt 2)) (PyNum (NInt 3)) (PyStr "m")).
    + vm_compute. auto.
    + exists "self". split; [simpl; auto 10|].
      unfold Estimate_fields. simpl. intuition discriminate.
    + reflexivity.
    + reflexivity.
    + reflexivity.
    + reflexivity.
Defined.

(** The two messages of the construction: an object with the key confidence,
    and one with the key self. *)
Example parse_estimate_keyword_messages :
  parse_estimate (R := answering "") confident_text =
    Raise (Exn TypeError
             "Estimate.__init__() got an unexpected keyword argument 'confidence'") /\
  parse_estimate (R := answering "") self_key_text =
    Raise (Exn TypeError "Estimate.__init__() got multiple values for argument 'self'").
Proof. split; vm_compute; reflexivity. Qed.

(** Counterexample to C10 as stated: an object with the four required keys
    and a fifth one, confidence; the parser raises a ValueError, its own
    error, on the text under lower. *)
Lemma parse_estimate_extra_key_ValueError :
  extracts (R := answering "") confident_abc_text confident_abc_data /\
  misses_required confident_abc_data = false /\
  dict_has confident_abc_data "confidence" = true /\
  mem "confidence" Estimate_fields = false /\
  parse_estimate (R := answering "") confident_abc_text =
  Raise (Exn ValueError "Field 'lower' is not a valid number").
Proof. vm_compute. repeat split; reflexivity. Qed.

(** C5.  The parser on an object whose lower is null raises the TypeError of
    [float], which the [except ValueError] of the coercion loop does not
    catch; the claim has the ValueError that names the field there. *)
Theorem parse_estimate_null_raises_TypeError :
  parse_estimate (R := answering "") null_lower_text =
  Raise (Exn TypeError
           "float() argument must be a string or a real number, not 'NoneType'").
Proof.
  apply (parse_estimate_field_raises (R := answering "") _ null_lower_data "lower").
  - vm_compute. auto.
  - reflexivity.
  - simpl. auto.
  - reflexivity.
  - intros f [<-|[<-|[<-|[]]]] Hne; try contradiction; eexists; reflexivity.
Qed.

Lemma generate_eval_result_no_estimates_witness :
  generate_eval_result (R := cpython (replying "same" open_ended_rows)) some_estimator =
  Raise (Exn ValueError "not enough values to unpack (expected 2, got 0)").
Proof.
  apply (generate_eval_result_no_estimates
           (R := cpython (replying "same" open_ended_rows)) some_estimator []).
  reflexivity.
Defined.

(** Counterexample to C1 as stated: the reply is "same", the candidate's
    value lies outside the reference's bounds, and the score is 0. *)
Lemma calculate_score_same_out_of_range :
  conversion_reply (R := answering "same") (PyStr "kg") (PyStr "kg") = Ret "same" /\
  calculate_score (R := answering "same") (inl candidate_100) (reference_150_250 "kg")
  = Ret (0, "").
Proof. split; vm_compute; reflexivity. Qed.

Lemma calculate_score_same_checks_range_witness :
  convert_units (R := answering "same") (PyStr "kg") (PyStr "kg") = Ret (PyNum (NInt 1)) /\
  calculate_score (R := answering "same") (inl candidate_100) (reference_50_150 "kg")
  = Ret (1, "").
Proof.
  exact (calculate_score_same_checks_range (R := answering "same")
           candidate_100 (reference_50_150 "kg")
           (NInt 100) (NFloat (flt 50)) (NFloat (flt 150))
           eq_refl eq_refl eq_refl eq_refl).
Defined.

Lemma calculate_score_strict_range_witness :
  calculate_score (R := answering "2") (inl candidate_100) (reference_150_250 "lb")
  = Ret (1, "") /\
  calculate_score (R := answering "2") (inl candidate_100) (reference_150_200 "lb")
  = Ret (0, "").
Proof.
  split.
  - apply (proj1 (calculate_score_strict_range (R := answering "2")
                    candidate_100 (reference_150_250 "lb")
                    (NInt 2) (NInt 100) (NFloat (flt 150)) (NFloat (flt 250))
                    eq_refl eq_refl eq_refl eq_refl)).
    exists (NInt 200). repeat split; reflexivity.
  - apply (proj2 (calculate_score_strict_range (R := answering "2")
                    candidate_100 (reference_150_200 "lb")
                    (NInt 2) (NInt 100) (NFloat (flt 150)) (NFloat (flt 200))
                    eq_refl eq_refl eq_refl eq_refl) (NInt 200)).
    + reflexivity.
    + right. reflexivity.
Defined.

(** Counterexample to C2 as stated: the reply " Same " is "same" once
    stripped and lower-cased, and [convert_units] turns it into the text of a
    NameError, which the scorer reads as invalid units. *)
Lemma conversion_reply_Same_is_invalid :
  strip (lower_str " Same ") = "same" /\
  convert_units (R := answering " Same ") (PyStr "kg") (PyStr "kg")
  = Ret (PyStr "invalid: name 'Same' is not defined") /\
  calculate_score (R := answering " Same ") (inl candidate_100) (reference_50_150 "kg")
  = Ret (0, "Invalid units: kg and kg. Conversion model returned: : name 'Same' is not defined").
Proof. repeat split; vm_compute; reflexivity. Qed.

Lemma conversion_text_normalized_by_scorer_witness :
  (convert_units (R := answering "invalid") (PyStr "kg") (PyStr "m") = Ret (PyStr "invalid") /\
   calculate_score (R := answering "invalid") (inl candidate_100) (reference_50_150 "m")
   = Ret (0, "Invalid units: kg and m. Conversion model returned: ")) /\
  calculate_score (R := answering "' Same '") (inl candidate_100) (reference_150_250 "kg")
  = Ret (1, "") /\
  convert_units (R := answering " Same ") (PyStr "kg") (PyStr "kg")
  = match py_eval (Runtime := answering " Same ")
            (convert_units_locals (R := answering " Same ") (PyStr "kg") (PyStr "kg")
               " Same ") " Same " with
    | Ret v => Ret v
    | Raise e =>
        if is_Exception (exn_type e)
        then Ret (PyStr ("invalid: " ++ exn_str e))
        else Raise e
    end /\
  py_eval (Runtime := answering " Same ")
    (convert_units_locals (R := answering " Same ") (PyStr "kg") (PyStr "kg") " Same ")
    " Same "
  = Raise (Exn NameError "name 'Same' is not defined").
Proof.
  split; [split|split; [|split]].
  - apply (proj1 (proj2 (conversion_text_normalized_by_scorer (R := answering "invalid")
                           candidate_100 (reference_50_150 "m")))).
    reflexivity.
  - apply (proj2 (proj2 (proj2 (proj2 (conversion_text_normalized_by_scorer
                                         (R := answering "invalid")
                                         candidate_100 (reference_50_150 "m"))))) "invalid").
    + reflexivity.
    + discriminate.
    + reflexivity.
  - apply (proj1 (proj2 (proj2 (proj2 (conversion_text_normalized_by_scorer
                                         (R := answering "' Same '")
                                         candidate_100 (reference_150_250 "kg"))))) " Same ").
    + vm_compute. reflexivity.
    + reflexivity.
  - apply (proj1 (proj2 (proj2 (conversion_text_normalized_by_scorer
                                  (R := answering " Same ")
                                  candidate_100 (reference_50_150 "kg")))) " Same ").
    + reflexivity.
    + discriminate.
    + discriminate.
  - vm_compute. reflexivity.
Defined.

(** Counterexample to C4 as stated: the reply is 3600 between double quotes,
    no arithmetic expression but a text to [eval], and the scorer raises. *)
Lemma calculate_score_quoted_reply_raises :
  convert_units (R := answering (dq "`3600`")) (PyStr "h") (PyStr "s")
  = Ret (PyStr "3600") /\
  calculate_score (R := answering (dq "`3600`")) (inl candidate_100) (reference_150_250 "s")
  = Raise (Exn ValueError "Unexpected response from conversion model: 3600").
Proof. split; vm_compute; reflexivity. Qed.

Lemma eval_failure_scores_zero_witness :
  (convert_units (R := answering "kilograms") (PyStr "kg") (PyStr "lb")
   = Ret (PyStr "invalid: name 'kilograms' is not defined") /\
   calculate_score (R := answering "kilograms") (inl candidate_100) (reference_150_250 "lb")
   = Ret (0, "Invalid units: kg and lb. Conversion model returned: : name 'kilograms' is not defined")) /\
  (convert_units (R := answering (dq "`3600`")) (PyStr "kg") (PyStr "s")
   = Ret (PyStr "3600") /\
   calculate_score (R := answering (dq "`3600`")) (inl candidate_100) (reference_150_250 "s")
   = Raise (Exn ValueError "Unexpected response from conversion model: 3600")).
Proof.
  split.
  - apply (proj1 (eval_failure_scores_zero (R := answering "kilograms")
                    candidate_100 (reference_150_250 "lb"))
             "kilograms" (Exn NameError "name 'kilograms' is not defined")).
    + reflexivity.
    + discriminate.
    + discriminate.
    + vm_compute. reflexivity.
    + reflexivity.
  - apply (proj1 (proj2 (eval_failure_scores_zero (R := answering (dq "`3600`"))
                           candidate_100 (reference_150_250 "s")))
             (dq "`3600`") "3600").
    + reflexivity.
    + discriminate.
    + discriminate.
    + vm_compute. reflexivity.
    + discriminate.
    + reflexivity.
Defined.
(** * Further properties *)

(** ** The parser, in full *)

Section ParserInversion.

Context {R : Runtime}.

Lemma numeric_value_number (v n : py_value) :
  numeric_value v = Some n -> is_int_or_float n = true.
Proof.
  destruct v; simpl; try discriminate.
  - intros [= <-]. reflexivity.
  - destruct (float_of_str s); [intros [= <-]; reflexivity|discriminate].
Qed.

Lemma coerce_field_Ret_inv (data data' : dict) (field : string) :
  coerce_field data field = Ret data' ->
  exists n, numeric_entry data field = Some n /\ data' = dict_set data field n.
Proof.
  unfold coerce_field, numeric_entry.
  destruct (dict_get data field) as [v|] eqn:Hv; [|discriminate].
  destruct v; simpl; try discriminate.
  - intros [= <-]. exists (PyNum n). split; [reflexivity|].
    symmetry. now apply dict_set_same.
  - destruct (float_of_str s); simpl; [|discriminate].
    intros [= <-]. eexists. split; reflexivity.
Qed.

Lemma coerce_fields_Ret_inv (fields : list string) :
  forall data data' : dict,
  NoDup fields ->
  coerce_fields fields data = Ret data' ->
  forall f, In f fields -> exists n, numeric_entry data f = Some n.
Proof.
  induction fields as [|f0 rest IH]; intros data data' Hnd Hc f Hin; [destruct Hin|].
  inversion Hnd as [|? ? Hnotin Hnd']; subst.
  simpl in Hc. destruct (coerce_field data f0) as [d1|] eqn:H1; [|discriminate].
  simpl in Hc. destruct (coerce_field_Ret_inv _ _ _ H1) as (n & Hn & ->).
  destruct Hin as [<-|Hin]; [eauto|].
  destruct (IH _ _ Hnd' Hc f Hin) as [m Hm].
  exists m. rewrite numeric_entry_set_other in Hm; [exact Hm|].
  intros ->. contradiction.
Qed.

Lemma Estimate_init_Ret_inv (kwargs : dict) (e : Estimate) :
  Estimate_init kwargs = Ret e ->
  (forall k, In k (dict_keys kwargs) -> In k Estimate_fields) /\
  exists lo v hi u,
    dict_get kwargs "lower" = Some lo /\ dict_get kwargs "value" = Some v /\
    dict_get kwargs "upper" = Some hi /\ dict_get kwargs "unit" = Some u /\
    e = {| lower := lo; value := v; upper := hi; unit := u;
           name := entry_or_None kwargs "name";
           reasoning_trace := entry_or_None kwargs "reasoning_trace" |}.
Proof.
  unfold Estimate_init.
  destruct (List.find _ (dict_keys kwargs)) eqn:Hfind; [discriminate|].
  destruct (dict_get kwargs "lower") as [lo|]; [|discriminate].
  destruct (dict_get kwargs "value") as [v|]; [|discriminate].
  destruct (dict_get kwargs "upper") as [hi|]; [|discriminate].
  destruct (dict_get kwargs "unit") as [u|]; [|discriminate].
  intros [= <-]. split.
  - intros k Hk. apply mem_In.
    pose proof (find_none _ _ Hfind k Hk) as Hn. simpl in Hn.
    now apply negb_false_iff in Hn.
  - exists lo, v, hi, u. repeat split; reflexivity.
Qed.

Lemma parse_estimate_Ret_inv (text : string) (e : Estimate) :
  parse_estimate text = Ret e ->
  exists (data : dict) (lo v hi u : py_value),
    extracts text data /\
    (forall k, In k (dict_keys data) -> In k Estimate_fields) /\
    numeric_entry data "lower" = Some lo /\
    numeric_entry data "value" = Some v /\
    numeric_entry data "upper" = Some hi /\
    dict_get data "unit" = Some u /\
    e = {| lower := lo; value := v; upper := hi; unit := u;
           name := entry_or_None data "name";
           reasoning_trace := entry_or_None data "reasoning_trace" |}.
Proof.
  intros H. unfold parse_estimate in H. fold (json_span text) in H.
  destruct (negb (startswith (json_span text) "{") || negb (endswith (json_span text) "}"))
    eqn:Hb; [discriminate|].
  apply orb_false_iff in Hb. destruct Hb as [Hs He].
  apply negb_false_iff in Hs. apply negb_false_iff in He.
  destruct (json_loads (json_span text)) as [data|err] eqn:Hj;
    [|destruct (is_JSONDecodeError (exn_type err)); discriminate].
  fold (misses_required data) in H.
  destruct (misses_required data) eqn:Hm; [discriminate|].
  destruct (coerce_fields (set_iter numerical_fields) data) as [data'|] eqn:Hc;
    [|discriminate].
  simpl in H.
  destruct numerical_fields_order as [Hnd Hfields].
  assert (Hnum : forall f, In f (set_iter numerical_fields) ->
                 exists n, numeric_entry data f = Some n)
    by (apply (coerce_fields_Ret_inv _ _ _ Hnd Hc)).
  destruct (coerce_fields_numeric _ data Hnd Hnum) as (d2 & Hc2 & Hkeys & Hin & Hout).
  rewrite Hc in Hc2. injection Hc2 as <-.
  destruct (Estimate_init_Ret_inv _ _ H) as (Hk & lo & v & hi & u & Hlo & Hv & Hhi & Hu & ->).
  assert (Hl : forall f, In f numerical_fields -> In f (set_iter numerical_fields))
    by (intros f; apply Hfields).
  exists data, lo, v, hi, u. split; [repeat split; assumption|].
  split; [now rewrite <- Hkeys|].
  rewrite <- !Hin by (apply Hl; simpl; auto).
  assert (Ho : forall k, ~ In k numerical_fields -> dict_get data' k = dict_get data k).
  { intros k Hk'. apply Hout. intros Hi. apply Hk'. now apply Hfields. }
  repeat split; try assumption.
  - rewrite <- Ho; [assumption|]. simpl. intuition discriminate.
  - unfold entry_or_None. rewrite !Ho; [reflexivity| |]; simpl; intuition discriminate.
Qed.

(** X1.  The parser returns an estimate exactly when the text holds, from its
    first opening to its last closing brace, a JSON object whose keys are all
    fields of [Estimate], with a number or a text that [float] reads under
    lower, value and upper, and an entry under unit; the estimate holds these
    numbers, the unit as it stands, and name and reasoning_trace when given. *)
Theorem parse_estimate_returns_exactly (text : string) (e : Estimate) :
  parse_estimate text = Ret e <->
  exists (data : dict) (lo v hi u : py_value),
    extracts text data /\
    (forall k, In k (dict_keys data) -> In k Estimate_fields) /\
    numeric_entry data "lower" = Some lo /\
    numeric_entry data "value" = Some v /\
    numeric_entry data "upper" = Some hi /\
    dict_get data "unit" = Some u /\
    e = {| lower := lo; value := v; upper := hi; unit := u;
           name := entry_or_None data "name";
           reasoning_trace := entry_or_None data "reasoning_trace" |}.
Proof.
  split; [apply parse_estimate_Ret_inv|].
  intros (data & lo & v & hi & u & Hx & Hk & Hlo & Hv & Hhi & Hu & ->).
  now apply parse_estimate_returns.
Qed.

(** X2.  Whatever the parser returns holds a number (an int, a bool or a
    float) under lower, value and upper. *)
Theorem parse_estimate_numbers (text : string) (e : Estimate) :
  parse_estimate text = Ret e ->
  is_int_or_float (lower e) = true /\
  is_int_or_float (value e) = true /\
  is_int_or_float (upper e) = true.
Proof.
  intros H.
  destruct (parse_estimate_Ret_inv _ _ H)
    as (data & lo & v & hi & u & _ & _ & Hlo & Hv & Hhi & _ & ->).
  unfold numeric_entry in *. simpl.
  destruct (dict_get data "lower"); [|discriminate].
  destruct (dict_get data "value"); [|discriminate].
  destruct (dict_get data "upper"); [|discriminate].
  repeat split; eapply numeric_value_number; eassumption.
Qed.

End ParserInversion.

Section ParserErrors.

Context {R : Runtime}.

Lemma json_span_reversed (text : string) :
  rfind text "}" < find text "{" -> json_span text = "".
Proof.
  intros H. unfold json_span, slice.
  set (len := Z.of_nat (String.length text)).
  assert (Hlen : 0 <= len) by (unfold len; lia).
  assert (Hr : -1 <= rfind text "}")
    by (unfold rfind; destruct (rindex_of "}" text); lia).
  assert (Hz : Z.to_nat (slice_bound len (rfind text "}" + 1)
                          - slice_bound len (find text "{")) = 0%nat).
  { unfold slice_bound.
    destruct (Z.ltb_spec (find text "{") 0); [lia|].
    destruct (Z.ltb_spec (rfind text "}" + 1) 0); lia. }
  rewrite Hz. apply substring_none.
Qed.

Lemma coerce_field_raise_class (data : dict) (field : string) (e : py_exn) :
  (exists v, dict_get data field = Some v) ->
  coerce_field data field = Raise e ->
  exn_type e = ValueError \/ exn_type e = TypeError.
Proof.
  intros [v Hv]. unfold coerce_field. rewrite Hv.
  destruct v; simpl; try discriminate; try (intros [= <-]; now right).
  destruct (float_of_str s); simpl; [discriminate|].
  intros [= <-]. now left.
Qed.

Lemma coerce_fields_raise_class (fields : list string) (e : py_exn) :
  forall data : dict,
  (forall f, In f fields -> exists v, dict_get data f = Some v) ->
  coerce_fields fields data = Raise e ->
  exn_type e = ValueError \/ exn_type e = TypeError.
Proof.
  induction fields as [|f0 rest IH]; intros data Hall Hc; [discriminate|].
  simpl in Hc. destruct (coerce_field data f0) as [d1|e1] eqn:H1; simpl in Hc.
  - apply (IH d1); [|exact Hc].
    destruct (coerce_field_Ret_inv _ _ _ H1) as (n & _ & ->).
    intros f Hf. destruct (string_dec f0 f) as [<-|Hne].
    + rewrite dict_get_set_same. eauto.
    + rewrite dict_get_set_other by exact Hne. apply Hall. now right.
  - injection Hc as <-. apply (coerce_field_raise_class data f0); [|exact H1].
    apply Hall. now left.
Qed.

Lemma Estimate_init_raise_class (kwargs : dict) (e : py_exn) :
  Estimate_init kwargs = Raise e -> exn_type e = TypeError.
Proof.
  unfold Estimate_init, keyword_error.
  destruct (List.find _ (dict_keys kwargs)) as [k|];
    [destruct (String.eqb k "self"); intros [= <-]; reflexivity|].
  destruct (dict_get kwargs "lower"), (dict_get kwargs "value"),
    (dict_get kwargs "upper"), (dict_get kwargs "unit");
    try discriminate; intros [= <-]; reflexivity.
Qed.

Lemma parse_estimate_span (text1 text2 : string) :
  json_span text1 = json_span text2 -> parse_estimate text1 = parse_estimate text2.
Proof.
  intros H. unfold parse_estimate.
  fold (json_span text1). fold (json_span text2). rewrite H. reflexivity.
Qed.

Lemma append_empty (s : string) : s ++ "" = s.
Proof. induction s as [|c s IH]; simpl; congruence. Qed.

(** X22.  Prose around the object changes nothing: with no opening brace
    before an object and no closing brace after it, the parser does on the
    whole text what it does on the object alone, whether it returns or
    raises. *)
Theorem parse_estimate_ignores_prose (pre body post : string) :
  index_of "{" pre = None ->
  index_of "}" post = None ->
  startswith body "{" = true ->
  endswith body "}" = true ->
  parse_estimate (pre ++ body ++ post) = parse_estimate body.
Proof.
  intros Hpre Hpost Hs He. apply parse_estimate_span.
  rewrite (json_span_sandwich pre body post Hpre Hpost Hs He).
  pose proof (json_span_sandwich "" body "" eq_refl eq_refl Hs He) as H.
  simpl in H. rewrite append_empty in H. now rewrite H.
Qed.

(** X3.  A text with no opening brace, or whose last closing brace comes
    before its first opening brace (none at all included), or whose span
    between the two the decoder rejects, makes the parser raise the
    ValueError that the text is not a valid JSON object. *)
Theorem parse_estimate_no_object (text : string) :
  find text "{" = -1 \/ rfind text "}" < find text "{" \/
  (exists err, json_loads (json_span text) = Raise err /\
               is_JSONDecodeError (exn_type err) = true) ->
  parse_estimate text = Raise (Exn ValueError "Text is not a valid JSON object").
Proof.
  intros [H|[H|(err & Hj & Herr)]].
  - apply parse_estimate_no_brace. left.
    unfold find in H. destruct (index_of "{" text); [lia|reflexivity].
  - unfold parse_estimate. fold (json_span text).
    rewrite (json_span_reversed _ H). reflexivity.
  - unfold parse_estimate. fold (json_span text).
    destruct (negb (startswith (json_span text) "{") || negb (endswith (json_span text) "}"));
      [reflexivity|].
    rewrite Hj, Herr. reflexivity.
Qed.

(** X4.  Every exception the parser raises is a ValueError or a TypeError,
    unless it is one the JSON decoder raised that is no JSONDecodeError:
    the look-ups of the coercion loop never raise a KeyError. *)
Theorem parse_estimate_raises_only (text : string) (e : py_exn) :
  parse_estimate text = Raise e ->
  exn_type e = ValueError \/ exn_type e = TypeError \/
  (json_loads (json_span text) = Raise e /\ is_JSONDecodeError (exn_type e) = false).
Proof.
  unfold parse_estimate. fold (json_span text).
  destruct (negb (startswith (json_span text) "{") || negb (endswith (json_span text) "}"));
    [intros [= <-]; now left|].
  destruct (json_loads (json_span text)) as [data|err] eqn:Hj.
  - fold (misses_required data).
    destruct (misses_required data) eqn:Hm; [intros [= <-]; now left|].
    destruct (coerce_fields (set_iter numerical_fields) data) as [data'|e1] eqn:Hc;
      simpl.
    + intros H. right. left. now apply (Estimate_init_raise_class data').
    + intros [= <-].
      destruct (coerce_fields_raise_class (set_iter numerical_fields) e1 data) as [H|H];
        [|exact Hc|now left|now right; left].
      intros f Hf. apply (proj1 (misses_required_false data) Hm).
      destruct numerical_fields_order as [_ Hfields]. apply Hfields in Hf.
      simpl in Hf. simpl. intuition.
  - destruct (is_JSONDecodeError (exn_type err)) eqn:Hd; [intros [= <-]; now left|].
    intros [= <-]. right. right. now split.
Qed.

(** X5.  When lower, value and upper each hold a number or a text, and some
    of these texts is one that [float] does not read, the parser raises the
    ValueError that names such a field, in whatever order the set of fields
    is gone through. *)
Theorem parse_estimate_unreadable_text (text : string) (data : dict) :
  extracts text data ->
  misses_required data = false ->
  (forall f, In f numerical_fields ->
     exists v, dict_get data f = Some v /\ (is_int_or_float v = true \/ is_str v = true)) ->
  (exists f s, In f numerical_fields /\ dict_get data f = Some (PyStr s) /\
               float_of_str s = None) ->
  exists f s,
    In f numerical_fields /\ dict_get data f = Some (PyStr s) /\ float_of_str s = None /\
    parse_estimate text = Raise (Exn ValueError ("Field '" ++ f ++ "' is not a valid number")).
Proof.
  intros Hx Hm Hall Hbad.
  rewrite (parse_estimate_extracted _ _ Hx), Hm.
  destruct numerical_fields_order as [Hnd Hfields].
  assert (G : forall fields (d : dict),
            NoDup fields ->
            (forall f, In f fields ->
               exists v, dict_get d f = Some v /\
                         (is_int_or_float v = true \/ is_str v = true)) ->
            (exists f s, In f fields /\ dict_get d f = Some (PyStr s) /\
                         float_of_str s = None) ->
            exists f s, In f fields /\ dict_get d f = Some (PyStr s) /\
                        float_of_str s = None /\
                        coerce_fields fields d =
                        Raise (Exn ValueError ("Field '" ++ f ++ "' is not a valid number"))).
  { clear. induction fields as [|f0 rest IH]; intros d Hnd Hall Hbad.
    - destruct Hbad as (f & s & [] & _).
    - inversion Hnd as [|? ? Hnotin Hnd']; subst.
      destruct (Hall f0 (or_introl eq_refl)) as (v & Hv & Hkind).
      destruct (numeric_entry d f0) as [n|] eqn:Hn.
      + assert (Hother : forall f, In f rest -> dict_get (dict_set d f0 n) f = dict_get d f).
        { intros f Hf. apply dict_get_set_other. intros ->. contradiction. }
        destruct (IH (dict_set d f0 n) Hnd') as (f & s & Hf & Hs & Hnone & Hc).
        * intros f Hf. rewrite (Hother f Hf). apply Hall. now right.
        * destruct Hbad as (f & s & [<-|Hf] & Hs & Hnone).
          -- unfold numeric_entry in Hn. rewrite Hs in Hn. simpl in Hn.
             rewrite Hnone in Hn. discriminate.
          -- exists f, s. rewrite (Hother f Hf). auto.
        * exists f, s. rewrite (Hother f Hf) in Hs.
          repeat split; [now right|exact Hs|exact Hnone|].
          simpl. rewrite (coerce_field_numeric _ _ _ Hn). exact Hc.
      + unfold numeric_entry in Hn. rewrite Hv in Hn.
        destruct v; simpl in Hkind; try (destruct Hkind; discriminate);
          simpl in Hn; try discriminate.
        destruct (float_of_str s) eqn:Hs; [discriminate|].
        exists f0, s. repeat split; [now left|exact Hv|exact Hs|].
        simpl. rewrite (coerce_field_bad_text _ _ _ Hv Hs). reflexivity. }
  destruct (G (set_iter numerical_fields) data Hnd) as (f & s & Hf & Hs & Hnone & Hc).
  - intros f Hf. apply Hall. now apply Hfields.
  - destruct Hbad as (f & s & Hf & Hs). exists f, s. split; [now apply Hfields|exact Hs].
  - exists f, s. repeat split; [now apply Hfields|exact Hs|exact Hnone|].
    rewrite Hc. reflexivity.
Qed.

End ParserErrors.

(** ** The data file *)

Section DataFile.

Context {R : Runtime}.

(** The loop of [load_eval] on a row and the rest of the rows. *)
Lemma load_rows_cons (row : csv_row) (rest : list csv_row) :
  load_rows (row :: rest) =
  if has_bounds row then
    e <- row_estimate row ;;
    qe <- load_rows rest ;;
    Ret (row_question row :: fst qe, e :: snd qe)
  else load_rows rest.
Proof.
  simpl. unfold has_bounds, row_estimate.
  destruct (negb (row_lower row =? "")%string && negb (row_upper row =? "")%string);
    [|reflexivity].
  destruct (float_of_text (row_lower row)); [simpl|reflexivity].
  destruct (float_of_text (row_upper row)); [simpl|reflexivity].
  destruct (math_sqrt _); reflexivity.
Qed.

Lemma load_rows_Ret (rows : list csv_row) :
  forall questions estimates,
  load_rows rows = Ret (questions, estimates) ->
  questions = map row_question (filter has_bounds rows) /\
  Forall2 (fun row e => row_estimate row = Ret e) (filter has_bounds rows) estimates.
Proof.
  induction rows as [|row rest IH]; intros qs es H.
  - injection H as <- <-. split; [reflexivity|constructor].
  - rewrite load_rows_cons in H. cbn [filter].
    destruct (has_bounds row); [|now apply IH].
    destruct (row_estimate row) as [e|] eqn:He; [simpl in H|discriminate].
    destruct (load_rows rest) as [[qs' es']|] eqn:Hr; [simpl in H|discriminate].
    injection H as <- <-. destruct (IH _ _ eq_refl) as [-> HF].
    split; [reflexivity|now constructor].
Qed.

(** X6.  What [load_eval] returns is aligned with the rows of the data file
    that have both bounds, in their order: the questions are the questions of
    these rows, and each estimate is made of its row, with the two bounds as
    floats, their geometric mean as value and the unit of the row.  The two
    lists have one length. *)
Theorem load_eval_aligned (questions : list string) (estimates : list Estimate) :
  load_eval = Ret (questions, estimates) ->
  questions = map row_question (filter has_bounds eval_csv) /\
  Forall2 (fun row e => row_estimate row = Ret e) (filter has_bounds eval_csv) estimates /\
  List.length questions = List.length estimates.
Proof.
  intros H. destruct (load_rows_Ret _ _ _ H) as [-> HF].
  repeat split; [exact HF|].
  rewrite length_map. now apply Forall2_length in HF.
Qed.

(** X7.  One row that cannot be read aborts the load: when a row with both
    bounds has a bound that [float] does not read, or bounds whose product
    [math.sqrt] refuses, [load_eval] raises, and returns nothing of the
    file, whatever the other rows are. *)
Theorem load_eval_fails_on_bad_row (row : csv_row) :
  In row eval_csv ->
  has_bounds row = true ->
  (exists e, row_estimate row = Raise e) ->
  exists e, load_eval = Raise e.
Proof.
  intros Hin Hb He. unfold load_eval.
  induction eval_csv as [|r rest IH]; [destruct Hin|].
  rewrite load_rows_cons. destruct He as [e He].
  destruct Hin as [->|Hin].
  - rewrite Hb, He. eexists. reflexivity.
  - destruct (has_bounds r); [|auto].
    destruct (row_estimate r); [cbn [bind]|eexists; reflexivity].
    destruct (IH Hin) as [e' ->]. eexists. reflexivity.
Qed.

End DataFile.

(** ** The scorer and one query *)

Section Queries.

Context {R : Runtime}.

(** X8.  [convert_units] lets no exception of [eval] escape that is an
    [Exception]: what it raises is what the completion service raised, or
    an exception of [eval] outside [Exception], such as a KeyboardInterrupt
    or the SystemExit of a reply that calls exit. *)
Theorem convert_units_raises_only (unit1 unit2 : py_value) (e : py_exn) :
  convert_units unit1 unit2 = Raise e ->
  conversion_reply unit1 unit2 = Raise e \/
  (is_Exception (exn_type e) = false /\
   exists response,
     conversion_reply unit1 unit2 = Ret response /\
     response <> "same" /\ response <> "invalid" /\
     py_eval (convert_units_locals unit1 unit2 response) response = Raise e).
Proof.
  intros H. rewrite convert_units_reply in H.
  destruct (conversion_reply unit1 unit2) as [response|e1]; simpl in H;
    [|injection H as <-; now left].
  destruct (String.eqb_spec response "same"); [discriminate|].
  destruct (String.eqb_spec response "invalid"); [discriminate|].
  destruct (py_eval _ response) as [v|e1] eqn:He; [discriminate|].
  destruct (is_Exception (exn_type e1)) eqn:Hx; [discriminate|].
  injection H as <-. right. split; [exact Hx|]. exists response. auto.
Qed.

Lemma py_value_nested_ind (P : py_value -> Prop) :
  P PyNone ->
  (forall n, P (PyNum n)) ->
  (forall s, P (PyStr s)) ->
  (forall l, Forall P l -> P (PyList l)) ->
  (forall d, Forall (fun kv => P (snd kv)) d -> P (PyDict d)) ->
  forall v, P v.
Proof.
  intros HNone HNum HStr HList HDict.
  fix IH 1. intros [|n|s|l|d].
  - exact HNone.
  - apply HNum.
  - apply HStr.
  - apply HList. induction l as [|v l IHl]; constructor; [apply IH|exact IHl].
  - apply HDict. induction d as [|[k v] d IHd]; constructor; [apply IH|exact IHd].
Qed.

Lemma range_check_diagnostic (v f lo hi : py_value) (s : Z) (d : string) :
  (estimated_value <- py_mul v f ;;
   above_lower <- py_lt lo estimated_value ;;
   in_range <- (if above_lower then py_lt estimated_value hi else Ret false) ;;
   if in_range then Ret (1, "") else Ret (0, "")) = Ret (s, d) ->
  d = "".
Proof.
  destruct (py_mul v f) as [x|]; [simpl|discriminate].
  destruct (py_lt lo x) as [[]|]; simpl; try discriminate;
    [destruct (py_lt x hi) as [[]|]; simpl; try discriminate|];
    now intros [= <- <-].
Qed.

(** X9.  The scorer raises on an estimate only, never on the text of a
    traceback, and then in three cases only: [convert_units] raised, and the
    scorer passes its exception on; [convert_units] returned a text that,
    stripped and in lower case, is not same and does not start with invalid,
    and the scorer raises its own ValueError; or [convert_units] returned
    something that is no text, and the product or a comparison raised.  On a
    returned text the scorer raises nothing but that ValueError. *)
Theorem calculate_score_raises_only (estimated : Estimate + string) (correct : Estimate)
    (e : py_exn) :
  calculate_score estimated correct = Raise e ->
  exists est,
    estimated = inl est /\
    (convert_units (unit est) (unit correct) = Raise e \/
     (exists cf, convert_units (unit est) (unit correct) = Ret (PyStr cf) /\
                 strip (lower_str cf) <> "same" /\
                 startswith (strip (lower_str cf)) "invalid" = false /\
                 e = Exn ValueError ("Unexpected response from conversion model: " ++ cf)) \/
     (exists f, convert_units (unit est) (unit correct) = Ret f /\ is_str f = false)).
Proof.
  destruct estimated as [est|trace]; [|discriminate].
  intros H. exists est. split; [reflexivity|].
  unfold calculate_score in H.
  destruct (convert_units (unit est) (unit correct)) as [f|e1] eqn:Hc; simpl in H;
    [|injection H as <-; now left].
  right.
  destruct f as [|n|cf|l|d];
    try (right; eexists; split; reflexivity).
  left. exists cf. split; [reflexivity|].
  destruct (String.eqb_spec (strip (lower_str cf)) "same"); [discriminate|].
  destruct (startswith (strip (lower_str cf)) "invalid"); [discriminate|].
  injection H as <-. auto.
Qed.

Lemma calculate_score_one_diagnostic (estimated : Estimate + string)
    (correct : Estimate) (d : string) :
  calculate_score estimated correct = Ret (1, d) ->
  d = "" /\ exists est, estimated = inl est.
Proof.
  destruct estimated as [est|trace]; [|discriminate].
  intros Hs. split; [|eauto].
  unfold calculate_score in Hs.
  destruct (convert_units (unit est) (unit correct)) as [f|]; [simpl in Hs|discriminate].
  destruct f; try (now apply (range_check_diagnostic _ _ _ _ _ _ Hs)).
  destruct (strip (lower_str s) =? "same")%string; [injection Hs as <-; reflexivity|].
  destruct (startswith (strip (lower_str s)) "invalid"); discriminate.
Qed.

(** X21.  When the value of the candidate, the bounds of the reference and
    the conversion factor are numbers, the scorer returns a score of 0 or 1
    with an empty diagnostic, unless an int among them is too large for the
    float product, which raises an OverflowError. *)
Theorem calculate_score_numbers (est correct : Estimate) (f : py_num) :
  is_int_or_float (value est) = true ->
  is_int_or_float (lower correct) = true ->
  is_int_or_float (upper correct) = true ->
  convert_units (unit est) (unit correct) = Ret (PyNum f) ->
  calculate_score (inl est) correct = Ret (0, "") \/
  calculate_score (inl est) correct = Ret (1, "") \/
  calculate_score (inl est) correct =
    Raise (Exn OverflowError "int too large to convert to float").
Proof.
  intros Hv Hlo Hhi Hc.
  destruct (value est) as [|v| | |] eqn:Ev; try discriminate.
  destruct (lower correct) as [|lo| | |] eqn:Elo; try discriminate.
  destruct (upper correct) as [|hi| | |] eqn:Ehi; try discriminate.
  rewrite (calculate_score_factor est correct f v lo hi Ev Elo Ehi Hc).
  assert (G : (exists x, num_mul v f = Ret x) \/
              num_mul v f = Raise (Exn OverflowError "int too large to convert to float")).
  { unfold num_mul, float_of_int.
    destruct (num_view v) as [x|g], (num_view f) as [y|h]; try (left; eexists; reflexivity).
    - destruct (binary_normalize prec emax x 0 false); cbn [bind];
        try (left; eexists; reflexivity). now right.
    - destruct (binary_normalize prec emax y 0 false); cbn [bind];
        try (left; eexists; reflexivity). now right. }
  destruct G as [[x ->]| ->]; cbn [bind]; [|now right; right].
  destruct (num_ltb lo x && num_ltb x hi); auto.
Qed.

(** X10.  A query that [process_estimate] returns carries the question at
    its index, the reference estimate and the name of the estimator; its
    score is 0 or 1; and a score of 1 means that the estimator returned an
    estimate, which the query holds, and that the log of the query is
    empty. *)
Theorem process_estimate_scored (estimator : Estimator) (questions : list string)
    (i : nat) (correct : Estimate) (q : QueryEvalResult) (s : Z) :
  process_estimate estimator questions (i, correct) = Ret (q, s) ->
  nth_error questions i = Some (question q) /\
  correct_estimate q = correct /\
  estimator_name q = estimator_name_of estimator /\
  (s = 0 \/ s = 1) /\
  (s = 1 ->
   exists e, fn estimator (question q) = Ret e /\ estimate q = inl e /\ log q = []).
Proof.
  intros H. pose proof (process_estimate_binary _ _ _ _ _ H) as Hbin.
  unfold process_estimate in H.
  destruct (nth_error questions i) as [qn|]; [|discriminate].
  destruct (fn estimator qn) as [e|err] eqn:Hfn.
  - cbn [bind fst snd] in H.
    destruct (calculate_score (inl e) correct) as [[s' d]|] eqn:Hs;
      cbn [bind fst snd] in H; [|discriminate].
    injection H as <- <-. simpl.
    repeat split; try assumption.
    intros ->. exists e. repeat split; [exact Hfn|].
    destruct (calculate_score_one_diagnostic _ _ _ Hs) as [-> _]. reflexivity.
  - destruct (is_Exception (exn_type err)); [simpl in H|discriminate].
    injection H as <- <-. simpl. repeat split; auto. discriminate.
Qed.

(** X11.  When the estimator raises on the question of a query, an
    [Exception] is kept within the query: the query holds the printed
    traceback in place of an estimate, is scored 0, and logs the traceback
    (twice, as [format_exc] prints it and as the scorer hands it back, when
    it is not empty).  Any other exception leaves [process_estimate]. *)
Theorem process_estimate_contains_failure (estimator : Estimator)
    (questions : list string) (i : nat) (correct : Estimate) (qn : string) (e : py_exn) :
  nth_error questions i = Some qn ->
  fn estimator qn = Raise e ->
  process_estimate estimator questions (i, correct) =
  if is_Exception (exn_type e) then
    Ret ({| question := qn; estimate := inr (format_exception e);
            estimator_name := estimator_name_of estimator;
            correct_estimate := correct;
            log := if String.eqb (format_exception e) ""
                   then [format_exc e]
                   else [format_exc e; format_exception e] |}, 0)
  else Raise e.
Proof.
  intros Hq Hfn. unfold process_estimate. rewrite Hq, Hfn.
  destruct (is_Exception (exn_type e)); [simpl|reflexivity].
  destruct (format_exception e =? "")%string; reflexivity.
Qed.

End Queries.

(** ** Rounding to a float *)

Lemma digits2_pos_succ_le (p : positive) :
  (digits2_pos (Pos.succ p) <= Pos.succ (digits2_pos p))%positive.
Proof. induction p as [p IH|p IH|]; simpl; lia. Qed.

Lemma Zdigits2_nonneg (m : Z) : 0 <= Zdigits2 m.
Proof. destruct m; simpl; lia. Qed.

Lemma Zdigits2_succ_le (m : Z) : 0 <= m -> Zdigits2 (m + 1) <= Zdigits2 m + 1.
Proof.
  destruct m as [|p|p]; intros H; [simpl; lia| |lia].
  replace (Z.pos p + 1) with (Z.pos (Pos.succ p)) by lia.
  simpl. pose proof (digits2_pos_succ_le p). lia.
Qed.

Lemma digits2_pos_iter_xO (m d : positive) :
  Z.pos (digits2_pos (Pos.iter xO m d)) = Z.pos (digits2_pos m) + Z.pos d.
Proof.
  induction d as [|d IH] using Pos.peano_ind.
  - simpl. lia.
  - rewrite Pos.iter_succ. cbn [digits2_pos].
    change (Z.pos (Pos.succ (digits2_pos (Pos.iter xO m d)))
            = Z.pos (digits2_pos m) + Z.pos (Pos.succ d)).
    lia.
Qed.

Lemma digits2_pos_size (p : positive) : digits2_pos p = Pos.size p.
Proof. induction p as [p IH|p IH|]; simpl; congruence. Qed.

Lemma Zdigits2_log2 (p : positive) : Zdigits2 (Z.pos p) = Z.log2 (Z.pos p) + 1.
Proof. destruct p; simpl; rewrite ?digits2_pos_size; lia. Qed.

Lemma Zdigits2_le (m d : Z) : 0 <= m < 2 ^ d -> 0 <= d -> Zdigits2 m <= d.
Proof.
  intros [H0 H1] Hd. destruct m as [|p|p]; [simpl; lia| |lia].
  rewrite Zdigits2_log2. apply Z.log2_lt_pow2 in H1; lia.
Qed.

Lemma shr_1_digits (mrs : shr_record) :
  Zdigits2 (shr_m (shr_1 mrs)) = Z.max 0 (Zdigits2 (shr_m mrs) - 1) /\
  (0 <= shr_m mrs -> 0 <= shr_m (shr_1 mrs)).
Proof.
  destruct mrs as [[|[p|p|]|[p|p|]] r s]; cbn [shr_1 shr_m Zdigits2 digits2_pos];
    change PosDef.Pos.succ with Pos.succ; lia.
Qed.

Lemma iter_shr_1_digits (p : positive) :
  forall mrs,
  Zdigits2 (shr_m (iter_pos shr_1 p mrs)) = Z.max 0 (Zdigits2 (shr_m mrs) - Z.pos p) /\
  (0 <= shr_m mrs -> 0 <= shr_m (iter_pos shr_1 p mrs)).
Proof.
  induction p as [p IH|p IH|]; intros mrs; simpl.
  - destruct (IH (iter_pos shr_1 p (shr_1 mrs))) as [-> H2].
    destruct (IH (shr_1 mrs)) as [-> H1].
    destruct (shr_1_digits mrs) as [-> H0].
    pose proof (Zdigits2_nonneg (shr_m mrs)). split; [lia|auto].
  - destruct (IH (iter_pos shr_1 p mrs)) as [-> H2].
    destruct (IH mrs) as [-> H1].
    pose proof (Zdigits2_nonneg (shr_m mrs)). split; [lia|auto].
  - apply shr_1_digits.
Qed.

(** A right shift to the exponent [fexp] asks for: the exponent it leaves,
    and a bound on the digits it leaves. *)
Lemma shr_fexp_bounds (m e : Z) (l : location) (mrs : shr_record) (e' : Z) :
  0 <= m ->
  shr_fexp prec emax m e l = (mrs, e') ->
  e' = Z.max e (fexp prec emax (Zdigits2 m + e)) /\
  Zdigits2 (shr_m mrs) + e' <= Z.max (Zdigits2 m + e) (fexp prec emax (Zdigits2 m + e)) /\
  0 <= shr_m mrs.
Proof.
  intros Hm. unfold shr_fexp, shr.
  assert (Hrec : shr_m (shr_record_of_loc m l) = m) by (destruct l as [|[]]; reflexivity).
  destruct (fexp prec emax (Zdigits2 m + e) - e) as [|p|p] eqn:Hn;
    intros [= <- <-]; rewrite ?Hrec.
  - repeat split; lia.
  - destruct (iter_shr_1_digits p (shr_record_of_loc m l)) as [-> Hpos].
    rewrite Hrec in *. repeat split; [lia|lia|auto].
  - repeat split; lia.
Qed.

Lemma round_nearest_even_bounds (m : Z) (l : location) :
  0 <= m ->
  0 <= round_nearest_even m l /\
  Zdigits2 (round_nearest_even m l) <= Zdigits2 m + 1.
Proof.
  intros Hm. pose proof (Zdigits2_succ_le m Hm).
  destruct l as [|[]]; simpl; try (destruct (Z.even m)); split; lia.
Qed.

(** Rounding a mantissa and an exponent that stay below 2 to the power
    [emax - 1] does not overflow. *)
Lemma binary_round_no_overflow (s : bool) (m : positive) (e : Z) :
  Z.pos (digits2_pos m) + e <= emax - 1 ->
  forall s', binary_round prec emax s m e <> S754_infinity s'.
Proof.
  intros HE s'. unfold binary_round.
  set (E := Z.pos (digits2_pos m) + e) in *.
  destruct (shl_align m e (fexp prec emax E)) as [mz ez] eqn:Hal.
  assert (Hz : Z.pos (digits2_pos mz) + ez = E /\ ez <= fexp prec emax E).
  { unfold shl_align in Hal.
    destruct (fexp prec emax E - e) as [|d|d] eqn:Hd; injection Hal as <- <-.
    - subst E. lia.
    - subst E. lia.
    - rewrite digits2_pos_iter_xO. subst E. lia. }
  destruct Hz as [HEz Hez].
  unfold binary_round_aux.
  destruct (shr_fexp prec emax (Z.pos mz) ez loc_Exact) as [mrs1 e1] eqn:H1.
  destruct (shr_fexp_bounds _ _ _ _ _ (Pos2Z.is_nonneg mz) H1) as (He1 & Hd1 & Hm1).
  change (Zdigits2 (Z.pos mz)) with (Z.pos (digits2_pos mz)) in *.
  rewrite HEz in *.
  destruct (round_nearest_even_bounds (shr_m mrs1) (loc_of_shr_record mrs1) Hm1)
    as [Hm2 Hd2].
  destruct (shr_fexp prec emax (round_nearest_even (shr_m mrs1) (loc_of_shr_record mrs1))
              e1 loc_Exact) as [mrs2 e2] eqn:H2.
  destruct (shr_fexp_bounds _ _ _ _ _ Hm2 H2) as (He2 & _ & _).
  assert (Hfin : e2 <= emax - prec).
  { revert He1 Hd1 Hd2 He2 HE Hez. unfold fexp, SpecFloat.emin, emax, prec. lia. }
  destruct (shr_m mrs2); try discriminate.
  apply Z.leb_le in Hfin. rewrite Hfin. discriminate.
Qed.

Lemma float_of_ratio_no_overflow (neg : bool) (p q : Z) :
  0 < p <= q ->
  forall s', float_of_ratio neg p q <> S754_infinity s'.
Proof.
  intros Hpq s'. unfold float_of_ratio.
  set (k := Z.max 0 (prec + 3 + Z.log2 q - Z.log2 p)).
  set (m := 2 * (p * 2 ^ k / q) + (if p * 2 ^ k mod q =? 0 then 0 else 1)).
  assert (Hk : 0 <= k) by (unfold k; lia).
  assert (Hpow : 0 < 2 ^ k) by (apply Z.pow_pos_nonneg; lia).
  assert (Hdiv : 0 <= p * 2 ^ k / q <= 2 ^ k).
  { split; [apply Z.div_pos; nia|].
    apply Z.div_le_upper_bound; nia. }
  assert (Hm : 0 <= m < 2 ^ (k + 2)).
  { rewrite Z.pow_add_r by lia. change (2 ^ 2) with 4.
    unfold m. destruct (_ =? 0); lia. }
  pose proof (Zdigits2_le m (k + 2) Hm ltac:(lia)) as Hd.
  assert (Hd' : Zdigits2 (if neg then - m else m) <= k + 2).
  { destruct neg; [|exact Hd]. destruct m; simpl in *; lia. }
  unfold binary_normalize.
  destruct (if neg then - m else m) as [|x|x]; [discriminate| |];
    apply binary_round_no_overflow; simpl in Hd'; unfold emax; lia.
Qed.

(** The quotient of a count by a total that is not below it is a float. *)
Lemma int_truediv_fraction (a b : Z) :
  0 <= a <= b -> 0 < b -> exists f, int_truediv a b = Ret f.
Proof.
  intros Ha Hb. unfold int_truediv.
  destruct (Z.eqb_spec b 0); [lia|].
  destruct (Z.eqb_spec a 0); [eexists; reflexivity|].
  pose proof (float_of_ratio_no_overflow (xorb (a <? 0) (b <? 0)) (Z.abs a) (Z.abs b)
                ltac:(lia)) as Hno.
  destruct (float_of_ratio _ (Z.abs a) (Z.abs b)) as [| s | | ] eqn:Hf;
    try (eexists; reflexivity).
  exfalso. now apply (Hno s).
Qed.

(** ** The evaluation as a whole *)

Lemma combine_fst_snd {A B : Type} (l : list (A * B)) :
  combine (map fst l) (map snd l) = l.
Proof. induction l as [|[a b] l IH]; simpl; congruence. Qed.

Lemma map_outcome_Raise {A B : Type} (f : A -> outcome B) (items : list A) (e : py_exn) :
  map_outcome f items = Raise e -> exists x, In x items /\ f x = Raise e.
Proof.
  induction items as [|x rest IH]; simpl; [discriminate|].
  destruct (f x) as [y|e1] eqn:Hx; simpl.
  - destruct (map_outcome f rest) as [ys|e2]; simpl; [discriminate|].
    intros [= <-]. destruct (IH eq_refl) as (x' & Hin & Hx'). eauto.
  - intros [= <-]. eauto.
Qed.

Lemma map_outcome_Ret {A B : Type} (f : A -> outcome B) (items : list A) :
  forall ys, map_outcome f items = Ret ys -> Forall2 (fun x y => f x = Ret y) items ys.
Proof.
  induction items as [|x rest IH]; simpl; intros ys H.
  - injection H as <-. constructor.
  - destruct (f x) as [y|] eqn:Hx; simpl in H; [|discriminate].
    destruct (map_outcome f rest) as [ys'|]; simpl in H; [|discriminate].
    injection H as <-. constructor; auto.
Qed.

Lemma map_outcome_total {A B : Type} (f : A -> outcome B) (items : list A) :
  (forall x, In x items -> exists y, f x = Ret y) ->
  exists ys, map_outcome f items = Ret ys.
Proof.
  induction items as [|x rest IH]; intros H; simpl; [eexists; reflexivity|].
  destruct (H x (or_introl eq_refl)) as [y ->].
  destruct IH as [ys ->]; [intros x' Hx'; apply H; now right|].
  eexists. reflexivity.
Qed.

Lemma enumerate_from_In {A : Type} (items : list A) :
  forall k i x, In (i, x) (enumerate_from k items) <->
                (k <= i)%nat /\ nth_error items (i - k) = Some x.
Proof.
  induction items as [|y rest IH]; intros k i x; simpl.
  - split; [intros []|]. intros [_ H]. destruct (i - k)%nat; discriminate.
  - rewrite IH. split.
    + intros [[= <- <-]|[Hk Hn]].
      * rewrite Nat.sub_diag. split; [lia|reflexivity].
      * split; [lia|]. replace (i - k)%nat with (S (i - S k)) by lia. exact Hn.
    + intros [Hk Hn]. destruct (Nat.eq_dec i k) as [->|Hne].
      * rewrite Nat.sub_diag in Hn. left. simpl in Hn. congruence.
      * right. split; [lia|].
        replace (i - k)%nat with (S (i - S k)) in Hn by lia. exact Hn.
Qed.

Lemma count_occ_filter (results : list (QueryEvalResult * Z)) :
  count_occ Z.eq_dec (map snd results) 1
  = List.length (filter (fun qs => snd qs =? 1) results).
Proof.
  induction results as [|[q s] rest IH]; simpl; [reflexivity|].
  destruct (Z.eq_dec s 1) as [->|Hne]; simpl.
  - now rewrite IH.
  - destruct (Z.eqb_spec s 1); [contradiction|exact IH].
Qed.

Lemma filter_scores_partition (results : list (QueryEvalResult * Z)) :
  Forall (fun qs => snd qs = 0 \/ snd qs = 1) results ->
  Permutation (filter (fun qs => snd qs =? 1) results
               ++ filter (fun qs => snd qs =? 0) results)%list results.
Proof.
  induction 1 as [|[q s] rest Hs _ IH]; simpl; [constructor|].
  simpl in Hs. destruct Hs as [-> | ->]; simpl.
  - apply Permutation_sym, Permutation_cons_app, Permutation_sym, IH.
  - now constructor.
Qed.

Section Evaluation.

Context {R : Runtime}.

(** [generate_eval_result] once the data file is loaded and every query is
    processed. *)
Lemma generate_eval_result_results (estimator : Estimator)
    (questions : list string) (estimates : list Estimate)
    (results : list (QueryEvalResult * Z)) :
  load_eval = Ret (questions, estimates) ->
  estimates <> [] ->
  map_outcome (process_estimate estimator questions) (enumerate_from 0 estimates)
    = Ret results ->
  generate_eval_result estimator =
  (f <- int_truediv (Z.of_nat (List.length (filter (fun qs => snd qs =? 1) results)))
                    (Z.of_nat (List.length estimates)) ;;
   Ret {| result_name := estimator_name_of estimator ++ "_" ++ now_stamp;
          score := NFloat f;
          queries_incorrect := map fst (filter (fun qs => snd qs =? 0) results);
          queries_correct := map fst (filter (fun qs => snd qs =? 1) results) |}) /\
  List.length results = List.length estimates /\
  Forall (fun qs => snd qs = 0 \/ snd qs = 1) results.
Proof.
  intros Hload Hne Hmap.
  destruct (map_outcome_Forall (process_estimate estimator questions)
              (fun qs => snd qs = 0 \/ snd qs = 1) (enumerate_from 0 estimates))
    with (ys := results) as [Hbin Hlen]; [|exact Hmap|].
  { intros x [q s] Hx. simpl. eapply process_estimate_binary. exact Hx. }
  rewrite enumerate_from_length in Hlen.
  split; [|split; assumption].
  unfold generate_eval_result. rewrite Hload. cbn [bind fst snd]. rewrite Hmap.
  cbn [bind]. rewrite combine_fst_snd.
  destruct results as [|r0 results']; [destruct estimates; [congruence|discriminate]|].
  destruct estimates as [|c0 estimates']; [congruence|].
  rewrite sum_counts_ones, count_occ_filter;
    [destruct (int_truediv _ _); reflexivity|].
  clear -Hbin. induction Hbin; simpl; constructor; auto.
Qed.

Lemma load_eval_index (questions : list string) (estimates : list Estimate)
    (i : nat) (correct : Estimate) :
  load_eval = Ret (questions, estimates) ->
  nth_error estimates i = Some correct ->
  exists q, nth_error questions i = Some q.
Proof.
  intros Hload Hn. destruct (load_rows_Ret _ _ _ Hload) as [-> HF].
  apply Forall2_length in HF.
  destruct (nth_error (map row_question (filter has_bounds eval_csv)) i) eqn:Hq; [eauto|].
  apply nth_error_None in Hq. rewrite length_map, HF in Hq.
  apply nth_error_None in Hq. congruence.
Qed.

Lemma generate_eval_result_returns_aux (estimator : Estimator)
    (questions : list string) (estimates : list Estimate)
    (results : list (QueryEvalResult * Z)) :
  load_eval = Ret (questions, estimates) ->
  estimates <> [] ->
  map_outcome (process_estimate estimator questions) (enumerate_from 0 estimates)
    = Ret results ->
  exists r, generate_eval_result estimator = Ret r.
Proof.
  intros Hload Hne Hmap.
  destruct (generate_eval_result_results _ _ _ _ Hload Hne Hmap) as (-> & Hlen & Hbin).
  destruct (int_truediv_fraction
              (Z.of_nat (List.length (filter (fun qs => snd qs =? 1) results)))
              (Z.of_nat (List.length estimates))) as [f ->].
  - pose proof (filter_length_le (fun qs => snd qs =? 1) results). lia.
  - destruct estimates; [congruence|simpl; lia].
  - eexists. reflexivity.
Qed.

(** X12.  [generate_eval_result] returns exactly when [load_eval] returns at
    least one reference estimate and [process_estimate] returns on each of
    them: the average itself cannot fail. *)
Theorem generate_eval_result_returns (estimator : Estimator) :
  (exists r, generate_eval_result estimator = Ret r) <->
  (exists questions estimates,
     load_eval = Ret (questions, estimates) /\
     estimates <> [] /\
     forall i correct,
       nth_error estimates i = Some correct ->
       exists q s, process_estimate estimator questions (i, correct) = Ret (q, s)).
Proof.
  split.
  - intros [r H]. unfold generate_eval_result in H.
    destruct load_eval as [[questions estimates]|] eqn:Hload; [|discriminate].
    cbn [bind fst snd] in H.
    destruct (map_outcome _ (enumerate_from 0 estimates)) as [results|] eqn:Hmap;
      [|discriminate].
    cbn [bind] in H.
    exists questions, estimates. split; [reflexivity|]. split.
    + intros ->. simpl in Hmap. injection Hmap as <-. discriminate.
    + intros i correct Hn.
      assert (Hin : In (i, correct) (enumerate_from 0 estimates)).
      { apply enumerate_from_In. rewrite Nat.sub_0_r. split; [lia|exact Hn]. }
      apply map_outcome_Ret in Hmap. clear -Hmap Hin.
      induction Hmap as [|x [q s] l l' Hx _ IH]; [destruct Hin|].
      destruct Hin as [->|Hin]; [eauto|auto].
  - intros (questions & estimates & Hload & Hne & Hall).
    destruct (map_outcome_total (process_estimate estimator questions)
                (enumerate_from 0 estimates)) as [results Hmap].
    { intros [i correct] Hin. apply enumerate_from_In in Hin.
      rewrite Nat.sub_0_r in Hin. destruct Hin as [_ Hn].
      destruct (Hall i correct Hn) as (q & s & Hp). eauto. }
    now apply (generate_eval_result_returns_aux _ _ _ _ Hload Hne Hmap).
Qed.

(** X13.  In the result of [generate_eval_result] every processed query is in
    exactly one of the two lists, each list in the order of the data file:
    the queries scored 1 are the correct ones, those scored 0 the incorrect
    ones.  The score is the float quotient of the number of correct queries
    by the number of reference estimates. *)
Theorem generate_eval_result_partition (estimator : Estimator) (r : EvalResult) :
  generate_eval_result estimator = Ret r ->
  exists questions estimates results,
    load_eval = Ret (questions, estimates) /\
    map_outcome (process_estimate estimator questions) (enumerate_from 0 estimates)
      = Ret results /\
    queries_correct r = map fst (filter (fun qs => snd qs =? 1) results) /\
    queries_incorrect r = map fst (filter (fun qs => snd qs =? 0) results) /\
    Permutation (queries_correct r ++ queries_incorrect r)%list (map fst results) /\
    (List.length (queries_correct r) + List.length (queries_incorrect r)
     = List.length estimates)%nat /\
    exists f,
      score r = NFloat f /\
      int_truediv (Z.of_nat (List.length (queries_correct r)))
                  (Z.of_nat (List.length estimates)) = Ret f.
Proof.
  intros H. pose proof H as H0. unfold generate_eval_result in H0.
  destruct load_eval as [[questions estimates]|] eqn:Hload; [|discriminate].
  cbn [bind fst snd] in H0.
  destruct (map_outcome _ (enumerate_from 0 estimates)) as [results|] eqn:Hmap;
    [|discriminate].
  assert (Hne : estimates <> []).
  { intros ->. simpl in Hmap. injection Hmap as <-. discriminate. }
  clear H0.
  destruct (generate_eval_result_results _ _ _ _ Hload Hne Hmap) as (Hg & Hlen & Hbin).
  rewrite Hg in H.
  destruct (int_truediv _ _) as [f|] eqn:Hdiv; [|discriminate].
  injection H as <-. cbn [queries_correct queries_incorrect score].
  exists questions, estimates, results.
  pose proof (filter_scores_partition results Hbin) as Hperm.
  split; [first [reflexivity|exact Hload]|]. split; [first [reflexivity|exact Hmap]|].
  split; [reflexivity|]. split; [reflexivity|]. split; [|split].
  - rewrite <- map_app. now apply Permutation_map.
  - rewrite <- List.length_app, <- map_app, List.length_map, <- Hlen.
    now apply Permutation_length.
  - exists f. rewrite length_map. now split.
Qed.

(** X14.  [generate_eval_result] raises in four ways only: with what
    [load_eval] raised; with the ValueError of the unpacking when no row of
    the data file has both bounds; with an exception of the estimator that
    is no [Exception]; and with what the scorer raised on the estimate that
    the estimator returned for a query.  The index of a reference estimate
    is always one of a question. *)
Theorem generate_eval_result_raises_only (estimator : Estimator) (e : py_exn) :
  generate_eval_result estimator = Raise e ->
  load_eval = Raise e \/
  (exists questions,
     load_eval = Ret (questions, []) /\
     e = Exn ValueError "not enough values to unpack (expected 2, got 0)") \/
  (exists questions estimates i q correct,
     load_eval = Ret (questions, estimates) /\
     nth_error questions i = Some q /\
     nth_error estimates i = Some correct /\
     ((fn estimator q = Raise e /\ is_Exception (exn_type e) = false) \/
      (exists est, fn estimator q = Ret est /\
                   calculate_score (inl est) correct = Raise e))).
Proof.
  intros H. pose proof H as H0. unfold generate_eval_result in H0.
  destruct load_eval as [[questions estimates]|e1] eqn:Hload;
    [|injection H0 as <-; now left].
  right. cbn [bind fst snd] in H0.
  destruct (map_outcome _ (enumerate_from 0 estimates)) as [results|e1] eqn:Hmap.
  - destruct estimates as [|c0 estimates'].
    + left. exists questions. split; [reflexivity|].
      simpl in Hmap. injection Hmap as <-. simpl in H0. now injection H0 as <-.
    + exfalso.
      assert (Hret : exists r, generate_eval_result estimator = Ret r).
      { apply generate_eval_result_returns_aux with (questions := questions)
          (estimates := c0 :: estimates') (results := results); auto. discriminate. }
      destruct Hret as [r Hr]. congruence.
  - right. cbn [bind] in H0. injection H0 as <-.
    destruct (map_outcome_Raise _ _ _ Hmap) as ([i correct] & Hin & Hp).
    apply enumerate_from_In in Hin. rewrite Nat.sub_0_r in Hin. destruct Hin as [_ Hn].
    destruct (load_eval_index _ _ _ _ Hload Hn) as [q Hq].
    exists questions, estimates, i, q, correct.
    repeat split; try assumption.
    unfold process_estimate in Hp. rewrite Hq in Hp.
    destruct (fn estimator q) as [est|err] eqn:Hfn.
    + right. cbn [bind fst snd] in Hp.
      destruct (calculate_score (inl est) correct) as [sl|e2] eqn:Hs; [discriminate|].
      cbn [bind] in Hp. injection Hp as <-. eauto.
    + destruct (is_Exception (exn_type err)) eqn:Hx.
      * cbn [bind fst snd calculate_score] in Hp. discriminate.
      * cbn [bind] in Hp. injection Hp as <-. left. now split.
Qed.

End Evaluation.

(** ** The baseline estimator *)

Section Baseline.

Context {R : Runtime}.

Lemma run_simple_llm_estimator_turns (model question : string) :
  run_simple_llm_estimator model question =
  response_text <- completion model (first_turn question) max_tokens_1000 ;;
  response2_text <-
    completion model (second_turn question response_text) max_tokens_1000 ;;
  estimate <- parse_estimate response2_text ;;
  Ret {| lower := lower estimate; value := value estimate; upper := upper estimate;
         unit := unit estimate; name := name estimate;
         reasoning_trace :=
           PyList (map message_value (second_turn question response_text)) |}.
Proof. reflexivity. Qed.

(** X15.  [run_simple_llm_estimator] returns exactly when the model replies
    twice and its second reply holds a JSON object that the parser accepts.
    The estimate has the numbers, the unit and the name of that object; its
    reasoning trace is the conversation of three messages (the prompt, the
    first reply and the request for JSON), in place of any reasoning_trace
    the object held, and without the second reply. *)
Theorem run_simple_llm_estimator_returns_exactly (model question : string)
    (e : Estimate) :
  run_simple_llm_estimator model question = Ret e <->
  exists (r1 r2 : string) (data : dict) (lo v hi u : py_value),
    completion model (first_turn question) max_tokens_1000 = Ret r1 /\
    completion model (second_turn question r1) max_tokens_1000 = Ret r2 /\
    extracts r2 data /\
    (forall k, In k (dict_keys data) -> In k Estimate_fields) /\
    numeric_entry data "lower" = Some lo /\
    numeric_entry data "value" = Some v /\
    numeric_entry data "upper" = Some hi /\
    dict_get data "unit" = Some u /\
    e = {| lower := lo; value := v; upper := hi; unit := u;
           name := entry_or_None data "name";
           reasoning_trace :=
             PyList [PyDict [("content", PyStr (estimator_prompt question));
                             ("role", PyStr "user")];
                     PyDict [("content", PyStr r1); ("role", PyStr "assistant")];
                     PyDict [("content", PyStr format_request);
                             ("role", PyStr "user")]] |}.
Proof.
  rewrite run_simple_llm_estimator_turns. split.
  - intros H.
    destruct (completion model (first_turn question) max_tokens_1000) as [r1|] eqn:H1;
      [|discriminate].
    cbn [bind] in H.
    destruct (completion model (second_turn question r1) max_tokens_1000) as [r2|] eqn:H2;
      [|discriminate].
    cbn [bind] in H.
    destruct (parse_estimate r2) as [p|] eqn:Hp; [|discriminate].
    cbn [bind] in H. injection H as <-.
    destruct (parse_estimate_Ret_inv _ _ Hp)
      as (data & lo & v & hi & u & Hx & Hk & Hlo & Hv & Hhi & Hu & ->).
    exists r1, r2, data, lo, v, hi, u. repeat split; try assumption; apply Hx.
  - intros (r1 & r2 & data & lo & v & hi & u & H1 & H2 & Hx & Hk & Hlo & Hv & Hhi & Hu & ->).
    rewrite H1. cbn [bind]. rewrite H2. cbn [bind].
    rewrite (parse_estimate_returns _ _ _ _ _ _ Hx Hk Hlo Hv Hhi Hu). reflexivity.
Qed.

(** X16.  A query of the baseline estimator whose second reply holds no JSON
    object (no opening brace, or no closing brace after the first opening
    one) is scored 0: the ValueError of the parser is kept within the query,
    which holds its traceback in place of an estimate. *)
Theorem simple_llm_estimator_unparsed_reply (model : string) (questions : list string)
    (i : nat) (correct : Estimate) (qn r1 r2 : string) :
  nth_error questions i = Some qn ->
  completion model (first_turn qn) max_tokens_1000 = Ret r1 ->
  completion model (second_turn qn r1) max_tokens_1000 = Ret r2 ->
  find r2 "{" = -1 \/ rfind r2 "}" < find r2 "{" ->
  exists q,
    process_estimate (simple_llm_estimator model) questions (i, correct) = Ret (q, 0) /\
    question q = qn /\
    estimator_name q = "simple_llm_estimator:" ++ model /\
    estimate q =
      inr (format_exception (Exn ValueError "Text is not a valid JSON object")).
Proof.
  intros Hq H1 H2 Hno.
  assert (Hp : parse_estimate r2 = Raise (Exn ValueError "Text is not a valid JSON object")).
  { destruct Hno as [H|H].
    - apply parse_estimate_no_brace. left.
      unfold find in H. destruct (index_of "{" r2); [lia|reflexivity].
    - unfold parse_estimate. fold (json_span r2).
      rewrite (json_span_reversed _ H). reflexivity. }
  assert (Hfn : fn (simple_llm_estimator model) qn
                = Raise (Exn ValueError "Text is not a valid JSON object")).
  { cbn [simple_llm_estimator create_estimator fn].
    rewrite run_simple_llm_estimator_turns, H1. cbn [bind]. rewrite H2. cbn [bind].
    rewrite Hp. reflexivity. }
  unfold process_estimate. rewrite Hq, Hfn. cbn [exn_type is_Exception bind fst snd].
  cbn [calculate_score bind fst snd].
  eexists. split; [reflexivity|]. repeat split.
Qed.

End Baseline.

(** ** The tolerance test *)

Section Tolerance.

Context {R : Runtime}.

(** X17.  Once a text is on either side, the tolerance test compares for
    equality.  Against an expected text it holds exactly when the actual
    value is that same text and [float] does not read it: a text that
    [float] reads, such as 1 or nan, is turned into a float first and then
    differs from every text.  And an actual text that [float] does not read,
    such as invalid, matches that same expected text only, and no number. *)
Theorem is_within_tolerance_text (tolerance : py_num) :
  (forall (expected : string) (actual : py_value),
     is_within_tolerance (PyStr expected) actual tolerance =
     Ret (match actual with
          | PyStr a =>
              match float_of_str a with
              | Some _ => false
              | None => String.eqb expected a
              end
          | _ => false
          end)) /\
  (forall (expected : py_value) (a : string),
     float_of_str a = None ->
     is_within_tolerance expected (PyStr a) tolerance =
     Ret (match expected with
          | PyStr x => String.eqb x a
          | _ => false
          end)).
Proof.
  split.
  - intros expected actual. unfold is_within_tolerance. cbn [is_str orb].
    destruct actual as [|n|a|l|d]; cbn [py_float]; try reflexivity.
    + destruct (num_view n) as [z|f]; [destruct (float_of_int z)|]; reflexivity.
    + destruct (float_of_str a); reflexivity.
  - intros expected a Ha. unfold is_within_tolerance. cbn [py_float]. rewrite Ha.
    destruct expected; reflexivity.
Qed.

End Tolerance.

(** ** The encoder *)

Lemma default_list (l : list py_value) :
  default (PyList l) = items <- map_outcome default l ;; Ret (PyList items).
Proof.
  cbn [default]. f_equal. induction l as [|v l IH]; [reflexivity|].
  cbn [map_outcome]. rewrite <- IH. reflexivity.
Qed.

Lemma default_dict (d : list (string * py_value)) :
  default (PyDict d) =
  entries <- map_outcome (fun kv => v' <- default (snd kv) ;; Ret (fst kv, v')) d ;;
  Ret (PyDict entries).
Proof.
  cbn [default]. f_equal. induction d as [|[k v] d IH]; [reflexivity|].
  cbn [map_outcome fst snd]. rewrite <- IH.
  destruct (default v); reflexivity.
Qed.


(** X18.  What [default] returns holds no number: every int, bool and float
    of the value, at any depth of its lists and dicts, has become the text
    of its format.  [default] leaves such a result as it is. *)
Theorem default_texts_only (v w : py_value) :
  default v = Ret w -> holds_number w = false /\ default w = Ret w.
Proof.
  revert w. induction v as [|n|s|l IHl|d IHd] using py_value_nested_ind; intros w.
  - intros [= <-]. split; reflexivity.
  - cbn [default]. destruct (format_num_3e n); cbn [bind]; [|discriminate].
    intros [= <-]. split; reflexivity.
  - intros [= <-]. split; reflexivity.
  - rewrite default_list.
    destruct (map_outcome default l) as [items|] eqn:Hm; cbn [bind]; [|discriminate].
    intros [= <-]. rewrite default_list.
    revert items Hm. induction IHl as [|v l Hv _ IH]; intros items Hm.
    + injection Hm as <-. split; reflexivity.
    + cbn [map_outcome] in Hm.
      destruct (default v) as [v'|] eqn:Hd; cbn [bind] in Hm; [|discriminate].
      destruct (map_outcome default l) as [items'|]; cbn [bind] in Hm; [|discriminate].
      injection Hm as <-.
      destruct (Hv v' eq_refl) as [Hn Hf].
      destruct (IH items' eq_refl) as [Hn' Hf'].
      cbn [holds_number existsb map_outcome] in *. rewrite Hn, Hf. cbn [orb bind].
      split; [exact Hn'|].
      destruct (map_outcome default items') as [x|]; cbn [bind] in *; [|discriminate].
      now injection Hf' as ->.
  - rewrite default_dict.
    destruct (map_outcome _ d) as [entries|] eqn:Hm; cbn [bind]; [|discriminate].
    intros [= <-]. rewrite default_dict.
    revert entries Hm. induction IHd as [|[k v] d Hv _ IH]; intros entries Hm.
    + injection Hm as <-. split; reflexivity.
    + cbn [map_outcome fst snd] in Hm. cbn [snd] in Hv.
      destruct (default v) as [v'|] eqn:Hd; cbn [bind] in Hm; [|discriminate].
      destruct (map_outcome _ d) as [entries'|]; cbn [bind] in Hm; [|discriminate].
      injection Hm as <-.
      destruct (Hv v' eq_refl) as [Hn Hf].
      destruct (IH entries' eq_refl) as [Hn' Hf'].
      cbn [holds_number existsb map_outcome fst snd] in *. rewrite Hn, Hf. cbn [orb bind].
      split; [exact Hn'|].
      destruct (map_outcome _ entries') as [x|]; cbn [bind] in *; [|discriminate].
      now injection Hf' as ->.
Qed.


(** X20.  What [default] makes of the result of an evaluation is a dict of
    four entries in the order of the fields: the name, the score as the text
    of its format (no number), and the two lists of queries, as long as they
    were. *)
Theorem default_EvalResult_shape (r : EvalResult) (w : py_value) :
  default_EvalResult r = Ret w ->
  exists (s : string) (incorrect correct : list py_value),
    w = PyDict [("estimator_name", PyStr (result_name r)); ("score", PyStr s);
                ("queries_incorrect", PyList incorrect);
                ("queries_correct", PyList correct)] /\
    format_num_3e (score r) = Ret s /\
    List.length incorrect = List.length (queries_incorrect r) /\
    List.length correct = List.length (queries_correct r).
Proof.
  unfold default_EvalResult, asdict_EvalResult. rewrite default_dict.
  cbn [map_outcome fst snd]. rewrite !default_list. cbn [default bind].
  destruct (format_num_3e (score r)) as [s|]; cbn [bind]; [|discriminate].
  destruct (map_outcome default (map asdict_QueryEvalResult (queries_incorrect r)))
    as [incorrect|] eqn:Hi; cbn [bind]; [|discriminate].
  destruct (map_outcome default (map asdict_QueryEvalResult (queries_correct r)))
    as [correct|] eqn:Hc; cbn [bind]; [|discriminate].
  intros [= <-]. exists s, incorrect, correct.
  apply map_outcome_Ret, Forall2_length in Hi, Hc.
  rewrite List.length_map in Hi, Hc. auto.
Qed.

(** ** Further runs of the program *)

Lemma parse_estimate_numbers_witness :
  is_int_or_float (PyNum (NFloat (flt 300))) = true /\
  is_int_or_float (PyNum (NInt 20)) = true /\
  is_int_or_float (PyNum (NFloat (S754_finite false 6755399441055744 (-52)))) = true.
Proof.
  apply (parse_estimate_numbers (R := answering "") disordered_text
           {| lower := PyNum (NFloat (flt 300)); value := PyNum (NInt 20);
              upper := PyNum (NFloat (S754_finite false 6755399441055744 (-52)));
              unit := PyStr "m"; name := PyStr "depth"; reasoning_trace := PyNone |}).
  vm_compute. reflexivity.
Defined.

Lemma parse_estimate_no_object_witness :
  parse_estimate (R := answering "") "} I cannot say {"
  = Raise (Exn ValueError "Text is not a valid JSON object").
Proof.
  apply (parse_estimate_no_object (R := answering "")).
  right. left. vm_compute. reflexivity.
Defined.

Lemma parse_estimate_ignores_prose_witness :
  parse_estimate (R := answering "") (spiders_head ++ spiders_object ++ spiders_tail)
  = parse_estimate (R := answering "") spiders_object.
Proof.
  apply (parse_estimate_ignores_prose (R := answering "")); reflexivity.
Defined.

Lemma parse_estimate_raises_only_witness :
  exn_type (Exn TypeError
              "float() argument must be a string or a real number, not 'NoneType'")
  = ValueError \/
  exn_type (Exn TypeError
              "float() argument must be a string or a real number, not 'NoneType'")
  = TypeError \/
  (json_loads (Runtime := answering "") (json_span null_lower_text)
   = Raise (Exn TypeError
              "float() argument must be a string or a real number, not 'NoneType'") /\
   is_JSONDecodeError
     (exn_type (Exn TypeError
                  "float() argument must be a string or a real number, not 'NoneType'"))
   = false).
Proof.
  apply (parse_estimate_raises_only (R := answering "") null_lower_text).
  vm_compute. reflexivity.
Defined.

Lemma parse_estimate_unreadable_text_witness :
  exists f s,
    In f numerical_fields /\ dict_get abc_data f = Some (PyStr s) /\
    float_of_str (Runtime := answering "") s = None /\
    parse_estimate (R := answering "") abc_text
    = Raise (Exn ValueError ("Field '" ++ f ++ "' is not a valid number")).
Proof.
  apply (parse_estimate_unreadable_text (R := answering "") abc_text abc_data).
  - vm_compute. auto.
  - reflexivity.
  - intros f [<-|[<-|[<-|[]]]]; eexists; (split; [reflexivity|]); simpl; auto.
  - exists "lower", "abc". split; [simpl; auto|]. split; reflexivity.
Defined.

Lemma load_eval_aligned_witness :
  ["How many kg does a person weigh?"]
  = map row_question (filter has_bounds (eval_csv (Runtime := cpython (replying "same" two_rows)))) /\
  Forall2 (fun row e => row_estimate (R := cpython (replying "same" two_rows)) row = Ret e)
    (filter has_bounds (eval_csv (Runtime := cpython (replying "same" two_rows))))
    [reference_50_200] /\
  List.length ["How many kg does a person weigh?"] = List.length [reference_50_200].
Proof.
  apply (load_eval_aligned (R := cpython (replying "same" two_rows))).
  vm_compute. reflexivity.
Defined.

Lemma load_eval_fails_on_bad_row_witness :
  exists e, load_eval (R := cpython (replying "same" unreadable_rows)) = Raise e.
Proof.
  apply (load_eval_fails_on_bad_row (R := cpython (replying "same" unreadable_rows))
           {| row_question := "How long is a piece of string?";
              row_lower := "abc"; row_upper := "5"; row_unit := "m" |}).
  - simpl. auto.
  - reflexivity.
  - eexists. vm_compute. reflexivity.
Defined.

Lemma convert_units_raises_only_witness :
  conversion_reply (R := cpython (unreachable_service [])) (PyStr "kg") (PyStr "lb")
  = Raise (Exn RuntimeError "service unavailable") \/
  (is_Exception (exn_type (Exn RuntimeError "service unavailable")) = false /\
   exists response,
     conversion_reply (R := cpython (unreachable_service [])) (PyStr "kg") (PyStr "lb")
     = Ret response /\
     response <> "same" /\ response <> "invalid" /\
     py_eval (Runtime := cpython (unreachable_service []))
       (convert_units_locals (R := cpython (unreachable_service []))
          (PyStr "kg") (PyStr "lb") response) response
     = Raise (Exn RuntimeError "service unavailable")).
Proof.
  apply (convert_units_raises_only (R := cpython (unreachable_service []))).
  reflexivity.
Defined.

Lemma calculate_score_raises_only_witness :
  exists est,
    (inl candidate_100 : Estimate + string) = inl est /\
    (convert_units (R := answering (dq "`3600`")) (unit est) (PyStr "s")
     = Raise (Exn ValueError "Unexpected response from conversion model: 3600") \/
     (exists cf, convert_units (R := answering (dq "`3600`")) (unit est) (PyStr "s")
                 = Ret (PyStr cf) /\
                 strip (lower_str cf) <> "same" /\
                 startswith (strip (lower_str cf)) "invalid" = false /\
                 Exn ValueError "Unexpected response from conversion model: 3600"
                 = Exn ValueError ("Unexpected response from conversion model: " ++ cf)) \/
     (exists f, convert_units (R := answering (dq "`3600`")) (unit est) (PyStr "s")
                = Ret f /\ is_str f = false)).
Proof.
  apply (calculate_score_raises_only (R := answering (dq "`3600`"))
           (inl candidate_100) (reference_150_250 "s")).
  vm_compute. reflexivity.
Defined.

Lemma calculate_score_numbers_witness :
  calculate_score (R := answering "2") (inl candidate_100) (reference_150_250 "lb")
  = Ret (0, "") \/
  calculate_score (R := answering "2") (inl candidate_100) (reference_150_250 "lb")
  = Ret (1, "") \/
  calculate_score (R := answering "2") (inl candidate_100) (reference_150_250 "lb")
  = Raise (Exn OverflowError "int too large to convert to float").
Proof.
  apply (calculate_score_numbers (R := answering "2") candidate_100
           (reference_150_250 "lb") (NInt 2)); reflexivity.
Defined.

Lemma process_estimate_scored_witness :
  nth_error ["How many kg does a person weigh?"] 0 = Some (question person_query) /\
  correct_estimate person_query = reference_50_200 /\
  estimator_name person_query = estimator_name_of some_estimator /\
  (1 = 0 \/ 1 = 1) /\
  (1 = 1 ->
   exists e, fn some_estimator (question person_query) = Ret e /\
             estimate person_query = inl e /\ log person_query = []).
Proof.
  apply (process_estimate_scored (R := answering "same")).
  vm_compute. reflexivity.
Defined.

Lemma process_estimate_contains_failure_witness :
  process_estimate (R := cpython (unreachable_service []))
    (simple_llm_estimator (R := cpython (unreachable_service [])) "gpt-4o")
    ["How many kg does a person weigh?"] (0%nat, reference_50_200)
  = Ret ({| question := "How many kg does a person weigh?";
            estimate := inr "Traceback (most recent call last): service unavailable";
            estimator_name := "simple_llm_estimator:gpt-4o";
            correct_estimate := reference_50_200;
            log := ["Traceback (most recent call last): service unavailable";
                    "Traceback (most recent call last): service unavailable"] |}, 0).
Proof.
  apply (process_estimate_contains_failure (R := cpython (unreachable_service []))
           (simple_llm_estimator (R := cpython (unreachable_service [])) "gpt-4o")
           _ 0%nat reference_50_200
           "How many kg does a person weigh?" (Exn RuntimeError "service unavailable"));
    reflexivity.
Defined.

Lemma generate_eval_result_partition_witness :
  exists questions estimates results,
    load_eval (R := cpython (replying "same" two_rows)) = Ret (questions, estimates) /\
    map_outcome (process_estimate (R := cpython (replying "same" two_rows))
                   some_estimator questions) (enumerate_from 0 estimates)
      = Ret results /\
    queries_correct person_result = map fst (filter (fun qs => snd qs =? 1) results) /\
    queries_incorrect person_result = map fst (filter (fun qs => snd qs =? 0) results) /\
    Permutation (queries_correct person_result ++ queries_incorrect person_result)%list
      (map fst results) /\
    (List.length (queries_correct person_result)
     + List.length (queries_incorrect person_result)
     = List.length estimates)%nat /\
    exists f,
      score person_result = NFloat f /\
      int_truediv (Z.of_nat (List.length (queries_correct person_result)))
                  (Z.of_nat (List.length estimates)) = Ret f.
Proof.
  apply (generate_eval_result_partition (R := cpython (replying "same" two_rows))
           some_estimator).
  vm_compute. reflexivity.
Defined.

Lemma generate_eval_result_raises_only_witness :
  load_eval (R := cpython (replying (dq "`3600`") two_rows))
  = Raise (Exn ValueError "Unexpected response from conversion model: 3600") \/
  (exists questions,
     load_eval (R := cpython (replying (dq "`3600`") two_rows)) = Ret (questions, []) /\
     Exn ValueError "Unexpected response from conversion model: 3600"
     = Exn ValueError "not enough values to unpack (expected 2, got 0)") \/
  (exists questions estimates i q correct,
     load_eval (R := cpython (replying (dq "`3600`") two_rows))
     = Ret (questions, estimates) /\
     nth_error questions i = Some q /\
     nth_error estimates i = Some correct /\
     ((fn some_estimator q
       = Raise (Exn ValueError "Unexpected response from conversion model: 3600") /\
       is_Exception
         (exn_type (Exn ValueError "Unexpected response from conversion model: 3600"))
       = false) \/
      (exists est,
         fn some_estimator q = Ret est /\
         calculate_score (R := cpython (replying (dq "`3600`") two_rows))
           (inl est) correct
         = Raise (Exn ValueError "Unexpected response from conversion model: 3600")))).
Proof.
  apply (generate_eval_result_raises_only (R := cpython (replying (dq "`3600`") two_rows))
           some_estimator).
  vm_compute. reflexivity.
Defined.

Lemma simple_llm_estimator_unparsed_reply_witness :
  exists q,
    process_estimate (R := answering "I cannot say")
      (simple_llm_estimator (R := answering "I cannot say") "gpt-4o")
      ["How many kg does a person weigh?"] (0%nat, reference_50_200) = Ret (q, 0) /\
    question q = "How many kg does a person weigh?" /\
    estimator_name q = "simple_llm_estimator:" ++ "gpt-4o" /\
    estimate q =
      inr (format_exception (Runtime := answering "I cannot say")
             (Exn ValueError "Text is not a valid JSON object")).
Proof.
  apply (simple_llm_estimator_unparsed_reply (R := answering "I cannot say")
           "gpt-4o" _ 0%nat reference_50_200 _ "I cannot say" "I cannot say").
  - reflexivity.
  - reflexivity.
  - reflexivity.
  - left. reflexivity.
Defined.

Lemma default_texts_only_witness :
  holds_number (PyDict [("lower", PyStr "5.000e+01"); ("value", PyStr "1.000e+02");
                        ("upper", PyStr "2.000e+02"); ("unit", PyStr "kg");
                        ("name", PyNone); ("reasoning_trace", PyNone)]) = false /\
  default (PyDict [("lower", PyStr "5.000e+01"); ("value", PyStr "1.000e+02");
                   ("upper", PyStr "2.000e+02"); ("unit", PyStr "kg");
                   ("name", PyNone); ("reasoning_trace", PyNone)])
  = Ret (PyDict [("lower", PyStr "5.000e+01"); ("value", PyStr "1.000e+02");
                 ("upper", PyStr "2.000e+02"); ("unit", PyStr "kg");
                 ("name", PyNone); ("reasoning_trace", PyNone)]).
Proof.
  apply (default_texts_only (asdict_Estimate candidate_100)).
  vm_compute. reflexivity.
Defined.


Lemma default_EvalResult_shape_witness :
  exists (s : string) (incorrect correct : list py_value),
    PyDict [("estimator_name", PyStr "constant_2024-08-01_12-00-00");
            ("score", PyStr "1.000e+00");
            ("queries_incorrect", PyList []);
            ("queries_correct",
             PyList [PyDict [("question", PyStr "How many kg does a person weigh?");
                             ("estimate",
                              PyDict [("lower", PyStr "5.000e+01");
                                      ("value", PyStr "1.000e+02");
                                      ("upper", PyStr "2.000e+02");
                                      ("unit", PyStr "kg"); ("name", PyNone);
                                      ("reasoning_trace", PyNone)]);
                             ("estimator_name", PyStr "constant");
                             ("correct_estimate",
                              PyDict [("lower", PyStr "5.000e+01");
                                      ("value", PyStr "1.000e+02");
                                      ("upper", PyStr "2.000e+02");
                                      ("unit", PyStr "kg"); ("name", PyNone);
                                      ("reasoning_trace", PyNone)]);
                             ("log", PyList [])]])]
    = PyDict [("estimator_name", PyStr (result_name person_result)); ("score", PyStr s);
              ("queries_incorrect", PyList incorrect);
              ("queries_correct", PyList correct)] /\
    format_num_3e (score person_result) = Ret s /\
    List.length incorrect = List.length (queries_incorrect person_result) /\
    List.length correct = List.length (queries_correct person_result).
Proof.
  apply (default_EvalResult_shape person_result).
  vm_compute. reflexivity.
Defined.
